(** * Auto-heal lambda: alert-to-remediation pipeline

    Shallow embedding of [lambda/auto_heal_lambda.py] and the properties of
    its parser, identifier extractor, classifier, executor, reporter and
    handler.

    Modelling conventions.
    - Python values that travel through the handler are JSON-shaped; they
      are embedded as [pyval].  A dict is an association list read by its
      first binding for a key.
    - Python strings are embedded as [string], the bytes of an encoding
      that keeps ASCII, such as UTF-8; substring, prefix and the pattern
      [i-[a-z0-9]+] read the same on the bytes as on the code points.
      [str.lower], which folds all of Unicode, is a field of the
      environment.
    - Every exception raised in the modelled code is a subclass of
      [Exception]; it carries its class and the text [str(e)] gives.
    - The module globals read from the process environment, the clock,
      [json.loads], [json.dumps], [str.lower], [str()] on non-strings and
      the three boto3 clients are the fields of an environment record
      [Env].
    - The logger is modelled as the list of records handed to it, whatever
      the configured level. *)

From Stdlib Require Import String Ascii List ZArith Bool Lia.
Import ListNotations.
Local Open Scope string_scope.
Local Open Scope list_scope.
Local Set Warnings "-register-all".

(** ** Python values *)

Inductive pyval : Type :=
| PNone : pyval
| PBool : bool -> pyval
| PInt : Z -> pyval
| PFloat : Z -> Z -> pyval            (* mantissa, binary exponent *)
| PStr : string -> pyval
| PList : list pyval -> pyval
| PDict : list (string * pyval) -> pyval.

Inductive exn_class : Type :=
| KeyError | TypeError | IndexError | AttributeError
| JSONDecodeError
| OtherException (name : string).

Record exn : Type := mkExn { exn_cls : exn_class; exn_str : string }.

Definition exn_class_eqb (a b : exn_class) : bool :=
  match a, b with
  | KeyError, KeyError | TypeError, TypeError | IndexError, IndexError
  | AttributeError, AttributeError | JSONDecodeError, JSONDecodeError => true
  | OtherException n, OtherException m => String.eqb n m
  | _, _ => false
  end.

(** Pure fallible computations: [inl e] is a raised exception. *)
Definition res (A : Type) : Type := (exn + A)%type.

Definition res_bind {A B} (r : res A) (k : A -> res B) : res B :=
  match r with inl e => inl e | inr a => k a end.

(** ** Strings *)

Definition dq : string := String (ascii_of_nat 34) EmptyString.
Definition sq : string := "'".

Definition is_upper (c : ascii) : bool :=
  let n := nat_of_ascii c in (65 <=? n)%nat && (n <=? 90)%nat.

Definition is_lower (c : ascii) : bool :=
  let n := nat_of_ascii c in (97 <=? n)%nat && (n <=? 122)%nat.

Definition is_digit (c : ascii) : bool :=
  let n := nat_of_ascii c in (48 <=? n)%nat && (n <=? 57)%nat.

(** What [str.lower] does to one ASCII character.  [str.lower] itself
    folds all of Unicode and is a field of [Env]. *)
Definition lower_char (c : ascii) : ascii :=
  if is_upper c then ascii_of_nat (nat_of_ascii c + 32) else c.

(** [needle in hay] on two strings *)
Fixpoint contains (needle hay : string) : bool :=
  String.prefix needle hay ||
  match hay with
  | EmptyString => false
  | String _ t => contains needle t
  end.

(** [s.startswith(p)] *)
Definition startswith (p s : string) : bool := String.prefix p s.

(** The character class [[a-z0-9]] of the pattern. *)
Definition id_char (c : ascii) : bool := is_lower c || is_digit c.

(** Longest prefix of characters of a class: the greedy [+] of the pattern. *)
Fixpoint take_while (p : ascii -> bool) (s : string) : string :=
  match s with
  | EmptyString => EmptyString
  | String c t => if p c then String c (take_while p t) else EmptyString
  end.

(** A match of [i-[a-z0-9]+] anchored at the start of [s]. *)
Definition match_id_here (s : string) : option string :=
  match s with
  | String "i" (String "-" t) =>
      match take_while id_char t with
      | EmptyString => None
      | m => Some (String "i" (String "-" m))
      end
  | _ => None
  end.

(** [re.search(r'(i-[a-z0-9]+)', s)] followed by [match.group(1)]:
    the leftmost position where the pattern matches, matched greedily. *)
Fixpoint re_search_id (s : string) : option string :=
  match match_id_here s with
  | Some m => Some m
  | None =>
      match s with
      | EmptyString => None
      | String _ t => re_search_id t
      end
  end.

(** ** Operations on Python values *)

Fixpoint assoc (k : string) (kvs : list (string * pyval)) : option pyval :=
  match kvs with
  | [] => None
  | (k', v) :: rest => if String.eqb k k' then Some v else assoc k rest
  end.

Definition type_name (v : pyval) : string :=
  match v with
  | PNone => "NoneType" | PBool _ => "bool" | PInt _ => "int"
  | PFloat _ _ => "float" | PStr _ => "str" | PList _ => "list"
  | PDict _ => "dict"
  end.

Definition raise_attr {A} (v : pyval) (attr : string) : res A :=
  inl (mkExn AttributeError
         (sq ++ type_name v ++ "' object has no attribute '" ++ attr ++ sq)).

(** [bool(v)] *)
Definition py_truthy (v : pyval) : bool :=
  match v with
  | PNone => false
  | PBool b => b
  | PInt n => negb (Z.eqb n 0)
  | PFloat m _ => negb (Z.eqb m 0)
  | PStr s => negb (String.eqb s "")
  | PList l => match l with [] => false | _ => true end
  | PDict l => match l with [] => false | _ => true end
  end.

Definition is_str (v : pyval) : bool :=
  match v with PStr _ => true | _ => false end.

(** [v == 'literal'] *)
Definition py_eq_str (v : pyval) (s : string) : bool :=
  match v with PStr t => String.eqb t s | _ => false end.

(** [v[key]] with a string key *)
Definition getitem (v : pyval) (key : string) : res pyval :=
  match v with
  | PDict kvs =>
      match assoc key kvs with
      | Some x => inr x
      | None => inl (mkExn KeyError (sq ++ key ++ sq))
      end
  | PStr _ => inl (mkExn TypeError "string indices must be integers")
  | PList _ => inl (mkExn TypeError "list indices must be integers or slices, not str")
  | _ => inl (mkExn TypeError (sq ++ type_name v ++ "' object is not subscriptable"))
  end.

(** [v[0]] *)
Definition getitem0 (v : pyval) : res pyval :=
  match v with
  | PList (x :: _) => inr x
  | PList [] => inl (mkExn IndexError "list index out of range")
  | PStr (String c _) => inr (PStr (String c EmptyString))
  | PStr EmptyString => inl (mkExn IndexError "string index out of range")
  | PDict _ => inl (mkExn KeyError "0")
  | _ => inl (mkExn TypeError (sq ++ type_name v ++ "' object is not subscriptable"))
  end.

(** [v.get(key, default)] *)
Definition py_get (v : pyval) (key : string) (default : pyval) : res pyval :=
  match v with
  | PDict kvs =>
      match assoc key kvs with
      | Some x => inr x
      | None => inr default
      end
  | _ => raise_attr v "get"
  end.

(** [v.lower()], given what [str.lower] does *)
Definition py_lower (lower : string -> string) (v : pyval) : res string :=
  match v with
  | PStr s => inr (lower s)
  | _ => raise_attr v "lower"
  end.

(** ['key' in v] with a string on the left *)
Definition py_in (key : string) (v : pyval) : res bool :=
  match v with
  | PDict kvs => inr (match assoc key kvs with Some _ => true | None => false end)
  | PStr s => inr (contains key s)
  | PList l => inr (existsb (fun x => py_eq_str x key) l)
  | _ => inl (mkExn TypeError
                ("argument of type '" ++ type_name v ++ "' is not iterable"))
  end.

(** ** Collaborators, log and state *)

Inductive level : Type := INFO | WARNING | ERROR.

Record log_record : Type := mkLog { lvl : level; text : string }.

(** The calls the module makes on its boto3 clients, with their keyword
    arguments. *)
Inductive request : Type :=
| DescribeInstances (InstanceIds : list string)
| RebootInstances (InstanceIds : list string)
| SendCommand (InstanceIds : list string) (DocumentName : string)
              (command : list string) (TimeoutSeconds : Z)
| GetCommandInvocation (CommandId : pyval) (InstanceId : string)
| Publish (TopicArn Subject Message : string).

(** What one invocation has done so far, oldest first: the collaborator
    calls, the records given to the logger, the seconds spent in
    [time.sleep]. *)
Record state : Type := mkState {
  calls : list request;
  logs : list log_record;
  slept : Z
}.

Definition init_state : state := mkState [] [] 0.

Record Env : Type := mkEnv {
  json_loads : string -> res pyval;
  json_dumps : option nat -> pyval -> string;   (* indent, value *)
  py_repr : pyval -> string;                    (* str() of a non-string *)
  utcnow_isoformat : state -> string;
  boto3 : state -> request -> res pyval;        (* answer or raised error *)
  SNS_TOPIC_ARN : string;
  AUTO_HEALING_ENABLED : bool;
  HEALING_ACTION_TIMEOUT : Z;
  str_lower : string -> string                  (* s.lower() *)
}.

(** ** The monad of the module's functions

    A computation runs from a state to a value or a raised exception,
    and the state it leaves; what was logged or called before a raise
    stays. *)
Definition M (A : Type) : Type := state -> res A * state.

Definition ret {A} (a : A) : M A := fun st => (inr a, st).

Definition raise {A} (e : exn) : M A := fun st => (inl e, st).

Definition bind {A B} (m : M A) (k : A -> M B) : M B :=
  fun st =>
    match m st with
    | (inl e, st') => (inl e, st')
    | (inr a, st') => k a st'
    end.

Definition lift {A} (r : res A) : M A := fun st => (r, st).

Declare Scope py_scope.
Delimit Scope py_scope with py.
Notation "x <- m ;; k" := (bind m (fun x => k))
  (at level 61, m at next level, right associativity) : py_scope.
Notation "m ;; k" := (bind m (fun _ => k))
  (at level 61, right associativity) : py_scope.
Local Open Scope py_scope.

(** [try: m  except Exception as e: h e] *)
Definition try_except {A} (m : M A) (h : exn -> M A) : M A :=
  fun st =>
    match m st with
    | (inl e, st') => h e st'
    | (inr a, st') => (inr a, st')
    end.

(** [try: m  except (C1, ..., Cn): h e] *)
Definition try_except_only {A} (cs : list exn_class) (m : M A)
           (h : exn -> M A) : M A :=
  fun st =>
    match m st with
    | (inl e, st') =>
        if existsb (exn_class_eqb (exn_cls e)) cs then h e st' else (inl e, st')
    | (inr a, st') => (inr a, st')
    end.

Definition log (l : level) (msg : string) : M unit :=
  fun st => (inr tt, mkState (calls st) (logs st ++ [mkLog l msg]) (slept st)).

(** [time.sleep(n)] *)
Definition sleep (n : Z) : M unit :=
  fun st => (inr tt, mkState (calls st) (logs st) (slept st + n)).

Section AutoHeal.

Variable E : Env.

(** A call on a client: answered from the history before it. *)
Definition call (r : request) : M pyval :=
  fun st => (boto3 E st r, mkState (calls st ++ [r]) (logs st) (slept st)).

(** [datetime.utcnow().isoformat()] *)
Definition utcnow : M string := fun st => (inr (utcnow_isoformat E st), st).

(** [str(v)], also what an f-string does with [v] *)
Definition py_str (v : pyval) : string :=
  match v with PStr s => s | _ => py_repr E v end.

Definition audit_prefix : string := "HEALING_ACTION: ".

Definition log_healing_action (instance_id action status : string)
           (details : pyval) : M pyval :=
  timestamp <- utcnow ;;
  let log_entry := PDict [("timestamp", PStr timestamp);
                          ("instance_id", PStr instance_id);
                          ("action", PStr action);
                          ("status", PStr status);
                          ("details", details)] in
  log INFO (audit_prefix ++ json_dumps E None log_entry) ;;
  ret log_entry.

Definition parse_sns_message (event : pyval) : M pyval :=
  try_except
    (records <- lift (py_get event "Records" (PList [PDict []])) ;;
     record <- lift (getitem0 records) ;;
     sns_message <- lift (py_get record "Sns" (PDict [])) ;;
     message_str <- lift (py_get sns_message "Message" (PStr "{}")) ;;
     message <-
       match message_str with
       | PStr s =>
           try_except_only [JSONDecodeError]
             (lift (json_loads E s))
             (fun _ =>
                log WARNING
                  ("Could not parse as JSON, treating as plain text: " ++ s) ;;
                ret (PDict [("raw_message", PStr s)]))
       | _ => ret message_str
       end ;;
     log INFO ("Parsed SNS Message: " ++ json_dumps E None message) ;;
     ret message)
    (fun e =>
       log ERROR ("Error parsing SNS message: " ++ exn_str e) ;;
       ret (PDict [])).

(** [value = message; for key in path: value = value[key]] *)
Fixpoint walk (value : pyval) (path : list string) : res pyval :=
  match path with
  | [] => inr value
  | key :: rest => res_bind (getitem value key) (fun v => walk v rest)
  end.

Definition paths : list (list string) :=
  [ ["Trigger"; "Dimensions"; "InstanceId"];
    ["instance_id"];
    ["InstanceId"] ].

(** [value and isinstance(value, str) and value.startswith('i-')] *)
Definition valid_id (value : pyval) : option string :=
  match value with
  | PStr s => if py_truthy value && is_str value && startswith "i-" s
              then Some s else None
  | _ => None
  end.

(** One turn of the loop over [paths]: [Some v] is the [return value]
    inside the [try], [None] is falling through to the next path. *)
Definition try_path (message : pyval) (path : list string) : M (option string) :=
  try_except_only [KeyError; TypeError; IndexError]
    (value <- lift (walk message path) ;;
     match valid_id value with
     | Some s =>
         log INFO ("Extracted instance ID from path "
                     ++ py_str (PList (map PStr path)) ++ ": " ++ s) ;;
         ret (Some s)
     | None => ret None
     end)
    (fun _ => ret None).

Fixpoint for_paths (message : pyval) (ps : list (list string))
         (after : M (option string)) : M (option string) :=
  match ps with
  | [] => after
  | path :: rest =>
      r <- try_path message path ;;
      match r with
      | Some s => ret (Some s)
      | None => for_paths message rest after
      end
  end.

Definition not_found : M (option string) :=
  log WARNING "Could not extract instance ID from message" ;;
  ret None.

Definition extract_instance_id (message : pyval) : M (option string) :=
  for_paths message paths
    (has_raw <- lift (py_in "raw_message" message) ;;
     if has_raw : bool then
       raw <- lift (getitem message "raw_message") ;;
       match re_search_id (py_str raw) with
       | Some m => ret (Some m)
       | None => not_found
       end
     else not_found).

(** Returns [PNone] for Python's [None]. *)
Definition get_instance_details (instance_id : string) : M pyval :=
  try_except
    (response <- call (DescribeInstances [instance_id]) ;;
     reservations <- lift (getitem response "Reservations") ;;
     reservation <- lift (getitem0 reservations) ;;
     instances <- lift (getitem reservation "Instances") ;;
     if py_truthy instances then lift (getitem0 instances) else ret PNone)
    (fun e =>
       log ERROR ("Error getting instance details for " ++ instance_id
                    ++ ": " ++ exn_str e) ;;
       ret PNone).

Definition determine_healing_action (message : pyval) (instance_id : string)
  : res string :=
  res_bind (py_get message "AlarmName" (PStr "")) (fun a =>
  res_bind (py_lower (str_lower E) a) (fun alarm_name =>
  res_bind (py_get message "Trigger" (PDict [])) (fun t =>
  res_bind (py_get t "MetricName" (PStr "")) (fun m =>
  res_bind (py_lower (str_lower E) m) (fun metric_name =>
  if contains "status-check" alarm_name
     || contains "statuscheckfailed" metric_name then inr "reboot"
  else if contains "cpu" alarm_name
          || contains "cpuutilization" metric_name then inr "optimize_cpu"
  else if contains "memory" alarm_name
          || contains "memoryutilization" metric_name then inr "clear_cache"
  else if contains "disk" alarm_name
          || contains "diskutilization" metric_name then inr "cleanup_disk"
  else inr "diagnostic"))))).

Definition execute_reboot_instance (instance_id : string) : M bool :=
  try_except
    (if negb (AUTO_HEALING_ENABLED E) then
       log INFO ("Auto-healing disabled, skipping reboot for " ++ instance_id) ;;
       ret false
     else
       log INFO ("Rebooting instance " ++ instance_id) ;;
       call (RebootInstances [instance_id]) ;;
       log_healing_action instance_id "reboot" "initiated"
                          (PStr "EC2 instance reboot initiated") ;;
       ret true)
    (fun e =>
       log ERROR ("Error rebooting instance " ++ instance_id ++ ": " ++ exn_str e) ;;
       log_healing_action instance_id "reboot" "failed" (PStr (exn_str e)) ;;
       ret false).

(** The [commands] table of [execute_ssm_command]. *)
Definition commands : list (string * list string) :=
  [ ("optimize_cpu",
     [ "#!/bin/bash";
       "set -e";
       ("echo " ++ dq ++ "Optimizing CPU..." ++ dq)%string;
       "killall -9 stress 2>/dev/null || true";
       "sync" ]);
    ("clear_cache",
     [ "#!/bin/bash";
       "set -e";
       ("echo " ++ dq ++ "Clearing caches..." ++ dq)%string;
       "sync; echo 3 > /proc/sys/vm/drop_caches";
       "systemctl restart httpd || true";
       "systemctl restart nginx || true" ]);
    ("cleanup_disk",
     [ "#!/bin/bash";
       "set -e";
       ("echo " ++ dq ++ "Cleaning up disk space..." ++ dq)%string;
       ("find /var/log -name " ++ dq ++ "*.log" ++ dq
          ++ " -mtime +7 -delete 2>/dev/null || true")%string;
       "rm -rf /tmp/* 2>/dev/null || true";
       "apt-get clean || yum clean all || true" ]);
    ("diagnostic",
     [ "#!/bin/bash";
       ("echo " ++ dq ++ "Running diagnostics..." ++ dq)%string;
       "df -h";
       "free -m";
       "ps aux --sort=-%cpu | head -20" ]) ].

Fixpoint commands_lookup (action : string) (tbl : list (string * list string))
  : option (list string) :=
  match tbl with
  | [] => None
  | (k, v) :: rest => if String.eqb action k then Some v else commands_lookup action rest
  end.

(** [commands.get(action, commands['diagnostic'])] *)
Definition command_for (action : string) : list string :=
  match commands_lookup action commands with
  | Some c => c
  | None =>
      match commands_lookup "diagnostic" commands with
      | Some c => c
      | None => []
      end
  end.

Definition max_attempts : nat := 10.

(** The status loop [for attempt in range(max_attempts)] with
    [attempts] turns left; after the last turn come the warning and the
    [return False] that follow the loop. *)
Fixpoint poll_status (attempts : nat) (command_id : pyval)
         (instance_id action : string) : M bool :=
  match attempts with
  | O =>
      log WARNING ("Command " ++ py_str command_id
                     ++ " did not complete within timeout period") ;;
      ret false
  | S n =>
      sleep 3 ;;
      status_response <- call (GetCommandInvocation command_id instance_id) ;;
      status <- lift (getitem status_response "Status") ;;
      log INFO ("Command " ++ py_str command_id ++ " status: " ++ py_str status) ;;
      if py_eq_str status "Success" || py_eq_str status "Failed" then
        if py_eq_str status "Success" then
          log_healing_action instance_id ("ssm_" ++ action) "completed"
                             (PStr "SSM command completed successfully") ;;
          ret true
        else
          error_msg <- lift (py_get status_response "StandardErrorContent"
                                    (PStr "Unknown error")) ;;
          log_healing_action instance_id ("ssm_" ++ action) "failed" error_msg ;;
          ret false
      else poll_status n command_id instance_id action
  end.

Definition execute_ssm_command (instance_id action : string) : M bool :=
  try_except
    (if negb (AUTO_HEALING_ENABLED E) then
       log INFO ("Auto-healing disabled, skipping SSM command for " ++ instance_id) ;;
       ret false
     else
       instance <- get_instance_details instance_id ;;
       if negb (py_truthy instance) then
         log ERROR ("Instance " ++ instance_id ++ " not found") ;;
         ret false
       else
         st <- lift (getitem instance "State") ;;
         name <- lift (getitem st "Name") ;;
         if negb (py_eq_str name "running") then
           log WARNING ("Instance " ++ instance_id
                          ++ " is not running, cannot execute SSM command") ;;
           ret false
         else
           let command := command_for action in
           log INFO ("Executing SSM command: " ++ action ++ " on instance "
                       ++ instance_id) ;;
           response <- call (SendCommand [instance_id] "AWS-RunShellScript"
                                         command (HEALING_ACTION_TIMEOUT E)) ;;
           cmd <- lift (getitem response "Command") ;;
           command_id <- lift (getitem cmd "CommandId") ;;
           log INFO ("SSM command " ++ py_str command_id ++ " sent to instance "
                       ++ instance_id) ;;
           log_healing_action instance_id ("ssm_" ++ action) "initiated"
                              (PStr ("Command ID: " ++ py_str command_id)) ;;
           poll_status max_attempts command_id instance_id action)
    (fun e =>
       log ERROR ("Error executing SSM command on " ++ instance_id ++ ": "
                    ++ exn_str e) ;;
       log_healing_action instance_id ("ssm_" ++ action) "failed"
                          (PStr (exn_str e)) ;;
       ret false).

(** The message [publish_healing_result] builds: the record of the
    outcome of one invocation. *)
Definition healing_message (instance_id action : string) (success : bool)
           (details : pyval) (timestamp : string) : pyval :=
  PDict [("healing_action", PStr action);
         ("instance_id", PStr instance_id);
         ("status", PStr (if success then "success" else "failed"));
         ("timestamp", PStr timestamp);
         ("details", details)].

Definition publish_healing_result (instance_id action : string)
           (success : bool) (details : pyval) : M unit :=
  try_except
    (if negb (py_truthy (PStr (SNS_TOPIC_ARN E))) then
       log WARNING "SNS topic ARN not configured, skipping notification" ;;
       ret tt
     else
       timestamp <- utcnow ;;
       let message := healing_message instance_id action success details timestamp in
       call (Publish (SNS_TOPIC_ARN E)
                     ("Auto-Heal: " ++ action ++ " - " ++ instance_id)
                     (json_dumps E (Some 2%nat) message)) ;;
       log INFO ("Published healing result to SNS: " ++ py_str message) ;;
       ret tt)
    (fun e =>
       log ERROR ("Error publishing to SNS: " ++ exn_str e) ;;
       ret tt).

(** The response envelope. *)
Record response : Type := mkResponse { statusCode : Z; body : string }.

Definition error_body (msg : string) : string :=
  json_dumps E None (PDict [("error", PStr msg)]).

(** [not instance_id] on the extractor's [Optional[str]] *)
Definition no_instance_id (instance_id : option string) : bool :=
  match instance_id with
  | None => true
  | Some s => negb (py_truthy (PStr s))
  end.

(** The body of the handler's [try]. *)
Definition handler_try (event : pyval) : M response :=
  message <- parse_sns_message event ;;
  extracted <- extract_instance_id message ;;
  match extracted with
  | None =>
      log WARNING "No instance ID found in alert" ;;
      ret (mkResponse 400 (error_body "Could not extract instance ID from alert"))
  | Some instance_id =>
      (* [if not instance_id] is also taken by an empty string *)
      if no_instance_id extracted then
        log WARNING "No instance ID found in alert" ;;
        ret (mkResponse 400 (error_body "Could not extract instance ID from alert"))
      else
        log INFO ("Processing alert for instance: " ++ instance_id) ;;
        instance <- get_instance_details instance_id ;;
        if negb (py_truthy instance) then
          log ERROR ("Instance " ++ instance_id ++ " not found or inaccessible") ;;
          ret (mkResponse 404 (error_body ("Instance " ++ instance_id ++ " not found")))
        else
          st <- lift (getitem instance "State") ;;
          name <- lift (getitem st "Name") ;;
          log INFO ("Instance state: " ++ py_str name) ;;
          action <- lift (determine_healing_action message instance_id) ;;
          log INFO ("Determined healing action: " ++ action) ;;
          success <- (if String.eqb action "reboot"
                      then execute_reboot_instance instance_id
                      else execute_ssm_command instance_id action) ;;
          description <- lift (py_get message "AlarmDescription" (PStr "")) ;;
          publish_healing_result instance_id action success description ;;
          timestamp <- utcnow ;;
          ret (mkResponse
                 (if success then 200 else 500)
                 (json_dumps E None
                    (PDict [("instance_id", PStr instance_id);
                            ("action", PStr action);
                            ("status", PStr (if success then "completed" else "failed"));
                            ("timestamp", PStr timestamp)])))
  end.

Definition lambda_handler (event context : pyval) : M response :=
  log INFO ("Lambda invoked with event: " ++ json_dumps E None event) ;;
  try_except
    (handler_try event)
    (fun e =>
       log ERROR ("Unhandled exception in Lambda handler: " ++ exn_str e) ;;
       ret (mkResponse 500 (error_body ("Lambda execution failed: " ++ exn_str e)))).

End AutoHeal.

(** ** Definitions used to state the properties *)

(** The closed set of actions. *)
Definition action_set : list string :=
  ["reboot"; "optimize_cpu"; "clear_cache"; "cleanup_disk"; "diagnostic"].

(** The classification as the specification words it: a priority list of
    rules, each with its alarm-name token and its metric-name token, read
    on the lower-cased names; the first rule that matches decides. *)
Definition rules : list (string * string * string) :=
  [ ("status-check", "statuscheckfailed", "reboot");
    ("cpu", "cpuutilization", "optimize_cpu");
    ("memory", "memoryutilization", "clear_cache");
    ("disk", "diskutilization", "cleanup_disk") ].

Fixpoint first_rule (rs : list (string * string * string))
         (alarm_name metric_name : string) : string :=
  match rs with
  | [] => "diagnostic"
  | (a, m, action) :: rest =>
      if contains a alarm_name || contains m metric_name then action
      else first_rule rest alarm_name metric_name
  end.

Definition classify_by_priority (E : Env) (alarm_name metric_name : string)
  : string :=
  first_rule rules (str_lower E alarm_name) (str_lower E metric_name).

(** The metric name the classifier reads: [Trigger.MetricName], each
    level defaulted when missing. *)
Definition metric_field (message : pyval) : res pyval :=
  res_bind (py_get message "Trigger" (PDict []))
           (fun t => py_get t "MetricName" (PStr "")).

(** The candidate a structured path offers: the value found there when it
    passes the validation. *)
Definition candidate (message : pyval) (path : list string) : option string :=
  match walk message path with
  | inr v => valid_id v
  | inl _ => None
  end.

(** The extraction as the specification words it: the candidates in
    their order, then the pattern searched in the raw text. *)
Definition first_candidate (E : Env) (message : pyval) : option string :=
  match candidate message ["Trigger"; "Dimensions"; "InstanceId"] with
  | Some s => Some s
  | None =>
  match candidate message ["instance_id"] with
  | Some s => Some s
  | None =>
  match candidate message ["InstanceId"] with
  | Some s => Some s
  | None =>
  match getitem message "raw_message" with
  | inr raw => re_search_id (py_str E raw)
  | inl _ => None
  end end end end.

Fixpoint all_chars (p : ascii -> bool) (s : string) : bool :=
  match s with
  | EmptyString => true
  | String c t => p c && all_chars p t
  end.

(** The lexical form the pattern [i-[a-z0-9]+] describes, as a whole
    string. *)
Definition lexical_id (s : string) : bool :=
  match s with
  | String "i" (String "-" t) =>
      negb (String.eqb t "") && all_chars id_char t
  | _ => false
  end.

(** The [Message] field the parser reads from the envelope. *)
Definition message_field (event : pyval) : res pyval :=
  res_bind (py_get event "Records" (PList [PDict []])) (fun records =>
  res_bind (getitem0 records) (fun record =>
  res_bind (py_get record "Sns" (PDict [])) (fun sns_message =>
  py_get sns_message "Message" (PStr "{}")))).

(** Audit entries are the records [log_healing_action] writes. *)
Definition is_audit (r : log_record) : bool :=
  match lvl r with
  | INFO => String.prefix audit_prefix (text r)
  | _ => false
  end.

Definition audit_entries (l : list log_record) : list log_record :=
  filter is_audit l.

(** The executor as the handler runs it. *)
Definition execute (E : Env) (instance_id action : string) : M bool :=
  if String.eqb action "reboot"
  then execute_reboot_instance E instance_id
  else execute_ssm_command E instance_id action.

Definition is_poll (r : request) : bool :=
  match r with GetCommandInvocation _ _ => true | _ => false end.

Definition is_dispatch (r : request) : bool :=
  match r with SendCommand _ _ _ _ => true | _ => false end.

Definition polls (l : list request) : nat := length (filter is_poll l).

(** A computation that always returns. *)
Definition returns {A} (m : M A) : Prop :=
  forall st, exists a st', m st = (inr a, st').

(** A transition that only adds log records. *)
Definition only_logs (st st' : state) : Prop :=
  calls st' = calls st /\ slept st' = slept st
  /\ audit_entries (logs st') = audit_entries (logs st).

(** The state after one turn of the loop has slept, asked once and
    logged the status. *)
Definition after_poll (E : Env) (command_id status : pyval) (instance_id : string)
           (st : state) : state :=
  mkState (calls st ++ [GetCommandInvocation command_id instance_id])
          (logs st ++ [mkLog INFO ("Command " ++ py_str E command_id
                                     ++ " status: " ++ py_str E status)])
          (slept st + 3).

(** What the collaborator answers to the poll made from [st]. *)
Definition poll_answer (E : Env) (command_id : pyval) (instance_id : string)
           (st : state) : res pyval :=
  boto3 E (mkState (calls st) (logs st) (slept st + 3))
        (GetCommandInvocation command_id instance_id).

(** The run state the executor reads: [instance['State']['Name']]. *)
Definition run_state (instance : pyval) : res pyval :=
  res_bind (getitem instance "State") (fun st => getitem st "Name").

(** A status that ends the polling. *)
Definition terminal (status : pyval) : bool :=
  py_eq_str status "Success" || py_eq_str status "Failed".

Definition dispatch (E : Env) (instance_id action : string) : request :=
  SendCommand [instance_id] "AWS-RunShellScript" (command_for action)
              (HEALING_ACTION_TIMEOUT E).

(** What a run of [execute_ssm_command] from [st] amounts to: the switch
    is off; or the resource was looked up and found absent or not
    running; or the script was dispatched and polled [k] times. *)
Definition ssm_outcome (E : Env) (i a : string) (st : state) (b : bool)
           (st' : state) : Prop :=
  (AUTO_HEALING_ENABLED E = false /\ b = false
   /\ logs st'
      = logs st ++ [mkLog INFO
           ("Auto-healing disabled, skipping SSM command for " ++ i)]
   /\ calls st' = calls st /\ slept st' = slept st)
  \/ (AUTO_HEALING_ENABLED E = true
      /\ exists instance s1,
          get_instance_details E i st = (inr instance, s1)
          /\ (((py_truthy instance = false
                \/ run_state instance <> inr (PStr "running"))
               /\ b = false
               /\ calls st' = calls st ++ [DescribeInstances [i]]
               /\ slept st' = slept st)
              \/ (py_truthy instance = true
                  /\ run_state instance = inr (PStr "running")
                  /\ exists cid k,
                      (k <= max_attempts)%nat
                      /\ calls st'
                         = calls st
                             ++ [DescribeInstances [i]; dispatch E i a]
                             ++ repeat (GetCommandInvocation cid i) k
                      /\ slept st' = (slept st + 3 * Z.of_nat k)%Z))).

(** The state in which the handler enters its [try]: the invocation has
    been logged. *)
Definition entered (E : Env) (event : pyval) (st : state) : state :=
  mkState (calls st)
          (logs st ++ [mkLog INFO ("Lambda invoked with event: "
                                     ++ json_dumps E None event)])
          (slept st).


(** The state a log record leaves, so that [log l msg st] is
    [(inr tt, logged l msg st)]. *)
Definition logged (l : level) (msg : string) (st : state) : state :=
  mkState (calls st) (logs st ++ [mkLog l msg]) (slept st).

(** The state [log_healing_action] leaves. *)
Definition audited (E : Env) (instance_id action status : string)
           (details : pyval) (st : state) : state :=
  logged INFO
    (audit_prefix
       ++ json_dumps E None
            (PDict [("timestamp", PStr (utcnow_isoformat E st));
                    ("instance_id", PStr instance_id);
                    ("action", PStr action);
                    ("status", PStr status);
                    ("details", details)]))
    st.



(** ** The states of a dispatch and of its polling *)

(** The state in which [send_command] is called. *)
Definition before_dispatch (E : Env) (i a : string) (s1 : state) : state :=
  logged INFO ("Executing SSM command: " ++ a ++ " on instance " ++ i) s1.

(** The state in which the polling starts: the command was sent from
    [before_dispatch], its id logged and the dispatch entered in the
    audit log. *)
Definition dispatched (E : Env) (i a : string) (cid : pyval) (s1 : state)
  : state :=
  audited E i ("ssm_" ++ a) "initiated" (PStr ("Command ID: " ++ py_str E cid))
    (logged INFO ("SSM command " ++ py_str E cid ++ " sent to instance " ++ i)
       (mkState (calls s1 ++ [dispatch E i a])
                (logs (before_dispatch E i a s1))
                (slept s1))).

(** A run of [execute_ssm_command] from [st] that gets as far as the
    polling: the switch is on, the lookup (leaving [s1]) finds a running
    instance, and the dispatch is answered with the command id [cid]. *)
Definition dispatches (E : Env) (i a : string) (st : state) (cid : pyval)
           (s1 : state) : Prop :=
  AUTO_HEALING_ENABLED E = true
  /\ exists instance response cmd,
      get_instance_details E i st = (inr instance, s1)
      /\ py_truthy instance = true
      /\ run_state instance = inr (PStr "running")
      /\ boto3 E (before_dispatch E i a s1) (dispatch E i a) = inr response
      /\ getitem response "Command" = inr cmd
      /\ getitem cmd "CommandId" = inr cid.

(** The first [n] polls from [st] are all answered, with a status that
    is not terminal; [Some] of the state they leave. *)
Fixpoint pending_run (E : Env) (n : nat) (cid : pyval) (i : string)
         (st : state) : option state :=
  match n with
  | O => Some st
  | S k =>
      match poll_answer E cid i st with
      | inr response =>
          match getitem response "Status" with
          | inr status =>
              if terminal status then None
              else pending_run E k cid i (after_poll E cid status i st)
          | inl _ => None
          end
      | inl _ => None
      end
  end.

(** The states the three ways out of the loop leave. *)
Definition timed_out (E : Env) (cid : pyval) (st : state) : state :=
  logged WARNING ("Command " ++ py_str E cid
                    ++ " did not complete within timeout period") st.

Definition completed (E : Env) (cid : pyval) (i a : string) (st : state)
  : state :=
  audited E i ("ssm_" ++ a) "completed"
          (PStr "SSM command completed successfully")
          (after_poll E cid (PStr "Success") i st).

Definition command_failed (E : Env) (cid : pyval) (i a : string)
           (error_msg : pyval) (st : state) : state :=
  audited E i ("ssm_" ++ a) "failed" error_msg
          (after_poll E cid (PStr "Failed") i st).

(** The [except] clause of [execute_ssm_command]: a result of the [try]
    is returned, an exception is logged, audited and turned into [False]. *)
Definition gave_up (E : Env) (i a : string) (e : exn) (st : state) : state :=
  audited E i ("ssm_" ++ a) "failed" (PStr (exn_str e))
    (logged ERROR ("Error executing SSM command on " ++ i ++ ": " ++ exn_str e)
            st).

Definition finish (E : Env) (i a : string) (r : res bool * state)
  : res bool * state :=
  match r with
  | (inr b, s) => (inr b, s)
  | (inl e, s) => (inr false, gave_up E i a e s)
  end.

(** ** Environments used in examples *)

(** The Kelvin sign U+212A in UTF-8; [str.lower] turns it into [k]. *)
Definition kelvin_sign : string :=
  String (ascii_of_nat 226) (String (ascii_of_nat 132)
    (String (ascii_of_nat 170) EmptyString)).

(** A lower-casing for the examples: the ASCII capitals and the Kelvin
    sign are folded as [str.lower] folds them, the rest is left alone. *)
Fixpoint example_lower (s : string) : string :=
  match s with
  | EmptyString => EmptyString
  | String a t =>
      match t with
      | String b (String c u) =>
          if (nat_of_ascii a =? 226)%nat && (nat_of_ascii b =? 132)%nat
             && (nat_of_ascii c =? 170)%nat
          then String "k" (example_lower u)
          else String (lower_char a) (example_lower t)
      | _ => String (lower_char a) (example_lower t)
      end
  end.

Definition demo_loads (s : string) : res pyval :=
  if String.eqb s "null" then inr PNone
  else if String.eqb s "{}" then inr (PDict [])
  else if String.eqb s "[]" then inr (PList [])
  else inl (mkExn JSONDecodeError "Expecting value: line 1 column 1 (char 0)").

Definition demo_dumps (indent : option nat) (v : pyval) : string :=
  match v with
  | PDict (("error", PStr m) :: _) => "{error: " ++ m ++ "}"
  | PDict ((k, PStr x) :: _) => "{" ++ k ++ ": " ++ x ++ ", ...}"
  | PStr x => x
  | _ => "<json>"
  end.

Definition demo_repr (v : pyval) : string :=
  match v with
  | PNone => "None"
  | PBool true => "True"
  | PBool false => "False"
  | _ => "<repr>"
  end.

Definition running_instance : pyval :=
  PDict [("InstanceId", PStr "i-0abc123");
         ("State", PDict [("Code", PInt 16); ("Name", PStr "running")])].

Definition stopped_instance : pyval :=
  PDict [("InstanceId", PStr "i-0abc123");
         ("State", PDict [("Code", PInt 80); ("Name", PStr "stopped")])].

Definition describe_response (instance : pyval) : pyval :=
  PDict [("Reservations", PList [PDict [("Instances", PList [instance])]])].

(** Collaborators that accept everything; an invocation is reported with
    the given status at every poll. *)
Definition demo_boto3 (instance : pyval) (status : string)
           (st : state) (r : request) : res pyval :=
  match r with
  | DescribeInstances _ => inr (describe_response instance)
  | RebootInstances _ => inr (PDict [])
  | SendCommand _ _ _ _ =>
      inr (PDict [("Command", PDict [("CommandId", PStr "cmd-1")])])
  | GetCommandInvocation _ _ =>
      inr (PDict [("Status", PStr status); ("StandardErrorContent", PStr "")])
  | Publish _ _ _ => inr (PDict [("MessageId", PStr "m-1")])
  end.

Definition demo_env (enabled : bool) (topic : string) (instance : pyval)
           (status : string) : Env :=
  mkEnv demo_loads demo_dumps demo_repr
        (fun _ => "2024-01-01T00:00:00")
        (demo_boto3 instance status)
        topic enabled 300 example_lower.

(** An envelope whose [Message] is the given value. *)
Definition sns_event (message : pyval) : pyval :=
  PDict [("Records", PList [PDict [("Sns", PDict [("Message", message)])]])].

Definition env_on : Env := demo_env true "" running_instance "Pending".
Definition env_off : Env := demo_env false "" running_instance "Pending".
Definition env_stopped : Env := demo_env true "" stopped_instance "Pending".
Definition env_gone : Env := demo_env true "" PNone "Pending".
Definition env_done : Env := demo_env true "" running_instance "Success".
Definition env_failed : Env := demo_env true "" running_instance "Failed".

(** A collaborator whose answer to a poll depends on how many polls came
    before it. *)
Definition counting_boto3 (instance : pyval) (status_at : nat -> string)
           (st : state) (r : request) : res pyval :=
  match r with
  | GetCommandInvocation _ _ =>
      inr (PDict [("Status", PStr (status_at (polls (calls st))));
                  ("StandardErrorContent", PStr "permission denied")])
  | _ => demo_boto3 instance "Pending" st r
  end.

Definition counting_env (status_at : nat -> string) : Env :=
  mkEnv demo_loads demo_dumps demo_repr
        (fun _ => "2024-01-01T00:00:00")
        (counting_boto3 running_instance status_at)
        "" true 300 example_lower.

(** The command succeeds, but only at the eleventh poll. *)
Definition env_late : Env :=
  counting_env (fun n => if Nat.ltb n 10 then "InProgress" else "Success").

(** The command succeeds at the third poll. *)
Definition env_third : Env :=
  counting_env (fun n => if Nat.ltb n 2 then "InProgress" else "Success").

(** The command fails at the second poll. *)
Definition env_fail_second : Env :=
  counting_env (fun n => if Nat.ltb n 1 then "Pending" else "Failed").

(** The state after the one lookup of the executor's own. *)
Definition looked_up : state :=
  mkState [DescribeInstances ["i-0abc123"]] [] 0.


Definition status_check_alarm : pyval :=
  sns_event
    (PDict [("Trigger",
             PDict [("MetricName", PStr "StatusCheckFailed");
                    ("Dimensions", PDict [("InstanceId", PStr "i-0abc123")])])]).

Definition memory_alarm : pyval :=
  sns_event (PDict [("AlarmName", PStr "High-Memory");
                    ("instance_id", PStr "i-0abc123")]).

Definition disk_alarm : pyval :=
  sns_event (PDict [("AlarmName", PStr "disk-usage-high");
                    ("AlarmDescription", PStr "Disk usage above 90%");
                    ("instance_id", PStr "i-0abc123")]).

Definition status_of (r : res response * state) : option Z :=
  match fst r with inr resp => Some (statusCode resp) | inl _ => None end.

(** ** Metrics lookup

    [get_instance_metrics] asks CloudWatch, which the handler never does;
    the CloudWatch client is an argument of its own and its one call is
    not entered in [calls]. *)

Record metric_query : Type := mkQuery {
  Namespace : string;
  MetricName : string;
  Dimensions : list (string * string);
  minutes_back : Z;          (* StartTime = utcnow() - minutes, EndTime = utcnow() *)
  Period : Z;
  Statistics : list string
}.

Fixpoint last_char (s : string) : option ascii :=
  match s with
  | EmptyString => None
  | String c t => match last_char t with Some d => Some d | None => Some c end
  end.

(** [v[-1]] *)
Definition getitem_last (v : pyval) : res pyval :=
  match v with
  | PList l =>
      match rev l with
      | x :: _ => inr x
      | [] => inl (mkExn IndexError "list index out of range")
      end
  | PStr s =>
      match last_char s with
      | Some c => inr (PStr (String c EmptyString))
      | None => inl (mkExn IndexError "string index out of range")
      end
  | PDict _ => inl (mkExn KeyError "-1")
  | _ => inl (mkExn TypeError (sq ++ type_name v ++ "' object is not subscriptable"))
  end.

Definition cpu_query (instance_id : string) : metric_query :=
  mkQuery "AWS/EC2" "CPUUtilization" [("InstanceId", instance_id)] 5 300 ["Average"].

Definition get_instance_metrics (E : Env)
           (cloudwatch : state -> metric_query -> res pyval)
           (instance_id : string) : M pyval :=
  try_except
    (cpu_response <- (fun st => (cloudwatch st (cpu_query instance_id), st)) ;;
     datapoints <- lift (getitem cpu_response "Datapoints") ;;
     metrics <-
       (if py_truthy datapoints then
          datapoints' <- lift (getitem cpu_response "Datapoints") ;;
          latest <- lift (getitem_last datapoints') ;;
          average <- lift (getitem latest "Average") ;;
          ret (PDict [("cpu_utilization", average)])
        else ret (PDict [])) ;;
     log INFO ("Instance " ++ instance_id ++ " metrics: " ++ py_str E metrics) ;;
     ret metrics)
    (fun e =>
       log ERROR ("Error getting metrics for " ++ instance_id ++ ": " ++ exn_str e) ;;
       ret (PDict [])).

(** ** More definitions used to state properties *)

(** The resource a request is about. *)
Definition about (i : string) (r : request) : Prop :=
  match r with
  | DescribeInstances ids => ids = [i]
  | RebootInstances ids => ids = [i]
  | SendCommand ids _ _ _ => ids = [i]
  | GetCommandInvocation _ id => id = i
  | Publish _ subject _ =>
      exists action, subject = ("Auto-Heal: " ++ action ++ " - " ++ i)%string
  end.

(** A transition that calls no collaborator and does not sleep. *)
Definition quiet (st st' : state) : Prop :=
  calls st' = calls st /\ slept st' = slept st.

(** [s.lstrip(c)] and [s.rstrip(c)] for a one-character argument *)
Fixpoint lstrip_char (c : ascii) (s : string) : string :=
  match s with
  | EmptyString => EmptyString
  | String a t => if Ascii.eqb a c then lstrip_char c t else s
  end.

Fixpoint rstrip_char (c : ascii) (s : string) : string :=
  match s with
  | EmptyString => EmptyString
  | String a t =>
      match rstrip_char c t with
      | EmptyString => if Ascii.eqb a c then EmptyString else String a EmptyString
      | t' => String a t'
      end
  end.

(** [a or b] *)
Definition py_or (a b : pyval) : pyval := if py_truthy a then a else b.

(** Every run of [m] relates the state it starts from to the state it
    leaves, whether it returns or raises. *)
Definition preserves (R : state -> state -> Prop) {A} (m : M A) : Prop :=
  forall st r st', m st = (r, st') -> R st st'.

(** The collaborator calls and the sleep of a transition: the new calls
    are all about [i], at most [n] of them, at most [p] of them polls,
    and 3 was slept for each poll. *)
Definition footprint (i : string) (n p : nat) (st st' : state) : Prop :=
  exists new,
    calls st' = calls st ++ new
    /\ Forall (about i) new
    /\ (length new <= n)%nat
    /\ (polls new <= p)%nat
    /\ slept st' = (slept st + 3 * Z.of_nat (polls new))%Z.

(** A remediation request for [i] among the calls. *)
Definition remediation_issued (E : Env) (i : string) (l : list request) : Prop :=
  In (RebootInstances [i]) l \/ exists action, In (dispatch E i action) l.

(** ** The dashboard backend, [dashboard/backend/app.py]

    The views are functions of the request body (the value of
    [request.json], [PNone] when there is none), of the credential store
    [aws_credentials] and of the answers of STS and of the proxied
    server.  [inl e] is an exception that leaves the view. *)
Module Dashboard.

Record credentials : Type := mkCreds {
  access_key : pyval;
  secret_key : pyval;
  account_id : pyval;
  region : pyval;
  use_env : bool
}.

(** The initial value of [aws_credentials]. *)
Definition no_credentials : credentials := mkCreds PNone PNone PNone PNone false.

(** What creating the STS client and calling [get_caller_identity] gives:
    the identity, or one of the exceptions the views tell apart. *)
Inductive sts_result : Type :=
| StsIdentity (idt : pyval)
| StsNoCredentials (msg : string)             (* NoCredentialsError *)
| StsClientError (response : pyval) (msg : string)   (* ClientError, e.response, str(e) *)
| StsError (e : exn).                         (* any other Exception *)

(** [jsonify(json), status] *)
Record reply : Type := mkReply { status : Z; json : pyval }.

Definition error_reply (code : Z) (msg : string) : reply :=
  mkReply code (PDict [("error", PStr msg)]).

Definition login_ok (account region : pyval) : reply :=
  mkReply 200 (PDict [("success", PBool true);
                      ("accountId", account);
                      ("region", region)]).

Definition aws_login (sts : pyval -> pyval -> pyval -> sts_result)
           (body : pyval) (c : credentials) : res reply * credentials :=
  let data := py_or body (PDict []) in
  match py_get data "accessKey" PNone with
  | inl e => (inl e, c)
  | inr access =>
  match py_get data "secretKey" PNone with
  | inl e => (inl e, c)
  | inr secret =>
  match py_get data "region" (PStr "us-east-1") with
  | inl e => (inl e, c)
  | inr rgn =>
      if negb (py_truthy access) || negb (py_truthy secret) then
        (inr (error_reply 400 "Access Key and Secret Key are required"), c)
      else
        match sts access secret rgn with
        | StsIdentity idt =>
            let c1 := mkCreds access secret (account_id c) (region c) (use_env c) in
            match getitem idt "Account" with
            | inl e => (inr (error_reply 500 (exn_str e)), c1)
            | inr account =>
                (inr (login_ok account rgn), mkCreds access secret account rgn false)
            end
        | StsClientError _ msg => (inr (error_reply 401 msg), c)
        | StsNoCredentials msg => (inr (error_reply 500 msg), c)
        | StsError e => (inr (error_reply 500 (exn_str e)), c)
        end
  end end end.

Definition aws_login_env (sts : pyval -> sts_result)
           (body : pyval) (c : credentials) : res reply * credentials :=
  match py_get (py_or body (PDict [])) "region" (PStr "us-east-1") with
  | inl e => (inl e, c)
  | inr rgn =>
      match sts rgn with
      | StsIdentity idt =>
          let c1 := mkCreds PNone PNone (account_id c) (region c) (use_env c) in
          match getitem idt "Account" with
          | inl e => (inr (error_reply 500 (exn_str e)), c1)
          | inr account =>
              (inr (login_ok account rgn), mkCreds PNone PNone account rgn true)
          end
      | StsNoCredentials _ => (inr (error_reply 401 "No credentials found"), c)
      | StsClientError response msg =>
          match res_bind (py_get response "Error" (PDict []))
                         (fun err => py_get err "Code" (PStr "")) with
          | inl e => (inl e, c)
          | inr code =>
              if py_eq_str code "InvalidClientTokenId" then
                (inr (error_reply 401 "Invalid/expired credentials in environment"), c)
              else (inr (error_reply 401 msg), c)
          end
      | StsError e => (inr (error_reply 500 (exn_str e)), c)
      end
  end.

Definition aws_logout (c : credentials) : reply * credentials :=
  (mkReply 200 (PDict [("success", PBool true)]), no_credentials).

Definition is_none (v : pyval) : bool :=
  match v with PNone => true | _ => false end.

(** The [ok] of [auth_status]. *)
Definition authenticated (c : credentials) : bool :=
  use_env c || negb (is_none (access_key c)).

Definition auth_status (c : credentials) : reply :=
  mkReply 200 (PDict [("authenticated", PBool (authenticated c));
                      ("accountId", account_id c);
                      ("region", region c)]).

(** Truth of an [os.environ.get(name)]. *)
Definition env_set (v : option string) : bool :=
  match v with
  | Some s => negb (String.eqb s "")
  | None => false
  end.

Definition aws_creds_present (environ : string -> option string)
           (c : credentials) : bool :=
  if use_env c then true
  else if py_truthy (access_key c) && py_truthy (secret_key c) then true
  else env_set (environ "AWS_ACCESS_KEY_ID")
       && env_set (environ "AWS_SECRET_ACCESS_KEY").

(** The keyword arguments of a [boto3.client(service, ...)]. *)
Record client_config : Type := mkClient {
  service : string;
  aws_access_key_id : option pyval;
  aws_secret_access_key : option pyval;
  region_name : option pyval
}.

Definition get_cloudwatch_client (c : credentials) : client_config :=
  if use_env c then
    mkClient "cloudwatch" None None (Some (py_or (region c) (PStr "us-east-1")))
  else if py_truthy (access_key c) && py_truthy (secret_key c) then
    mkClient "cloudwatch" (Some (access_key c)) (Some (secret_key c))
             (Some (py_or (region c) (PStr "us-east-1")))
  else mkClient "cloudwatch" None None None.

Definition get_ec2_client (c : credentials) : client_config :=
  if use_env c then
    mkClient "ec2" None None (Some (py_or (region c) (PStr "us-east-1")))
  else if py_truthy (access_key c) && py_truthy (secret_key c) then
    mkClient "ec2" (Some (access_key c)) (Some (secret_key c))
             (Some (py_or (region c) (PStr "us-east-1")))
  else mkClient "ec2" None None None.




(** [nagios_url.rstrip('/') + '/' + path.lstrip('/')] *)
Definition join_url (nagios_url path : string) : string :=
  (rstrip_char "/" nagios_url ++ "/" ++ lstrip_char "/" path)%string.



(** One request served by a view that touches the store. *)
Inductive serves : credentials -> credentials -> Prop :=
| ServeLogin sts body c :
    serves c (snd (aws_login sts body c))
| ServeLoginEnv sts body c :
    serves c (snd (aws_login_env sts body c))
| ServeLogout c :
    serves c (snd (aws_logout c)).

(** The stores the process can be in. *)
Inductive reachable : credentials -> Prop :=
| ReachInit : reachable no_credentials
| ReachStep c c' : reachable c -> serves c c' -> reachable c'.

(** The two keys are stored together. *)
Definition keys_paired (c : credentials) : Prop :=
  (access_key c = PNone /\ secret_key c = PNone)
  \/ (py_truthy (access_key c) = true /\ py_truthy (secret_key c) = true).

End Dashboard.

(** ** Values used in the examples of the further properties *)

Definition demo_cloudwatch (st : state) (q : metric_query) : res pyval :=
  inr (PDict [("Datapoints",
               PList [PDict [("Average", PInt 10)];
                      PDict [("Average", PInt 42)]])]).

Definition login_body : pyval :=
  PDict [("accessKey", PStr "AKIAEXAMPLE"); ("secretKey", PStr "s3cr3t");
         ("region", PStr "eu-west-1")].

Definition sts_accepts (access secret rgn : pyval) : Dashboard.sts_result :=
  Dashboard.StsIdentity (PDict [("Account", PStr "123456789012")]).

(** An STS that knows one pair of keys, in their order, and refuses any
    other. *)
Definition key_checking_sts (access secret rgn : pyval) : Dashboard.sts_result :=
  if py_eq_str access "AKIAEXAMPLE" && py_eq_str secret "s3cr3t" then
    Dashboard.StsIdentity (PDict [("Account", PStr "123456789012")])
  else
    Dashboard.StsClientError
      (PDict [("Error", PDict [("Code", PStr "InvalidClientTokenId")])])
      "An error occurred (InvalidClientTokenId)".

Definition sts_refuses (access secret rgn : pyval) : Dashboard.sts_result :=
  Dashboard.StsClientError
    (PDict [("Error", PDict [("Code", PStr "InvalidClientTokenId")])])
    "An error occurred (InvalidClientTokenId)".

Definition sts_env_accepts (rgn : pyval) : Dashboard.sts_result :=
  Dashboard.StsIdentity (PDict [("Account", PStr "123456789012")]).

Definition logged_in : Dashboard.credentials :=
  Dashboard.mkCreds (PStr "AKIAEXAMPLE") (PStr "s3cr3t")
                    (PStr "123456789012") (PStr "eu-west-1") false.



(** * Properties *)

(** ** Strings and the identifier pattern *)

Lemma take_while_all (p : ascii -> bool) (s : string) :
  all_chars p (take_while p s) = true.
Proof.
  induction s as [|c t IH]; simpl; auto.
  destruct (p c) eqn:Hc; simpl; auto.
  now rewrite Hc.
Qed.

Lemma match_id_here_lexical (s m : string) :
  match_id_here s = Some m -> lexical_id m = true.
Proof.
  unfold match_id_here.
  destruct s as [|a s]; try discriminate.
  destruct (ascii_dec a "i") as [->|Ha].
  2:{ destruct a as [[] [] [] [] [] [] [] []]; try discriminate; now elim Ha. }
  destruct s as [|b t]; try discriminate.
  destruct (ascii_dec b "-") as [->|Hb].
  2:{ destruct b as [[] [] [] [] [] [] [] []]; try discriminate; now elim Hb. }
  pose proof (take_while_all id_char t) as Hall.
  destruct (take_while id_char t) as [|c w] eqn:Hw; try discriminate.
  intros [= <-]. simpl. simpl in Hall. exact Hall.
Qed.

Lemma re_search_id_lexical (s m : string) :
  re_search_id s = Some m -> lexical_id m = true.
Proof.
  induction s as [|c t IH]; cbn -[match_id_here].
  - discriminate.
  - destruct (match_id_here (String c t)) as [w|] eqn:Hm.
    + intros [= <-]. eapply match_id_here_lexical; eauto.
    + exact IH.
Qed.

Lemma startswith_valid (s : string) :
  startswith "i-" s = true -> valid_id (PStr s) = Some s.
Proof.
  unfold valid_id. intros H. rewrite H.
  destruct s as [|c t]; [discriminate|]. reflexivity.
Qed.

(** ** Classification *)

Lemma determine_by_priority (E : Env) (message : pyval)
      (instance_id a m : string) :
  py_get message "AlarmName" (PStr "") = inr (PStr a) ->
  metric_field message = inr (PStr m) ->
  determine_healing_action E message instance_id
  = inr (classify_by_priority E a m).
Proof.
  unfold metric_field, determine_healing_action. intros Ha Hm.
  rewrite Ha. simpl.
  destruct (py_get message "Trigger" (PDict [])) as [e|t]; [discriminate|].
  simpl in *. rewrite Hm. simpl.
  unfold classify_by_priority, rules, first_rule.
  repeat match goal with
         | |- context [if ?b then _ else _] => destruct b; try reflexivity
         end.
Qed.

Lemma classify_in_action_set (E : Env) (a m : string) :
  In (classify_by_priority E a m) action_set.
Proof.
  unfold classify_by_priority, rules, first_rule, action_set.
  repeat match goal with
         | |- context [if ?b then _ else _] => destruct b
         end; simpl; tauto.
Qed.

(** ** Running computations *)

Lemma bind_run {A B} (m : M A) (k : A -> M B) (st : state) :
  bind m k st =
  match m st with
  | (inl e, st') => (inl e, st')
  | (inr a, st') => k a st'
  end.
Proof. reflexivity. Qed.

Lemma bind_ok {A B} (m : M A) (k : A -> M B) (st st' : state) (a : A) :
  m st = (inr a, st') -> bind m k st = k a st'.
Proof. intros H. rewrite bind_run, H. reflexivity. Qed.

Lemma bind_raise {A B} (m : M A) (k : A -> M B) (st st' : state) (e : exn) :
  m st = (inl e, st') -> bind m k st = (inl e, st').
Proof. intros H. rewrite bind_run, H. reflexivity. Qed.

Lemma try_except_run {A} (m : M A) (h : exn -> M A) (st : state) :
  try_except m h st =
  match m st with
  | (inl e, st') => h e st'
  | (inr a, st') => (inr a, st')
  end.
Proof. reflexivity. Qed.


Lemma try_except_returns {A} (m : M A) (h : exn -> M A) :
  (forall e, returns (h e)) -> returns (try_except m h).
Proof.
  intros Hh st. rewrite try_except_run.
  destruct (m st) as [[e|a] st'].
  - apply Hh.
  - eauto.
Qed.

Lemma log_run (l : level) (msg : string) (st : state) :
  log l msg st = (inr tt, mkState (calls st) (logs st ++ [mkLog l msg]) (slept st)).
Proof. reflexivity. Qed.

Section Facts.

Variable E : Env.

Lemma log_healing_action_run (i a s : string) (d : pyval) (st : state) :
  exists entry text,
    log_healing_action E i a s d st
    = (inr entry,
       mkState (calls st) (logs st ++ [mkLog INFO (audit_prefix ++ text)]) (slept st)).
Proof. unfold log_healing_action. do 2 eexists. reflexivity. Qed.

Lemma log_healing_action_returns (i a s : string) (d : pyval) :
  returns (log_healing_action E i a s d).
Proof.
  intros st. destruct (log_healing_action_run i a s d st) as (en & t & H).
  rewrite H. eauto.
Qed.

(** ** Identifier extraction *)

Lemma getitem_error_class (v : pyval) (k : string) (e : exn) :
  getitem v k = inl e -> exn_cls e = KeyError \/ exn_cls e = TypeError.
Proof.
  destruct v; simpl; try (intros [= <-]; simpl; auto).
  destruct (assoc k l); intros [= <-]; simpl; auto.
Qed.

Lemma walk_error_class (path : list string) (v : pyval) (e : exn) :
  walk v path = inl e -> exn_cls e = KeyError \/ exn_cls e = TypeError.
Proof.
  revert v. induction path as [|k rest IH]; intros v; simpl.
  - discriminate.
  - destruct (getitem v k) as [e'|w] eqn:Hg; simpl.
    + intros [= <-]. eapply getitem_error_class; eauto.
    + apply IH.
Qed.


Lemma only_logs_refl (st : state) : only_logs st st.
Proof. repeat split. Qed.

Lemma only_logs_trans (a b c : state) :
  only_logs a b -> only_logs b c -> only_logs a c.
Proof.
  intros (H1 & H2 & H3) (H4 & H5 & H6). repeat split; congruence.
Qed.

Lemma audit_entries_app (l1 l2 : list log_record) :
  audit_entries (l1 ++ l2) = audit_entries l1 ++ audit_entries l2.
Proof. apply filter_app. Qed.

Lemma only_logs_plain (st : state) (l : level) (msg : string) :
  is_audit (mkLog l msg) = false ->
  only_logs st (mkState (calls st) (logs st ++ [mkLog l msg]) (slept st)).
Proof.
  intros H. repeat split; simpl.
  rewrite audit_entries_app. simpl. rewrite H. apply app_nil_r.
Qed.

Lemma try_path_run (message : pyval) (path : list string) (st : state) :
  exists st',
    try_path E message path st = (inr (candidate message path), st')
    /\ only_logs st st'.
Proof.
  unfold try_path, try_except_only, candidate.
  rewrite bind_run. unfold lift.
  destruct (walk message path) as [e|v] eqn:Hw.
  - destruct (walk_error_class _ _ _ Hw) as [-> | ->]; simpl;
      (eexists; split; [reflexivity | apply only_logs_refl]).
  - destruct (valid_id v) as [s|].
    + rewrite bind_run, log_run. simpl. eexists; split; [reflexivity|].
      apply only_logs_plain. reflexivity.
    + simpl. eexists; split; [reflexivity | apply only_logs_refl].
Qed.

Lemma not_found_run (st : state) :
  exists st', not_found st = (inr None, st') /\ only_logs st st'.
Proof.
  unfold not_found. rewrite bind_run, log_run. simpl.
  eexists; split; [reflexivity|]. apply only_logs_plain. reflexivity.
Qed.

Lemma extract_dict_run (kvs : list (string * pyval)) (st : state) :
  exists st',
    extract_instance_id E (PDict kvs) st
    = (inr (first_candidate E (PDict kvs)), st')
    /\ only_logs st st'.
Proof.
  unfold extract_instance_id, paths, first_candidate. cbn [for_paths].
  destruct (try_path_run (PDict kvs) ["Trigger"; "Dimensions"; "InstanceId"] st)
    as (s1 & H1 & L1).
  rewrite (bind_ok _ _ _ _ _ H1).
  destruct (candidate (PDict kvs) ["Trigger"; "Dimensions"; "InstanceId"]).
  { eexists; split; [reflexivity | exact L1]. }
  destruct (try_path_run (PDict kvs) ["instance_id"] s1) as (s2 & H2 & L2).
  rewrite (bind_ok _ _ _ _ _ H2).
  destruct (candidate (PDict kvs) ["instance_id"]).
  { eexists; split; [reflexivity | eapply only_logs_trans; eauto]. }
  destruct (try_path_run (PDict kvs) ["InstanceId"] s2) as (s3 & H3 & L3).
  rewrite (bind_ok _ _ _ _ _ H3).
  destruct (candidate (PDict kvs) ["InstanceId"]).
  { eexists; split; [reflexivity|]. repeat (eapply only_logs_trans; eauto). }
  assert (L : only_logs st s3) by (repeat (eapply only_logs_trans; eauto)).
  rewrite bind_run. unfold lift. cbn [py_in getitem].
  destruct (assoc "raw_message" kvs) as [raw|].
  - rewrite bind_run. cbn iota beta.
    destruct (re_search_id (py_str E raw)).
    + eexists; split; [reflexivity | exact L].
    + destruct (not_found_run s3) as (s4 & H4 & L4). rewrite H4.
      eexists; split; [reflexivity | eapply only_logs_trans; eauto].
  - destruct (not_found_run s3) as (s4 & H4 & L4). rewrite H4.
    eexists; split; [reflexivity | eapply only_logs_trans; eauto].
Qed.

Lemma candidate_valid (message : pyval) (path : list string) (v : string) :
  walk message path = inr (PStr v) ->
  startswith "i-" v = true ->
  candidate message path = Some v.
Proof.
  intros Hw Hv. unfold candidate. rewrite Hw. now apply startswith_valid.
Qed.

Lemma candidate_none_of_missing (message : pyval) (path : list string) :
  (exists e, walk message path = inl e) -> candidate message path = None.
Proof. intros [e He]. unfold candidate. now rewrite He. Qed.


(** C10.  The validation differs between the strategies.  A structured
    field (nested path, [instance_id] or [InstanceId]) is accepted as soon
    as it is a string starting with [i-]; the raw-text search only ever
    returns [i-] followed by at least one character of [a-z0-9].  So [i-]
    alone and [i-ABC] are accepted from a structured field, and no raw
    text gives them back. *)
Theorem validation_differs_by_strategy (st : state) :
  (forall s, startswith "i-" s = true ->
     fst (extract_instance_id E
            (PDict [("Trigger", PDict [("Dimensions",
                       PDict [("InstanceId", PStr s)])])]) st) = inr (Some s)
     /\ fst (extract_instance_id E (PDict [("instance_id", PStr s)]) st)
        = inr (Some s)
     /\ fst (extract_instance_id E (PDict [("InstanceId", PStr s)]) st)
        = inr (Some s))
  /\ (forall raw m,
        fst (extract_instance_id E (PDict [("raw_message", raw)]) st)
        = inr (Some m) ->
        lexical_id m = true)
  /\ (forall s, lexical_id s = true -> startswith "i-" s = true)
  /\ (startswith "i-" "i-" = true /\ lexical_id "i-" = false)
  /\ (startswith "i-" "i-ABC" = true /\ lexical_id "i-ABC" = false)
  /\ re_search_id "i-ABC" = None
  /\ re_search_id "i-abcDEF" = Some "i-abc".
Proof.
  split; [|split; [|split]].
  - intros s Hs. repeat split.
    + destruct (extract_dict_run
                  [("Trigger", PDict [("Dimensions",
                       PDict [("InstanceId", PStr s)])])] st) as (st' & H & _).
      rewrite H. cbn [fst]. unfold first_candidate.
      rewrite ?candidate_none_of_missing by (eexists; reflexivity).
      now rewrite (candidate_valid _ _ s) by (reflexivity || exact Hs).
    + destruct (extract_dict_run [("instance_id", PStr s)] st) as (st' & H & _).
      rewrite H. cbn [fst]. unfold first_candidate.
      rewrite ?candidate_none_of_missing by (eexists; reflexivity).
      now rewrite (candidate_valid _ _ s) by (reflexivity || exact Hs).
    + destruct (extract_dict_run [("InstanceId", PStr s)] st) as (st' & H & _).
      rewrite H. cbn [fst]. unfold first_candidate.
      rewrite ?candidate_none_of_missing by (eexists; reflexivity).
      now rewrite (candidate_valid _ _ s) by (reflexivity || exact Hs).
  - intros raw m.
    destruct (extract_dict_run [("raw_message", raw)] st) as (st' & H & _).
    rewrite H. cbn [fst]. unfold first_candidate, candidate. simpl.
    intros [= Hm]. eapply re_search_id_lexical; eauto.
  - intros s. unfold lexical_id, startswith.
    destruct s as [|a s]; try discriminate.
    destruct (ascii_dec a "i") as [->|Ha].
    2:{ destruct a as [[] [] [] [] [] [] [] []]; try discriminate; now elim Ha. }
    destruct s as [|b t]; try discriminate.
    destruct (ascii_dec b "-") as [->|Hb].
    2:{ destruct b as [[] [] [] [] [] [] [] []]; try discriminate; now elim Hb. }
    intros _. simpl. now destruct t.
  - repeat split; reflexivity.
Qed.

(** ** Parsing *)

Lemma parse_returns (event : pyval) : returns (parse_sns_message E event).
Proof.
  apply try_except_returns. intros e st.
  rewrite bind_run, log_run. unfold ret. eauto.
Qed.

(** C7.  The parser returns for every event.  When the envelope's
    [Message] is a string that [json.loads] rejects with a decode error,
    the result is the mapping whose only field is [raw_message], holding
    that string, and a warning is logged. *)
Theorem parse_sns_message_total (event : pyval) (st : state) :
  (exists message st', parse_sns_message E event st = (inr message, st'))
  /\ (forall s e,
         message_field event = inr (PStr s) ->
         json_loads E s = inl e ->
         exn_cls e = JSONDecodeError ->
         exists st',
           parse_sns_message E event st
           = (inr (PDict [("raw_message", PStr s)]), st')
           /\ In (mkLog WARNING
                    ("Could not parse as JSON, treating as plain text: " ++ s))
                 (logs st')
           /\ calls st' = calls st).
Proof.
  split; [apply parse_returns|].
  intros s e Hf Hl Hc. unfold message_field in Hf.
  unfold parse_sns_message. rewrite try_except_run.
  rewrite bind_run. unfold lift at 1.
  destruct (py_get event "Records" (PList [PDict []])) as [x|records];
    [discriminate|]. cbn [res_bind] in Hf. cbn iota beta.
  rewrite bind_run. unfold lift at 1.
  destruct (getitem0 records) as [x|record]; [discriminate|].
  cbn [res_bind] in Hf. cbn iota beta.
  rewrite bind_run. unfold lift at 1.
  destruct (py_get record "Sns" (PDict [])) as [x|sns]; [discriminate|].
  cbn [res_bind] in Hf. cbn iota beta.
  rewrite bind_run. unfold lift at 1. rewrite Hf. cbn iota beta.
  rewrite bind_run. unfold try_except_only, lift. rewrite Hl, Hc.
  cbn [existsb exn_class_eqb orb].
  rewrite bind_run, log_run. cbn iota beta. unfold ret at 1.
  rewrite bind_run, log_run. cbn iota beta. unfold ret.
  eexists. split; [reflexivity|]. split; [|reflexivity].
  cbn [logs]. apply in_or_app. left. apply in_or_app. right. now left.
Qed.

(** ** Resource lookup *)

Lemma get_instance_details_run (instance_id : string) (st : state) :
  exists instance st',
    get_instance_details E instance_id st = (inr instance, st')
    /\ calls st' = calls st ++ [DescribeInstances [instance_id]]
    /\ slept st' = slept st
    /\ audit_entries (logs st') = audit_entries (logs st).
Proof.
  unfold get_instance_details. rewrite try_except_run.
  assert (Hh : forall e s1,
             calls s1 = calls st ++ [DescribeInstances [instance_id]] ->
             slept s1 = slept st ->
             audit_entries (logs s1) = audit_entries (logs st) ->
             exists instance st',
               (log ERROR ("Error getting instance details for " ++ instance_id
                             ++ ": " ++ exn_str e) ;; ret PNone) s1
               = (inr instance, st')
               /\ calls st' = calls st ++ [DescribeInstances [instance_id]]
               /\ slept st' = slept st
               /\ audit_entries (logs st') = audit_entries (logs st)).
  { intros e s1 H1 H2 H3. rewrite bind_run, log_run. unfold ret.
    do 2 eexists. split; [reflexivity|]. cbn [calls slept logs].
    repeat split; auto. rewrite audit_entries_app, H3. apply app_nil_r. }
  rewrite bind_run. unfold call at 1.
  destruct (boto3 E st (DescribeInstances [instance_id])) as [e|response].
  { apply Hh; reflexivity. }
  cbn iota beta. rewrite bind_run. unfold lift at 1.
  destruct (getitem response "Reservations") as [e|reservations].
  { apply Hh; reflexivity. }
  cbn iota beta. rewrite bind_run. unfold lift at 1.
  destruct (getitem0 reservations) as [e|reservation].
  { apply Hh; reflexivity. }
  cbn iota beta. rewrite bind_run. unfold lift at 1.
  destruct (getitem reservation "Instances") as [e|instances].
  { apply Hh; reflexivity. }
  cbn iota beta. destruct (py_truthy instances).
  - unfold lift. destruct (getitem0 instances) as [e|instance].
    + apply Hh; reflexivity.
    + do 2 eexists. split; [reflexivity|]. repeat split.
  - unfold ret. do 2 eexists. split; [reflexivity|]. repeat split.
Qed.

(** ** Status polling *)


Lemma poll_status_turn (n : nat) (cid : pyval) (i a : string) (st : state)
      (response status : pyval) :
  poll_answer E cid i st = inr response ->
  getitem response "Status" = inr status ->
  poll_status E (S n) cid i a st
  = (if py_eq_str status "Success" || py_eq_str status "Failed" then
       if py_eq_str status "Success" then
         log_healing_action E i ("ssm_" ++ a) "completed"
                            (PStr "SSM command completed successfully") ;;
         ret true
       else
         error_msg <- lift (py_get response "StandardErrorContent"
                                   (PStr "Unknown error")) ;;
         log_healing_action E i ("ssm_" ++ a) "failed" error_msg ;;
         ret false
     else poll_status E n cid i a) (after_poll E cid status i st).
Proof.
  intros Hr Hs. unfold poll_answer in Hr. cbn [poll_status].
  rewrite bind_run. unfold sleep at 1. cbn iota beta.
  rewrite bind_run. unfold call at 1.
  cbn [calls logs slept]. rewrite Hr. cbn iota beta.
  rewrite bind_run. unfold lift at 1. rewrite Hs. cbn iota beta.
  rewrite bind_run, log_run. reflexivity.
Qed.

Lemma poll_status_bounded (n : nat) (cid : pyval) (i a : string) (st : state) :
  exists r st' k,
    poll_status E n cid i a st = (r, st')
    /\ (k <= n)%nat
    /\ calls st' = calls st ++ repeat (GetCommandInvocation cid i) k
    /\ slept st' = (slept st + 3 * Z.of_nat k)%Z.
Proof.
  revert st. induction n as [|n IH]; intros st.
  - cbn [poll_status]. rewrite bind_run, log_run. unfold ret.
    do 2 eexists. exists 0%nat. split; [reflexivity|].
    cbn [calls slept repeat]. split; [lia|]. split; [now rewrite app_nil_r | lia].
  - destruct (poll_answer E cid i st) as [e|response] eqn:Hr.
    { exists (inl e). eexists. exists 1%nat. split.
      - cbn [poll_status]. rewrite bind_run. unfold sleep at 1. cbn iota beta.
        rewrite bind_run. unfold call at 1. unfold poll_answer in Hr.
        cbn [calls logs slept]. rewrite Hr. reflexivity.
      - cbn. repeat split; lia. }
    destruct (getitem response "Status") as [e|status] eqn:Hs.
    { exists (inl e). eexists. exists 1%nat. split.
      - cbn [poll_status]. rewrite bind_run. unfold sleep at 1. cbn iota beta.
        rewrite bind_run. unfold call at 1. unfold poll_answer in Hr.
        cbn [calls logs slept]. rewrite Hr. cbn iota beta.
        rewrite bind_run. unfold lift at 1. rewrite Hs. reflexivity.
      - cbn. repeat split; lia. }
    rewrite (poll_status_turn n cid i a st response status Hr Hs).
    destruct (py_eq_str status "Success" || py_eq_str status "Failed").
    + destruct (py_eq_str status "Success").
      * destruct (log_healing_action_run i ("ssm_" ++ a) "completed"
                    (PStr "SSM command completed successfully")
                    (after_poll E cid status i st)) as (en & t & H).
        rewrite (bind_ok _ _ _ _ _ H). unfold ret.
        do 2 eexists. exists 1%nat. split; [reflexivity|].
        cbn. repeat split; lia.
      * rewrite bind_run. unfold lift at 1.
        destruct (py_get response "StandardErrorContent" (PStr "Unknown error"))
          as [e|msg].
        { do 2 eexists. exists 1%nat. split; [reflexivity|].
          cbn. repeat split; lia. }
        cbn iota beta.
        destruct (log_healing_action_run i ("ssm_" ++ a) "failed" msg
                    (after_poll E cid status i st)) as (en & t & H).
        rewrite (bind_ok _ _ _ _ _ H). unfold ret.
        do 2 eexists. exists 1%nat. split; [reflexivity|].
        cbn. repeat split; lia.
    + destruct (IH (after_poll E cid status i st)) as (r & st' & k & H & Hk & Hc & Hsl).
      exists r, st', (S k). split; [exact H|].
      split; [lia|]. split.
      * rewrite Hc. cbn [after_poll calls repeat]. now rewrite <- app_assoc.
      * rewrite Hsl. cbn [after_poll slept]. lia.
Qed.

Lemma poll_status_timeout (n : nat) (cid : pyval) (i a : string) (st : state) :
  (forall s, exists response status,
        poll_answer E cid i s = inr response
        /\ getitem response "Status" = inr status
        /\ terminal status = false) ->
  exists st',
    poll_status E n cid i a st = (inr false, st')
    /\ calls st' = calls st ++ repeat (GetCommandInvocation cid i) n
    /\ slept st' = (slept st + 3 * Z.of_nat n)%Z
    /\ audit_entries (logs st') = audit_entries (logs st)
    /\ exists l, logs st'
                 = l ++ [mkLog WARNING
                           ("Command " ++ py_str E cid
                              ++ " did not complete within timeout period")].
Proof.
  intros Hpending. revert st. induction n as [|n IH]; intros st.
  - cbn [poll_status]. rewrite bind_run, log_run. unfold ret.
    eexists. split; [reflexivity|]. cbn [calls slept logs repeat].
    split; [now rewrite app_nil_r|]. split; [lia|]. split.
    + rewrite audit_entries_app. cbn. now rewrite app_nil_r.
    + eexists. reflexivity.
  - destruct (Hpending st) as (response & status & Hr & Hs & Ht).
    rewrite (poll_status_turn n cid i a st response status Hr Hs).
    unfold terminal in Ht. rewrite Ht.
    destruct (IH (after_poll E cid status i st)) as (st' & H & Hc & Hsl & Ha & Hl).
    exists st'. split; [exact H|]. split; [|split; [|split]].
    + rewrite Hc. cbn [after_poll calls repeat]. now rewrite <- app_assoc.
    + rewrite Hsl. cbn [after_poll slept]. lia.
    + rewrite Ha. cbn [after_poll logs]. rewrite audit_entries_app.
      cbn. now rewrite app_nil_r.
    + exact Hl.
Qed.

(** ** The executor *)

Lemma py_eq_str_true (v : pyval) (s : string) :
  py_eq_str v s = true <-> v = PStr s.
Proof.
  destruct v; simpl; try (split; [discriminate | intros [=]]).
  rewrite String.eqb_eq. split; [now intros -> | now intros [= ->]].
Qed.

Lemma ssm_handler_run (i a : string) (e : exn) (st : state) :
  exists st',
    (log ERROR ("Error executing SSM command on " ++ i ++ ": " ++ exn_str e) ;;
     log_healing_action E i ("ssm_" ++ a) "failed" (PStr (exn_str e)) ;;
     ret false) st = (inr false, st')
    /\ calls st' = calls st /\ slept st' = slept st.
Proof.
  rewrite bind_run, log_run.
  match goal with
  | |- context [log_healing_action E ?i ?a ?s ?d] =>
      match goal with
      | |- context [bind _ _ ?s1] =>
          destruct (log_healing_action_run i a s d s1) as (en & t & H)
      end
  end.
  rewrite (bind_ok _ _ _ _ _ H). unfold ret.
  eexists. split; [reflexivity|]. split; reflexivity.
Qed.

Lemma execute_ssm_command_run (i a : string) (st : state) :
  exists b st',
    execute_ssm_command E i a st = (inr b, st') /\ ssm_outcome E i a st b st'.
Proof.
  unfold execute_ssm_command. rewrite try_except_run.
  destruct (AUTO_HEALING_ENABLED E) eqn:Hen; cbn [negb].
  2:{ rewrite bind_run, log_run. unfold ret. do 2 eexists.
      split; [reflexivity|]. left. repeat split; auto. }
  destruct (get_instance_details_run i st) as (inst & s1 & Hg & Hc1 & Hs1 & _).
  rewrite (bind_ok _ _ _ _ _ Hg).
  assert (Hstop : forall st',
             py_truthy inst = false \/ run_state inst <> inr (PStr "running") ->
             calls st' = calls s1 -> slept st' = slept s1 ->
             ssm_outcome E i a st false st').
  { intros st' Hno Hc Hs. right. split; [exact Hen|].
    exists inst, s1. split; [exact Hg|].
    left. repeat split; auto; congruence. }
  assert (Hgo : forall b st' cid k,
             py_truthy inst = true -> run_state inst = inr (PStr "running") ->
             (k <= max_attempts)%nat ->
             calls st' = calls s1 ++ [dispatch E i a]
                           ++ repeat (GetCommandInvocation cid i) k ->
             slept st' = (slept s1 + 3 * Z.of_nat k)%Z ->
             ssm_outcome E i a st b st').
  { intros b st' cid k Ht Hrs Hk Hc Hs. right. split; [exact Hen|].
    exists inst, s1. split; [exact Hg|].
    right. split; [exact Ht|]. split; [exact Hrs|]. exists cid, k.
    split; [exact Hk|]. split.
    - rewrite Hc, Hc1. rewrite <- app_assoc. reflexivity.
    - rewrite Hs, Hs1. reflexivity. }
  clear Hg.
  destruct (py_truthy inst) eqn:Ht; cbn [negb].
  2:{ rewrite bind_run, log_run. unfold ret. do 2 eexists.
      split; [reflexivity|]. apply Hstop; auto. }
  rewrite bind_run. unfold lift at 1.
  destruct (getitem inst "State") as [e|stt] eqn:HS.
  { destruct (ssm_handler_run i a e s1) as (s2 & H2 & Hc2 & Hs2). rewrite H2.
    do 2 eexists. split; [reflexivity|]. apply Hstop; auto.
    right. unfold run_state. rewrite HS. discriminate. }
  cbn iota beta. rewrite bind_run. unfold lift at 1.
  destruct (getitem stt "Name") as [e|name] eqn:HN.
  { destruct (ssm_handler_run i a e s1) as (s2 & H2 & Hc2 & Hs2). rewrite H2.
    do 2 eexists. split; [reflexivity|]. apply Hstop; auto.
    right. unfold run_state. rewrite HS. cbn. rewrite HN. discriminate. }
  cbn iota beta.
  destruct (py_eq_str name "running") eqn:Hrun; cbn [negb].
  2:{ rewrite bind_run, log_run. unfold ret. do 2 eexists.
      split; [reflexivity|]. apply Hstop; auto.
      right. unfold run_state. rewrite HS. cbn. rewrite HN.
      intros [= ->]. discriminate. }
  apply py_eq_str_true in Hrun. subst name.
  assert (Hrs : run_state inst = inr (PStr "running")).
  { unfold run_state. rewrite HS. cbn. exact HN. }
  specialize (fun b st' cid k => Hgo b st' cid k eq_refl Hrs).
  clear Hstop.
  assert (Hfail : forall e s2,
             calls s2 = calls s1 ++ [dispatch E i a] -> slept s2 = slept s1 ->
             exists b st',
               (log ERROR ("Error executing SSM command on " ++ i ++ ": "
                             ++ exn_str e) ;;
                log_healing_action E i ("ssm_" ++ a) "failed" (PStr (exn_str e)) ;;
                ret false) s2 = (inr b, st')
               /\ ssm_outcome E i a st b st').
  { intros e s2 Hc Hs.
    destruct (ssm_handler_run i a e s2) as (s3 & H3 & Hc3 & Hs3).
    exists false, s3. split; [exact H3|].
    apply (Hgo false s3 PNone 0%nat); [unfold max_attempts; lia | |].
    - cbn [repeat]. rewrite Hc3, Hc. reflexivity.
    - rewrite Hs3, Hs. lia. }
  rewrite bind_run, log_run. cbn iota beta.
  rewrite bind_run. unfold call at 1. cbn [calls logs slept].
  fold (dispatch E i a).
  match goal with
  | |- context [boto3 E ?s (dispatch E i a)] =>
      destruct (boto3 E s (dispatch E i a)) as [e|response]
  end.
  { apply Hfail; reflexivity. }
  cbn iota beta. rewrite bind_run. unfold lift at 1.
  destruct (getitem response "Command") as [e|cmd].
  { apply Hfail; reflexivity. }
  cbn iota beta. rewrite bind_run. unfold lift at 1.
  destruct (getitem cmd "CommandId") as [e|cid].
  { apply Hfail; reflexivity. }
  cbn iota beta. rewrite bind_run, log_run. cbn iota beta.
  match goal with
  | |- context [bind (log_healing_action E ?i' ?a' ?s' ?d') _ ?s2] =>
      destruct (log_healing_action_run i' a' s' d' s2) as (en & t & Hl)
  end.
  rewrite (bind_ok _ _ _ _ _ Hl).
  match goal with
  | |- context [poll_status E max_attempts cid i a ?s3] =>
      destruct (poll_status_bounded max_attempts cid i a s3)
        as (r & s4 & k & Hp & Hk & Hc4 & Hs4)
  end.
  rewrite Hp. cbn [calls slept] in Hc4, Hs4.
  destruct r as [e|b].
  - destruct (ssm_handler_run i a e s4) as (s5 & H5 & Hc5 & Hs5). rewrite H5.
    exists false, s5. split; [reflexivity|].
    apply (Hgo false s5 cid k); [exact Hk| |].
    + rewrite Hc5, Hc4. rewrite <- app_assoc. reflexivity.
    + rewrite Hs5, Hs4. reflexivity.
  - exists b, s4. split; [reflexivity|].
    apply (Hgo b s4 cid k); [exact Hk| |].
    + rewrite Hc4. rewrite <- app_assoc. reflexivity.
    + rewrite Hs4. reflexivity.
Qed.

Lemma execute_reboot_instance_run (i : string) (st : state) :
  exists b st',
    execute_reboot_instance E i st = (inr b, st')
    /\ slept st' = slept st
    /\ (AUTO_HEALING_ENABLED E = false ->
        b = false /\ calls st' = calls st
        /\ logs st' = logs st ++ [mkLog INFO
                         ("Auto-healing disabled, skipping reboot for " ++ i)])
    /\ (AUTO_HEALING_ENABLED E = true ->
        calls st' = calls st ++ [RebootInstances [i]]).
Proof.
  unfold execute_reboot_instance. rewrite try_except_run.
  destruct (AUTO_HEALING_ENABLED E); cbn [negb].
  - rewrite bind_run, log_run. cbn iota beta.
    rewrite bind_run. unfold call at 1. cbn [calls logs slept].
    match goal with
    | |- context [boto3 E ?s ?r] => destruct (boto3 E s r) as [e|x]
    end.
    + rewrite bind_run, log_run.
      match goal with
      | |- context [bind (log_healing_action E ?i' ?a' ?s' ?d') _ ?s2] =>
          destruct (log_healing_action_run i' a' s' d' s2) as (en & t & Hl)
      end.
      rewrite (bind_ok _ _ _ _ _ Hl). unfold ret.
      do 2 eexists. split; [reflexivity|]. cbn [calls slept].
      split; [reflexivity|]. split; [discriminate | reflexivity].
    + cbn iota beta.
      match goal with
      | |- context [bind (log_healing_action E ?i' ?a' ?s' ?d') _ ?s2] =>
          destruct (log_healing_action_run i' a' s' d' s2) as (en & t & Hl)
      end.
      rewrite (bind_ok _ _ _ _ _ Hl). unfold ret.
      do 2 eexists. split; [reflexivity|]. cbn [calls slept].
      split; [reflexivity|]. split; [discriminate | reflexivity].
  - rewrite bind_run, log_run. unfold ret.
    do 2 eexists. split; [reflexivity|]. cbn [calls slept logs].
    split; [reflexivity|]. split; [auto | discriminate].
Qed.

(** ** Reporting *)

Lemma publish_healing_result_run (i a : string) (b : bool) (d : pyval)
      (st : state) :
  exists st',
    publish_healing_result E i a b d st = (inr tt, st')
    /\ slept st' = slept st
    /\ audit_entries (logs st') = audit_entries (logs st)
    /\ (SNS_TOPIC_ARN E = "" ->
        calls st' = calls st
        /\ logs st' = logs st ++ [mkLog WARNING
                         "SNS topic ARN not configured, skipping notification"])
    /\ (SNS_TOPIC_ARN E <> "" ->
        exists message,
          calls st' = calls st ++ [Publish (SNS_TOPIC_ARN E)
                                     ("Auto-Heal: " ++ a ++ " - " ++ i) message]).
Proof.
  unfold publish_healing_result. rewrite try_except_run. cbn [py_truthy].
  destruct (String.eqb (SNS_TOPIC_ARN E) "") eqn:Harn; cbn [negb].
  - apply String.eqb_eq in Harn.
    rewrite bind_run, log_run. unfold ret.
    eexists. split; [reflexivity|]. cbn [calls slept logs].
    split; [reflexivity|]. split.
    { rewrite audit_entries_app. cbn. now rewrite app_nil_r. }
    split; [auto | congruence].
  - apply String.eqb_neq in Harn.
    rewrite bind_run. unfold utcnow at 1. cbn iota beta.
    rewrite bind_run. unfold call at 1. cbn [calls logs slept].
    match goal with
    | |- context [boto3 E ?s ?r] => destruct (boto3 E s r) as [e|x]
    end.
    + rewrite bind_run, log_run. unfold ret.
      eexists. split; [reflexivity|]. cbn [calls slept logs].
      split; [reflexivity|]. split.
      { rewrite audit_entries_app. cbn. now rewrite app_nil_r. }
      split; [congruence | eauto].
    + cbn iota beta. rewrite bind_run, log_run. unfold ret.
      eexists. split; [reflexivity|]. cbn [calls slept logs].
      split; [reflexivity|]. split.
      { rewrite audit_entries_app. cbn. now rewrite app_nil_r. }
      split; [congruence | eauto].
Qed.

(** C6 (as the code has it).  With no notification destination
    configured the reporter returns without raising and publishes
    nothing; it logs one warning and writes no audit entry. *)
Theorem publish_without_destination (i a : string) (b : bool) (d : pyval)
        (st : state) :
  SNS_TOPIC_ARN E = "" ->
  exists st',
    publish_healing_result E i a b d st = (inr tt, st')
    /\ calls st' = calls st
    /\ slept st' = slept st
    /\ logs st' = logs st ++ [mkLog WARNING
                     "SNS topic ARN not configured, skipping notification"]
    /\ audit_entries (logs st') = audit_entries (logs st).
Proof.
  intros Harn.
  destruct (publish_healing_result_run i a b d st)
    as (st' & H & Hs & Ha & Hoff & _).
  destruct (Hoff Harn) as (Hc & Hl).
  exists st'. repeat split; assumption.
Qed.

(** C4 (as the code has it).  With the switch off the executor, for
    every action, returns the failure flag without raising, makes no
    collaborator call, does not sleep and writes no audit entry: its one
    effect is an informational log line saying that auto-healing is
    disabled. *)
Theorem disabled_switch_gates_every_action (i a : string) (st : state) :
  AUTO_HEALING_ENABLED E = false ->
  exists st',
    execute E i a st = (inr false, st')
    /\ calls st' = calls st
    /\ slept st' = slept st
    /\ logs st'
       = logs st ++ [mkLog INFO
            ("Auto-healing disabled, skipping "
               ++ (if String.eqb a "reboot" then "reboot" else "SSM command")
               ++ " for " ++ i)]
    /\ audit_entries (logs st') = audit_entries (logs st).
Proof.
  intros Hoff. unfold execute. destruct (String.eqb a "reboot").
  - destruct (execute_reboot_instance_run i st) as (b & st' & H & Hs & Hd & _).
    destruct (Hd Hoff) as (-> & Hc & Hl).
    exists st'. repeat split; auto.
    rewrite Hl, audit_entries_app. cbn. now rewrite app_nil_r.
  - destruct (execute_ssm_command_run i a st) as (b & st' & H & Ho).
    destruct Ho as [(_ & -> & Hl & Hc & Hs) | (Hen & _)]; [|congruence].
    exists st'. repeat split; auto.
    rewrite Hl, audit_entries_app. cbn. now rewrite app_nil_r.
Qed.

Lemma polls_repeat (cid : pyval) (i : string) (k : nat) :
  polls (repeat (GetCommandInvocation cid i) k) = k.
Proof.
  unfold polls. induction k as [|k IH]; cbn; [reflexivity | now f_equal].
Qed.

Lemma no_dispatch_in_polls (cid : pyval) (i : string) (k : nat) :
  existsb is_dispatch (repeat (GetCommandInvocation cid i) k) = false.
Proof. induction k as [|k IH]; cbn; auto. Qed.

Lemma getitem_of_dict (v x : pyval) (k : string) :
  getitem v k = inr x -> exists kvs, v = PDict kvs.
Proof. destruct v; simpl; try discriminate. eauto. Qed.

Lemma log_healing_action_exact (i a s : string) (d : pyval) (st : state) :
  exists entry,
    log_healing_action E i a s d st = (inr entry, audited E i a s d st).
Proof. unfold log_healing_action. eexists. reflexivity. Qed.

Lemma poll_continue (cid : pyval) (i a : string) (k : nat) (st sk : state) :
  pending_run E k cid i st = Some sk ->
  calls sk = calls st ++ repeat (GetCommandInvocation cid i) k
  /\ slept sk = (slept st + 3 * Z.of_nat k)%Z
  /\ audit_entries (logs sk) = audit_entries (logs st)
  /\ forall n, poll_status E (k + n) cid i a st = poll_status E n cid i a sk.
Proof.
  revert st. induction k as [|k IH]; intros st H.
  - injection H as <-. cbn [repeat]. rewrite app_nil_r.
    repeat split; auto. lia.
  - cbn [pending_run] in H.
    destruct (poll_answer E cid i st) as [e|response] eqn:Hr; [discriminate|].
    destruct (getitem response "Status") as [e|status] eqn:Hs; [discriminate|].
    destruct (terminal status) eqn:Ht; [discriminate|].
    destruct (IH _ H) as (Hc & Hsl & Ha & Hn).
    split; [|split; [|split]].
    + rewrite Hc. cbn [after_poll calls repeat]. now rewrite <- app_assoc.
    + rewrite Hsl. cbn [after_poll slept]. lia.
    + rewrite Ha. cbn [after_poll logs]. rewrite audit_entries_app.
      cbn. now rewrite app_nil_r.
    + intros n. cbn [Nat.add].
      rewrite (poll_status_turn (k + n) cid i a st response status Hr Hs).
      unfold terminal in Ht. rewrite Ht. apply Hn.
Qed.

Lemma poll_timeout_exact (cid : pyval) (i a : string) (n : nat) (st sn : state) :
  pending_run E n cid i st = Some sn ->
  poll_status E n cid i a st = (inr false, timed_out E cid sn).
Proof.
  intros H. destruct (poll_continue cid i a n st sn H) as (_ & _ & _ & Hn).
  specialize (Hn 0%nat). rewrite Nat.add_0_r in Hn. rewrite Hn. reflexivity.
Qed.

Lemma poll_success_exact (cid : pyval) (i a : string) (k n : nat)
      (st sk : state) (response : pyval) :
  pending_run E k cid i st = Some sk ->
  poll_answer E cid i sk = inr response ->
  getitem response "Status" = inr (PStr "Success") ->
  poll_status E (k + S n) cid i a st = (inr true, completed E cid i a sk).
Proof.
  intros H Hr Hs. destruct (poll_continue cid i a k st sk H) as (_ & _ & _ & Hn).
  rewrite Hn. rewrite (poll_status_turn n cid i a sk response _ Hr Hs).
  reflexivity.
Qed.

Lemma poll_failed_exact (cid : pyval) (i a : string) (k n : nat)
      (st sk : state) (response error_msg : pyval) :
  pending_run E k cid i st = Some sk ->
  poll_answer E cid i sk = inr response ->
  getitem response "Status" = inr (PStr "Failed") ->
  py_get response "StandardErrorContent" (PStr "Unknown error") = inr error_msg ->
  poll_status E (k + S n) cid i a st
  = (inr false, command_failed E cid i a error_msg sk).
Proof.
  intros H Hr Hs Hm.
  destruct (poll_continue cid i a k st sk H) as (_ & _ & _ & Hn).
  rewrite Hn. rewrite (poll_status_turn n cid i a sk response _ Hr Hs).
  change (py_eq_str (PStr "Failed") "Success") with false.
  change (py_eq_str (PStr "Failed") "Failed") with true. cbn [orb].
  rewrite bind_run. unfold lift at 1. rewrite Hm. reflexivity.
Qed.

Lemma attempts_split (k : nat) :
  (k < max_attempts)%nat -> max_attempts = (k + S (max_attempts - S k))%nat.
Proof. unfold max_attempts. lia. Qed.

Lemma dispatch_then_poll (cid : pyval) (i a : string) (st s1 : state) :
  dispatches E i a st cid s1 ->
  execute_ssm_command E i a st
  = finish E i a (poll_status E max_attempts cid i a (dispatched E i a cid s1)).
Proof.
  intros (Hen & inst & response & cmd & Hg & Ht & Hrs & Hsend & Hcmd & Hcid).
  unfold execute_ssm_command. rewrite try_except_run, Hen. cbn [negb].
  rewrite (bind_ok _ _ _ _ _ Hg), Ht. cbn [negb].
  unfold run_state in Hrs. rewrite bind_run. unfold lift at 1.
  destruct (getitem inst "State") as [e|stt]; [discriminate|].
  cbn [res_bind] in Hrs. cbn iota beta. rewrite bind_run. unfold lift at 1.
  rewrite Hrs. cbn iota beta.
  change (py_eq_str (PStr "running") "running") with true. cbn [negb].
  rewrite bind_run, log_run. cbn iota beta.
  rewrite bind_run. unfold call at 1. cbn [calls logs slept].
  fold (dispatch E i a).
  unfold before_dispatch, logged in Hsend. rewrite Hsend. cbn iota beta.
  rewrite bind_run. unfold lift at 1. rewrite Hcmd. cbn iota beta.
  rewrite bind_run. unfold lift at 1. rewrite Hcid. cbn iota beta.
  rewrite bind_run, log_run. cbn iota beta.
  rewrite bind_run.
  match goal with
  | |- context [log_healing_action E ?i' ?a' ?s' ?d' ?s2] =>
      destruct (log_healing_action_exact i' a' s' d' s2) as (entry & Hl);
      rewrite Hl
  end.
  cbn iota beta.
  change (poll_status E max_attempts cid i a (dispatched E i a cid s1))
    with (poll_status E max_attempts cid i a
            (audited E i ("ssm_" ++ a) "initiated"
               (PStr ("Command ID: " ++ py_str E cid))
               (mkState
                  (calls s1 ++ [dispatch E i a])
                  ((logs s1 ++ [mkLog INFO ("Executing SSM command: " ++ a
                                              ++ " on instance " ++ i)])
                     ++ [mkLog INFO ("SSM command " ++ py_str E cid
                                       ++ " sent to instance " ++ i)])
                  (slept s1)))).
  destruct (poll_status E max_attempts cid i a _) as [[e|b] s4]; reflexivity.
Qed.

(** C5.  The status loop is bounded and its result is fixed by the
    answers it gets.  With [n] attempts left it asks the collaborator at
    most [n] times, sleeping 3 before each question and at no other time.
    A status [Success] ends it with success, a status [Failed] ends it
    with failure, any other status goes to the next attempt.  When the
    ten answers of the [max_attempts] = 10 attempts are all other
    statuses, the loop logs the timeout warning and returns failure,
    whatever the collaborator would have answered next.  The same holds
    of [execute_ssm_command]: once it has dispatched, its result is that
    of the loop started from the state [dispatched] (an exception of the
    loop being turned into failure), so it returns [True] after a
    [Success] within ten polls, [False] after a [Failed], and [False]
    after ten polls and 30 slept when no terminal status came.  Every run
    of it returns, with at most 10 polls and at most 30 slept. *)
Theorem polling_is_bounded (cid : pyval) (i a : string) (st : state) :
  (forall n, exists r st' k,
      poll_status E n cid i a st = (r, st')
      /\ (k <= n)%nat
      /\ calls st' = calls st ++ repeat (GetCommandInvocation cid i) k
      /\ slept st' = (slept st + 3 * Z.of_nat k)%Z)
  /\ (forall n response status,
        poll_answer E cid i st = inr response ->
        getitem response "Status" = inr status ->
        (status = PStr "Success" ->
         exists st', poll_status E (S n) cid i a st = (inr true, st')
                     /\ calls st' = calls st ++ [GetCommandInvocation cid i])
        /\ (status = PStr "Failed" ->
            exists st', poll_status E (S n) cid i a st = (inr false, st')
                        /\ calls st' = calls st ++ [GetCommandInvocation cid i])
        /\ (terminal status = false ->
            poll_status E (S n) cid i a st
            = poll_status E n cid i a (after_poll E cid status i st)))
  /\ (forall k sk,
        pending_run E k cid i st = Some sk ->
        calls sk = calls st ++ repeat (GetCommandInvocation cid i) k
        /\ slept sk = (slept st + 3 * Z.of_nat k)%Z
        /\ audit_entries (logs sk) = audit_entries (logs st)
        /\ forall n, poll_status E (k + n) cid i a st
                     = poll_status E n cid i a sk)
  /\ (forall s10,
        pending_run E max_attempts cid i st = Some s10 ->
        poll_status E max_attempts cid i a st = (inr false, timed_out E cid s10))
  /\ (forall k sk response,
        (k < max_attempts)%nat ->
        pending_run E k cid i st = Some sk ->
        poll_answer E cid i sk = inr response ->
        getitem response "Status" = inr (PStr "Success") ->
        poll_status E max_attempts cid i a st
        = (inr true, completed E cid i a sk))
  /\ (forall k sk response error_msg,
        (k < max_attempts)%nat ->
        pending_run E k cid i st = Some sk ->
        poll_answer E cid i sk = inr response ->
        getitem response "Status" = inr (PStr "Failed") ->
        py_get response "StandardErrorContent" (PStr "Unknown error")
        = inr error_msg ->
        poll_status E max_attempts cid i a st
        = (inr false, command_failed E cid i a error_msg sk))
  /\ (forall s1,
        dispatches E i a st cid s1 ->
        execute_ssm_command E i a st
        = finish E i a (poll_status E max_attempts cid i a
                                    (dispatched E i a cid s1))
        /\ (forall s10,
              pending_run E max_attempts cid i (dispatched E i a cid s1)
              = Some s10 ->
              execute_ssm_command E i a st = (inr false, timed_out E cid s10)
              /\ polls (calls (timed_out E cid s10))
                 = (polls (calls st) + 10)%nat
              /\ slept (timed_out E cid s10) = (slept st + 30)%Z)
        /\ (forall k sk response,
              (k < max_attempts)%nat ->
              pending_run E k cid i (dispatched E i a cid s1) = Some sk ->
              poll_answer E cid i sk = inr response ->
              getitem response "Status" = inr (PStr "Success") ->
              execute_ssm_command E i a st = (inr true, completed E cid i a sk)
              /\ polls (calls (completed E cid i a sk))
                 = (polls (calls st) + S k)%nat
              /\ slept (completed E cid i a sk)
                 = (slept st + 3 * Z.of_nat (S k))%Z)
        /\ (forall k sk response error_msg,
              (k < max_attempts)%nat ->
              pending_run E k cid i (dispatched E i a cid s1) = Some sk ->
              poll_answer E cid i sk = inr response ->
              getitem response "Status" = inr (PStr "Failed") ->
              py_get response "StandardErrorContent" (PStr "Unknown error")
              = inr error_msg ->
              execute_ssm_command E i a st
              = (inr false, command_failed E cid i a error_msg sk)
              /\ polls (calls (command_failed E cid i a error_msg sk))
                 = (polls (calls st) + S k)%nat))
  /\ (exists b st' new,
        execute_ssm_command E i a st = (inr b, st')
        /\ calls st' = calls st ++ new
        /\ (polls new <= 10)%nat
        /\ slept st' = (slept st + 3 * Z.of_nat (polls new))%Z
        /\ (slept st' <= slept st + 30)%Z).
Proof.
  assert (Hpolls : forall l k,
             polls (l ++ repeat (GetCommandInvocation cid i) k)
             = (polls l + k)%nat).
  { intros l k. unfold polls. rewrite filter_app, length_app.
    fold (polls (repeat (GetCommandInvocation cid i) k)).
    now rewrite polls_repeat. }
  split; [|split; [|split; [|split; [|split; [|split; [|split]]]]]].
  - intros n. apply poll_status_bounded.
  - intros n response status Hr Hs.
    rewrite (poll_status_turn n cid i a st response status Hr Hs).
    split; [|split].
    + intros ->.
      change (py_eq_str (PStr "Success") "Success") with true. cbn [orb].
      match goal with
      | |- context [bind (log_healing_action E ?i' ?a' ?s' ?d') _ ?s2] =>
          destruct (log_healing_action_run i' a' s' d' s2) as (en & t & Hl)
      end.
      rewrite (bind_ok _ _ _ _ _ Hl). unfold ret.
      eexists. split; reflexivity.
    + intros ->.
      change (py_eq_str (PStr "Failed") "Success") with false.
      change (py_eq_str (PStr "Failed") "Failed") with true. cbn [orb].
      destruct (getitem_of_dict _ _ _ Hs) as (kvs & ->).
      rewrite bind_run. unfold lift at 1. cbn [py_get].
      destruct (assoc "StandardErrorContent" kvs).
      all: cbn iota beta.
      all: match goal with
           | |- context [bind (log_healing_action E ?i' ?a' ?s' ?d') _ ?s2] =>
               destruct (log_healing_action_run i' a' s' d' s2) as (en' & t' & Hl')
           end.
      all: rewrite (bind_ok _ _ _ _ _ Hl'); unfold ret.
      all: eexists; split; reflexivity.
    + intros Ht. unfold terminal in Ht. now rewrite Ht.
  - intros k sk H. now apply poll_continue.
  - intros s10 H. now apply poll_timeout_exact.
  - intros k sk response Hk H Hr Hs. rewrite (attempts_split k Hk).
    eapply poll_success_exact; eauto.
  - intros k sk response msg Hk H Hr Hs Hm. rewrite (attempts_split k Hk).
    eapply poll_failed_exact; eauto.
  - intros s1 Hd. pose proof (dispatch_then_poll cid i a st s1 Hd) as Hlink.
    assert (Hbase : calls (dispatched E i a cid s1)
                    = calls st ++ [DescribeInstances [i]; dispatch E i a]
                    /\ slept (dispatched E i a cid s1) = slept st).
    { destruct Hd as (_ & inst & response & cmd & Hg & _).
      destruct (get_instance_details_run i st) as (inst' & s1' & Hg' & Hc & Hs & _).
      rewrite Hg in Hg'. injection Hg' as <- <-.
      cbn [dispatched audited logged calls slept].
      rewrite Hc, Hs. split; [now rewrite <- app_assoc | reflexivity]. }
    destruct Hbase as [Hbc Hbs].
    assert (Hpre : polls (calls st ++ [DescribeInstances [i]; dispatch E i a])
                   = polls (calls st)).
    { unfold polls, dispatch. rewrite filter_app, length_app. cbn. lia. }
    split; [exact Hlink|]. split; [|split].
    + intros s10 H.
      destruct (poll_continue cid i a _ _ _ H) as (Hc & Hsl & _ & _).
      rewrite Hlink, (poll_timeout_exact cid i a _ _ _ H).
      split; [reflexivity|]. cbn [timed_out logged calls slept].
      rewrite Hc, Hsl, Hbc, Hbs, Hpolls, Hpre. unfold max_attempts.
      split; [reflexivity | lia].
    + intros k sk response Hk H Hr Hs.
      destruct (poll_continue cid i a _ _ _ H) as (Hc & Hsl & _ & _).
      rewrite Hlink, (attempts_split k Hk),
        (poll_success_exact cid i a _ _ _ _ _ H Hr Hs).
      split; [reflexivity|].
      cbn [completed audited logged after_poll calls slept].
      rewrite Hc, Hsl, Hbc, Hbs. split.
      * rewrite <- app_assoc.
        change (repeat (GetCommandInvocation cid i) k
                  ++ [GetCommandInvocation cid i])
          with (repeat (GetCommandInvocation cid i) k
                  ++ repeat (GetCommandInvocation cid i) 1).
        rewrite <- repeat_app, Hpolls, Hpre. lia.
      * lia.
    + intros k sk response msg Hk H Hr Hs Hm.
      destruct (poll_continue cid i a _ _ _ H) as (Hc & Hsl & _ & _).
      rewrite Hlink, (attempts_split k Hk),
        (poll_failed_exact cid i a _ _ _ _ _ _ H Hr Hs Hm).
      split; [reflexivity|].
      cbn [command_failed audited logged after_poll calls slept].
      rewrite Hc, Hbc. rewrite <- app_assoc.
      change (repeat (GetCommandInvocation cid i) k
                ++ [GetCommandInvocation cid i])
        with (repeat (GetCommandInvocation cid i) k
                ++ repeat (GetCommandInvocation cid i) 1).
      rewrite <- repeat_app, Hpolls, Hpre. lia.
  - destruct (execute_ssm_command_run i a st) as (b & st' & H & Ho).
    destruct Ho as [(_ & _ & _ & Hc & Hs)
                   | (_ & inst & s1 & _ & [(_ & _ & Hc & Hs)
                                          | (_ & _ & c & k & Hk & Hc & Hs)])].
    + exists b, st', []. split; [exact H|]. rewrite app_nil_r.
      cbn. repeat split; auto; lia.
    + exists b, st', [DescribeInstances [i]]. split; [exact H|].
      cbn. repeat split; auto; lia.
    + exists b, st',
        ([DescribeInstances [i]; dispatch E i a]
           ++ repeat (GetCommandInvocation c i) k).
      split; [exact H|]. split; [exact Hc|].
      assert (Hp : polls ([DescribeInstances [i]; dispatch E i a]
                            ++ repeat (GetCommandInvocation c i) k) = k).
      { unfold polls. rewrite filter_app, length_app.
        fold (polls (repeat (GetCommandInvocation c i) k)).
        rewrite polls_repeat. reflexivity. }
      rewrite Hp. unfold max_attempts in Hk. repeat split; lia.
Qed.


(** C9.  For an action other than the reboot the executor looks the
    resource up again before it dispatches anything: a dispatch is always
    the second call, after the lookup.  When that lookup finds no
    resource, or a run state other than [running], the result is the
    failure flag and nothing is dispatched, polled or slept. *)
Theorem refetch_before_dispatch (i a : string) (st : state) :
  String.eqb a "reboot" = false ->
  exists b st' new,
    execute E i a st = (inr b, st')
    /\ calls st' = calls st ++ new
    /\ (existsb is_dispatch new = true ->
        exists rest, new = DescribeInstances [i] :: dispatch E i a :: rest)
    /\ (forall instance s1,
          get_instance_details E i st = (inr instance, s1) ->
          py_truthy instance = false
          \/ run_state instance <> inr (PStr "running") ->
          b = false
          /\ existsb is_dispatch new = false
          /\ polls new = 0%nat
          /\ slept st' = slept st
          /\ (AUTO_HEALING_ENABLED E = true -> new = [DescribeInstances [i]])).
Proof.
  intros Ha. unfold execute. rewrite Ha.
  destruct (execute_ssm_command_run i a st) as (b & st' & H & Ho).
  destruct Ho as [(Hen & Hb & _ & Hc & Hs)
                 | (Hen & inst & s1 & Hg & [(Hno & Hb & Hc & Hs)
                                           | (Ht & Hrs & c & k & Hk & Hc & Hs)])].
  - exists b, st', []. split; [exact H|]. rewrite app_nil_r.
    split; [exact Hc|]. split; [discriminate|].
    intros _ _ _ _. repeat split; auto. congruence.
  - exists b, st', [DescribeInstances [i]]. split; [exact H|].
    split; [exact Hc|]. split; [discriminate|].
    intros _ _ _ _. repeat split; auto.
  - exists b, st',
      ([DescribeInstances [i]; dispatch E i a]
         ++ repeat (GetCommandInvocation c i) k).
    split; [exact H|]. split; [exact Hc|]. split.
    + intros _. eexists. reflexivity.
    + intros instance s1' Hg' Hno. rewrite Hg in Hg'.
      injection Hg' as <- <-. destruct Hno as [Hno|Hno]; congruence.
Qed.

(** ** The handler *)

Lemma extract_some_valid (message : pyval) (s : string) (st st' : state) :
  extract_instance_id E message st = (inr (Some s), st') ->
  startswith "i-" s = true.
Proof.
  assert (Hcand : forall p, candidate message p = Some s ->
                            startswith "i-" s = true).
  { intros p. unfold candidate. destruct (walk message p) as [e|v]; [discriminate|].
    unfold valid_id. destruct v; try discriminate.
    destruct (py_truthy (PStr s0) && is_str (PStr s0) && startswith "i-" s0) eqn:Hv;
      [|discriminate].
    intros [= ->]. apply andb_prop in Hv. apply Hv. }
  unfold extract_instance_id, paths. cbn [for_paths].
  destruct (try_path_run message ["Trigger"; "Dimensions"; "InstanceId"] st)
    as (s1 & H1 & _).
  rewrite (bind_ok _ _ _ _ _ H1).
  destruct (candidate message ["Trigger"; "Dimensions"; "InstanceId"]) eqn:C1.
  { intros [= -> _]. eauto. }
  destruct (try_path_run message ["instance_id"] s1) as (s2 & H2 & _).
  rewrite (bind_ok _ _ _ _ _ H2).
  destruct (candidate message ["instance_id"]) eqn:C2.
  { intros [= -> _]. eauto. }
  destruct (try_path_run message ["InstanceId"] s2) as (s3 & H3 & _).
  rewrite (bind_ok _ _ _ _ _ H3).
  destruct (candidate message ["InstanceId"]) eqn:C3.
  { intros [= -> _]. eauto. }
  rewrite bind_run. unfold lift at 1.
  destruct (py_in "raw_message" message) as [e|[|]]; cbn iota beta.
  - discriminate.
  - rewrite bind_run. unfold lift at 1.
    destruct (getitem message "raw_message") as [e|raw]; [discriminate|].
    cbn iota beta.
    destruct (re_search_id (py_str E raw)) as [m|] eqn:Hm.
    + intros [= -> _]. apply re_search_id_lexical in Hm.
      revert Hm. unfold lexical_id, startswith.
      destruct s as [|c1 [|c2 t]]; try discriminate.
      * destruct c1 as [[] [] [] [] [] [] [] []]; discriminate.
      * destruct c1 as [[] [] [] [] [] [] [] []]; try discriminate.
        destruct c2 as [[] [] [] [] [] [] [] []]; try discriminate.
        intros _. cbn. now destruct t.
    + destruct (not_found_run s3) as (s4 & H4 & _). rewrite H4. discriminate.
  - destruct (not_found_run s3) as (s4 & H4 & _). rewrite H4. discriminate.
Qed.


Lemma handler_try_no_identifier (event message : pyval) (s0 s1 s2 : state) :
  parse_sns_message E event s0 = (inr message, s1) ->
  extract_instance_id E message s1 = (inr None, s2) ->
  exists s,
    handler_try E event s0
    = (inr (mkResponse 400
              (error_body E "Could not extract instance ID from alert")), s).
Proof.
  intros Hp Hx. unfold handler_try.
  rewrite (bind_ok _ _ _ _ _ Hp), (bind_ok _ _ _ _ _ Hx).
  rewrite bind_run, log_run. unfold ret. eauto.
Qed.

Lemma handler_try_not_found (event message instance : pyval) (i : string)
      (s0 s1 s2 s3 s4 : state) :
  parse_sns_message E event s0 = (inr message, s1) ->
  extract_instance_id E message s1 = (inr (Some i), s2) ->
  log INFO ("Processing alert for instance: " ++ i) s2 = (inr tt, s3) ->
  get_instance_details E i s3 = (inr instance, s4) ->
  py_truthy instance = false ->
  exists s,
    handler_try E event s0
    = (inr (mkResponse 404 (error_body E ("Instance " ++ i ++ " not found"))), s).
Proof.
  intros Hp Hx Hl Hg Ht. unfold handler_try.
  rewrite (bind_ok _ _ _ _ _ Hp), (bind_ok _ _ _ _ _ Hx).
  pose proof (extract_some_valid _ _ _ _ Hx) as Hv.
  assert (Hne : no_instance_id (Some i) = false).
  { cbn. destruct i; [discriminate | reflexivity]. }
  rewrite Hne. rewrite (bind_ok _ _ _ _ _ Hl), (bind_ok _ _ _ _ _ Hg), Ht.
  cbn [negb]. rewrite bind_run, log_run. unfold ret. eauto.
Qed.





End Facts.

(** ** Classification, continued *)

(** C2.  On a message whose alarm name and metric name are strings (or
    missing) the classifier returns what the priority list of rules gives
    on the names as [str.lower] folds them: status check, then CPU, then
    memory, then disk, else the diagnostic.  Letter case plays no part:
    two messages whose names have the same folding get the same action.
    In particular an alarm name that holds, in any letter case, both the
    status-check token and the CPU token gives the reboot. *)
Theorem classification_follows_priority (E : Env) (message : pyval)
        (instance_id a m : string) :
  py_get message "AlarmName" (PStr "") = inr (PStr a) ->
  metric_field message = inr (PStr m) ->
  determine_healing_action E message instance_id
  = inr (classify_by_priority E a m)
  /\ (contains "status-check" (str_lower E a) = true ->
      contains "cpu" (str_lower E a) = true ->
      determine_healing_action E message instance_id = inr "reboot")
  /\ (forall message' a' m',
        py_get message' "AlarmName" (PStr "") = inr (PStr a') ->
        metric_field message' = inr (PStr m') ->
        str_lower E a' = str_lower E a ->
        str_lower E m' = str_lower E m ->
        determine_healing_action E message' instance_id
        = determine_healing_action E message instance_id).
Proof.
  intros Ha Hm.
  pose proof (determine_by_priority E message instance_id a m Ha Hm) as H.
  split; [exact H|]. split.
  - intros Hs _. rewrite H. unfold classify_by_priority, rules, first_rule.
    now rewrite Hs.
  - intros message' a' m' Ha' Hm' Hla Hlm.
    rewrite H, (determine_by_priority E message' instance_id a' m' Ha' Hm').
    unfold classify_by_priority. now rewrite Hla, Hlm.
Qed.

(** C8 (as the code has it).  The classifier is a function of the
    message alone, so equal inputs give equal results, and the identifier
    plays no part.  On a mapping whose [AlarmName] is missing or a string
    and whose [Trigger] is missing or a mapping with [MetricName] missing
    or a string, it returns a member of the closed action set. *)
Theorem classification_total_on_typed_fields (E : Env) (message : pyval)
        (instance_id a m : string) :
  py_get message "AlarmName" (PStr "") = inr (PStr a) ->
  metric_field message = inr (PStr m) ->
  (exists action,
      determine_healing_action E message instance_id = inr action
      /\ In action action_set)
  /\ (forall other_id,
        determine_healing_action E message other_id
        = determine_healing_action E message instance_id).
Proof.
  intros Ha Hm. split.
  - exists (classify_by_priority E a m). split.
    + now apply determine_by_priority.
    + apply classify_in_action_set.
  - intros other. reflexivity.
Qed.

(** * The properties on concrete runs *)


Lemma classification_follows_priority_witness :
  determine_healing_action env_on
    (PDict [("AlarmName", PStr "High-CPU-Status-Check")]) "i-0abc123"
  = inr "reboot"
  /\ determine_healing_action env_on
       (PDict [("AlarmName", PStr ("cpu-status-chec" ++ kelvin_sign))])
       "i-0abc123"
     = inr "reboot"
  /\ determine_healing_action env_on
       (PDict [("AlarmName", PStr "HIGH-cpu-STATUS-check")]) "i-0abc123"
     = determine_healing_action env_on
         (PDict [("AlarmName", PStr "High-CPU-Status-Check")]) "i-0abc123".
Proof.
  split; [|split].
  - apply (proj1 (proj2 (classification_follows_priority env_on
             (PDict [("AlarmName", PStr "High-CPU-Status-Check")])
             "i-0abc123" "High-CPU-Status-Check" "" eq_refl eq_refl)));
      reflexivity.
  - apply (proj1 (proj2 (classification_follows_priority env_on
             (PDict [("AlarmName", PStr ("cpu-status-chec" ++ kelvin_sign))])
             "i-0abc123" ("cpu-status-chec" ++ kelvin_sign) ""
             eq_refl eq_refl)));
      reflexivity.
  - apply (proj2 (proj2 (classification_follows_priority env_on
             (PDict [("AlarmName", PStr "High-CPU-Status-Check")])
             "i-0abc123" "High-CPU-Status-Check" "" eq_refl eq_refl))
             (PDict [("AlarmName", PStr "HIGH-cpu-STATUS-check")])
             "HIGH-cpu-STATUS-check" "");
      reflexivity.
Defined.


Lemma disabled_switch_gates_every_action_witness :
  exists st',
    execute env_off "i-0abc123" "cleanup_disk" init_state = (inr false, st')
    /\ calls st' = [].
Proof.
  destruct (disabled_switch_gates_every_action env_off "i-0abc123"
              "cleanup_disk" init_state eq_refl) as (st' & H & Hc & _).
  exists st'. split; [exact H | exact Hc].
Defined.

Lemma counting_dispatches (status_at : nat -> string) :
  dispatches (counting_env status_at) "i-0abc123" "clear_cache" init_state
             (PStr "cmd-1") looked_up.
Proof.
  split; [reflexivity|].
  exists running_instance,
    (PDict [("Command", PDict [("CommandId", PStr "cmd-1")])]),
    (PDict [("CommandId", PStr "cmd-1")]).
  repeat split.
Defined.

Lemma polling_is_bounded_witness :
  (exists st',
      execute_ssm_command env_late "i-0abc123" "clear_cache" init_state
      = (inr false, st')
      /\ polls (calls st') = 10%nat
      /\ slept st' = 30%Z
      /\ poll_answer env_late (PStr "cmd-1") "i-0abc123" st'
         = inr (PDict [("Status", PStr "Success");
                       ("StandardErrorContent", PStr "permission denied")]))
  /\ (exists st',
        execute_ssm_command env_third "i-0abc123" "clear_cache" init_state
        = (inr true, st')
        /\ polls (calls st') = 3%nat
        /\ slept st' = 9%Z)
  /\ (exists st',
        execute_ssm_command env_fail_second "i-0abc123" "clear_cache" init_state
        = (inr false, st')
        /\ polls (calls st') = 2%nat)
  /\ (exists st',
        poll_status env_on max_attempts (PStr "cmd-1") "i-0abc123" "clear_cache"
                    init_state = (inr false, st')
        /\ polls (calls st') = 10%nat
        /\ slept st' = 30%Z)
  /\ (exists st',
        poll_status env_done max_attempts (PStr "cmd-1") "i-0abc123"
                    "clear_cache" init_state = (inr true, st')
        /\ calls st' = [GetCommandInvocation (PStr "cmd-1") "i-0abc123"])
  /\ (exists st',
        poll_status env_failed max_attempts (PStr "cmd-1") "i-0abc123"
                    "clear_cache" init_state = (inr false, st')
        /\ calls st' = [GetCommandInvocation (PStr "cmd-1") "i-0abc123"])
  /\ poll_status env_on 10 (PStr "cmd-1") "i-0abc123" "clear_cache" init_state
     = poll_status env_on 9 (PStr "cmd-1") "i-0abc123" "clear_cache"
         (after_poll env_on (PStr "cmd-1") (PStr "Pending") "i-0abc123" init_state).
Proof.
  split; [|split; [|split; [|split; [|split; [|split]]]]].
  - destruct (polling_is_bounded env_late (PStr "cmd-1") "i-0abc123"
                "clear_cache" init_state)
      as (_ & _ & _ & _ & _ & _ & Hexec & _).
    destruct (Hexec looked_up (counting_dispatches _)) as (_ & Htimeout & _).
    edestruct Htimeout as (H & Hp & Hs); [vm_compute; reflexivity|].
    eexists. split; [exact H|]. split; [exact Hp|]. split; [exact Hs|].
    vm_compute. reflexivity.
  - destruct (polling_is_bounded env_third (PStr "cmd-1") "i-0abc123"
                "clear_cache" init_state)
      as (_ & _ & _ & _ & _ & _ & Hexec & _).
    destruct (Hexec looked_up (counting_dispatches _)) as (_ & _ & Hdone & _).
    edestruct (Hdone 2%nat) as (H & Hp & Hs);
      [unfold max_attempts; lia | vm_compute; reflexivity ..|].
    eexists. split; [exact H|]. split; [exact Hp | exact Hs].
  - destruct (polling_is_bounded env_fail_second (PStr "cmd-1") "i-0abc123"
                "clear_cache" init_state)
      as (_ & _ & _ & _ & _ & _ & Hexec & _).
    destruct (Hexec looked_up (counting_dispatches _)) as (_ & _ & _ & Hfail).
    edestruct (Hfail 1%nat) as (H & Hp);
      [unfold max_attempts; lia | vm_compute; reflexivity ..|].
    eexists. split; [exact H | exact Hp].
  - destruct (polling_is_bounded env_on (PStr "cmd-1") "i-0abc123" "clear_cache"
                init_state) as (_ & _ & _ & Htimeout & _).
    eexists. split; [apply Htimeout; vm_compute; reflexivity|].
    split; vm_compute; reflexivity.
  - destruct (polling_is_bounded env_done (PStr "cmd-1") "i-0abc123"
                "clear_cache" init_state) as (_ & Hturn & _).
    exact (proj1 (Hturn 9%nat _ (PStr "Success") eq_refl eq_refl) eq_refl).
  - destruct (polling_is_bounded env_failed (PStr "cmd-1") "i-0abc123"
                "clear_cache" init_state) as (_ & Hturn & _).
    exact (proj1 (proj2 (Hturn 9%nat _ (PStr "Failed") eq_refl eq_refl)) eq_refl).
  - destruct (polling_is_bounded env_on (PStr "cmd-1") "i-0abc123"
                "clear_cache" init_state) as (_ & Hturn & _).
    exact (proj2 (proj2 (Hturn 9%nat _ (PStr "Pending") eq_refl eq_refl)) eq_refl).
Defined.

Lemma publish_without_destination_witness :
  exists st',
    publish_healing_result env_on "i-0abc123" "reboot" true (PStr "") init_state
    = (inr tt, st')
    /\ calls st' = []
    /\ audit_entries (logs st') = [].
Proof.
  destruct (publish_without_destination env_on "i-0abc123" "reboot" true
              (PStr "") init_state eq_refl) as (st' & H & Hc & _ & _ & Ha).
  exists st'. split; [exact H|]. split; [exact Hc | exact Ha].
Defined.

Lemma parse_sns_message_total_witness :
  exists st',
    parse_sns_message env_on (sns_event (PStr "host web-1 is down")) init_state
    = (inr (PDict [("raw_message", PStr "host web-1 is down")]), st').
Proof.
  destruct (proj2 (parse_sns_message_total env_on
                     (sns_event (PStr "host web-1 is down")) init_state)
                  "host web-1 is down"
                  (mkExn JSONDecodeError
                         "Expecting value: line 1 column 1 (char 0)")
                  eq_refl eq_refl eq_refl) as (st' & H & _).
  exists st'. exact H.
Defined.

Lemma classification_total_on_typed_fields_witness :
  exists action,
    determine_healing_action env_on
      (PDict [("Trigger", PDict [("MetricName", PStr "DiskUtilization")])])
      "i-0abc123" = inr action
    /\ In action action_set.
Proof.
  apply (classification_total_on_typed_fields env_on
           (PDict [("Trigger", PDict [("MetricName", PStr "DiskUtilization")])])
           "i-0abc123" "" "DiskUtilization");
    reflexivity.
Defined.

Lemma refetch_before_dispatch_witness :
  (exists b st' new,
      execute env_stopped "i-0abc123" "clear_cache" init_state = (inr b, st')
      /\ calls st' = calls init_state ++ new
      /\ b = false
      /\ new = [DescribeInstances ["i-0abc123"]])
  /\ (exists b st' new rest,
        execute env_on "i-0abc123" "clear_cache" init_state = (inr b, st')
        /\ calls st' = calls init_state ++ new
        /\ new = DescribeInstances ["i-0abc123"]
                   :: dispatch env_on "i-0abc123" "clear_cache" :: rest).
Proof.
  split.
  - destruct (refetch_before_dispatch env_stopped "i-0abc123" "clear_cache"
                init_state eq_refl) as (b & st' & new & H & Hc & _ & Hstop).
    destruct (Hstop stopped_instance
                    (mkState [DescribeInstances ["i-0abc123"]] [] 0)
                    eq_refl
                    (or_intror (fun H : run_state stopped_instance
                                        = inr (PStr "running") =>
                                  ltac:(discriminate H))))
      as (Hb & _ & _ & _ & Hnew).
    exists b, st', new. split; [exact H|]. split; [exact Hc|].
    split; [exact Hb | exact (Hnew eq_refl)].
  - destruct (refetch_before_dispatch env_on "i-0abc123" "clear_cache"
                init_state eq_refl) as (b & st' & new & H & Hc & Hform & _).
    assert (Hd : existsb is_dispatch new = true).
    { vm_compute in H. injection H as _ <-. cbn in Hc. subst new. reflexivity. }
    destruct (Hform Hd) as (rest & Hnew).
    exists b, st', new, rest. split; [exact H|]. split; [exact Hc | exact Hnew].
Defined.

Lemma validation_differs_by_strategy_witness :
  fst (extract_instance_id env_on (PDict [("instance_id", PStr "i-")]) init_state)
  = inr (Some "i-")
  /\ lexical_id "i-" = false
  /\ lexical_id "i-0def456" = true
  /\ startswith "i-" "i-0def456" = true.
Proof.
  destruct (validation_differs_by_strategy env_on init_state)
    as (Hacc & Hraw & Hlex & (_ & Hbare) & _).
  split; [exact (proj1 (proj2 (Hacc "i-" eq_refl)))|].
  split; [exact Hbare|].
  pose proof (Hraw (PStr "host i-0def456 is down") "i-0def456" eq_refl) as Hl.
  split; [exact Hl | exact (Hlex "i-0def456" Hl)].
Defined.

(** ** Where the code departs from the specification *)

(** C4: with the switch off the executor leaves no audit entry at all, so
    none with the detail the specification names. *)
Lemma disabled_detail_counterexample :
  ~ (forall (E : Env) (i a : string) (st : state),
        AUTO_HEALING_ENABLED E = false ->
        exists st',
          execute E i a st = (inr false, st')
          /\ calls st' = calls st
          /\ exists timestamp action status,
              In (mkLog INFO
                    (audit_prefix
                       ++ json_dumps E None
                            (PDict [("timestamp", PStr timestamp);
                                    ("instance_id", PStr i);
                                    ("action", PStr action);
                                    ("status", PStr status);
                                    ("details", PStr "auto-healing disabled")])))
                 (logs st')).
Proof.
  intros H.
  destruct (H env_off "i-0abc123" "cleanup_disk" init_state eq_refl)
    as (st' & Hrun & _ & ts & action & status & Hin).
  vm_compute in Hrun. injection Hrun as <-.
  cbn in Hin. destruct Hin as [Heq | []]. discriminate Heq.
Qed.

(** C6: the reporter writes no audit entry, with or without a
    destination. *)
Lemma publish_audit_counterexample :
  ~ (forall (E : Env) (i a : string) (b : bool) (d : pyval) (st : state),
        SNS_TOPIC_ARN E = "" ->
        exists st',
          publish_healing_result E i a b d st = (inr tt, st')
          /\ calls st' = calls st
          /\ length (audit_entries (logs st'))
             = S (length (audit_entries (logs st)))).
Proof.
  intros H.
  destruct (H env_on "i-0abc123" "reboot" true (PStr "") init_state eq_refl)
    as (st' & Hrun & _ & Hlen).
  vm_compute in Hrun. injection Hrun as <-.
  vm_compute in Hlen. discriminate Hlen.
Qed.


(** C8: a field of another type makes the classifier raise, whatever the
    environment. *)
Lemma classification_not_total_counterexample :
  ~ (exists E : Env,
        forall (message : pyval) (instance_id : string),
        exists action,
          determine_healing_action E message instance_id = inr action
          /\ In action action_set).
Proof.
  intros [E H].
  destruct (H (PDict [("AlarmName", PInt 5)]) "i-0abc123")
    as (action & Hd & _).
  cbn in Hd. discriminate Hd.
Qed.

(** ** The scenarios of the specification *)

(** A: a failed status check on a running resource is answered by one
    reboot request and status 200. *)
Example scenario_reboot :
  let r := lambda_handler env_on status_check_alarm PNone init_state in
  status_of r = Some 200%Z
  /\ calls (snd r) = [DescribeInstances ["i-0abc123"];
                      RebootInstances ["i-0abc123"]].
Proof. vm_compute. split; reflexivity. Qed.

(** B: free text without an identifier gives status 400. *)
Example scenario_no_identifier :
  let r := lambda_handler env_on (sns_event (PStr "host web-1 is down"))
                          PNone init_state in
  status_of r = Some 400%Z /\ calls (snd r) = [].
Proof. vm_compute. split; reflexivity. Qed.

(** C: an identifier whose lookup gives nothing gives status 404. *)
Example scenario_not_found :
  let r := lambda_handler env_gone
                          (sns_event (PStr "host i-0def456 is down"))
                          PNone init_state in
  status_of r = Some 404%Z /\ calls (snd r) = [DescribeInstances ["i-0def456"]].
Proof. vm_compute. split; reflexivity. Qed.

(** D: a dispatched script that stays pending is polled ten times and
    gives status 500. *)
Example scenario_pending :
  let r := lambda_handler env_on memory_alarm PNone init_state in
  status_of r = Some 500%Z
  /\ polls (calls (snd r)) = 10%nat
  /\ slept (snd r) = 30%Z.
Proof. vm_compute. repeat split; reflexivity. Qed.

(** E: with the switch off nothing is dispatched; the status is 500, no
    audit entry is written, and the published details are those of the
    alarm. *)
Example scenario_disabled :
  let E := demo_env false "arn:aws:sns:topic" running_instance "Pending" in
  let r := lambda_handler E disk_alarm PNone init_state in
  status_of r = Some 500%Z
  /\ calls (snd r)
     = [DescribeInstances ["i-0abc123"];
        Publish "arn:aws:sns:topic" "Auto-Heal: cleanup_disk - i-0abc123"
                (json_dumps E (Some 2%nat)
                   (healing_message "i-0abc123" "cleanup_disk" false
                      (PStr "Disk usage above 90%") "2024-01-01T00:00:00"))]
  /\ audit_entries (logs (snd r)) = [].
Proof. vm_compute. repeat split; reflexivity. Qed.

(** A message that is not a mapping makes the extractor raise; the
    handler answers 500. *)
Example scenario_null_message :
  let r := lambda_handler env_on (sns_event (PStr "null")) PNone init_state in
  status_of r = Some 500%Z.
Proof. vm_compute. reflexivity. Qed.

(** * Further properties of the lambda module *)

(** ** The raw-text search *)

Lemma take_while_fixed (p : ascii -> bool) (t post : string) :
  all_chars p t = true ->
  match post with EmptyString => true | String c _ => negb (p c) end = true ->
  take_while p (t ++ post) = t.
Proof.
  intros Ht Hpost. induction t as [|c t IH]; simpl in *.
  - destruct post as [|c u]; [reflexivity|]. simpl.
    apply negb_true_iff in Hpost. now rewrite Hpost.
  - apply andb_prop in Ht. destruct Ht as [Hc Ht]. rewrite Hc.
    now rewrite (IH Ht).
Qed.

Lemma prefix_refl_app (a b : string) : String.prefix a (a ++ b) = true.
Proof.
  induction a as [|c a IH]; simpl; [now destruct b|].
  destruct (ascii_dec c c) as [_|N]; [exact IH | now elim N].
Qed.

Lemma take_while_split (p : ascii -> bool) (t : string) :
  exists rest, t = (take_while p t ++ rest)%string.
Proof.
  induction t as [|c t [rest IH]]; simpl.
  - exists EmptyString. reflexivity.
  - destruct (p c).
    + exists rest. simpl. now rewrite <- IH.
    + exists (String c t). reflexivity.
Qed.

Lemma match_id_here_prefix (s m : string) :
  match_id_here s = Some m -> String.prefix m s = true.
Proof.
  unfold match_id_here.
  destruct s as [|a s]; try discriminate.
  destruct (ascii_dec a "i") as [->|Ha].
  2:{ destruct a as [[] [] [] [] [] [] [] []]; try discriminate; now elim Ha. }
  destruct s as [|b t]; try discriminate.
  destruct (ascii_dec b "-") as [->|Hb].
  2:{ destruct b as [[] [] [] [] [] [] [] []]; try discriminate; now elim Hb. }
  destruct (take_while_split id_char t) as [rest Hrest].
  destruct (take_while id_char t) as [|c w] eqn:Hw; try discriminate.
  intros [= <-]. rewrite Hrest.
  change (String "i" (String "-" (String c w ++ rest)))
    with ((String "i" (String "-" (String c w))) ++ rest)%string.
  apply prefix_refl_app.
Qed.

Lemma contains_here (m s : string) :
  String.prefix m s = true -> contains m s = true.
Proof. intros H. destruct s; simpl in *; now rewrite H. Qed.

Lemma contains_later (m : string) (c : ascii) (s : string) :
  contains m s = true -> contains m (String c s) = true.
Proof.
  intros H. cbn [contains]. rewrite H. apply orb_true_r.
Qed.

Lemma re_search_id_substring (s m : string) :
  re_search_id s = Some m -> contains m s = true.
Proof.
  induction s as [|c t IH]; intros H; cbn -[match_id_here] in H.
  - discriminate.
  - destruct (match_id_here (String c t)) as [w|] eqn:Hm.
    + injection H as <-. apply contains_here. now apply match_id_here_prefix.
    + apply contains_later. now apply IH.
Qed.

Lemma lexical_id_shape (s : string) :
  lexical_id s = true ->
  exists t, s = String "i" (String "-" t)
            /\ t <> EmptyString /\ all_chars id_char t = true.
Proof.
  unfold lexical_id.
  destruct s as [|a s]; try discriminate.
  destruct (ascii_dec a "i") as [->|Ha].
  2:{ destruct a as [[] [] [] [] [] [] [] []]; try discriminate; now elim Ha. }
  destruct s as [|b t]; try discriminate.
  destruct (ascii_dec b "-") as [->|Hb].
  2:{ destruct b as [[] [] [] [] [] [] [] []]; try discriminate; now elim Hb. }
  intros H. apply andb_prop in H. destruct H as [Hne Hall].
  exists t. split; [reflexivity|]. split; [|exact Hall].
  intros ->. discriminate.
Qed.

(** X1.  What the search of [i-[a-z0-9]+] gives back is a piece of the
    text and has the lexical form; and a text that begins with a
    well-formed identifier, ended by the end of the text or by a character
    outside [a-z0-9], gives back exactly that identifier. *)
Theorem raw_search_recovers_identifiers (text : string) :
  (forall m, re_search_id text = Some m ->
             contains m text = true /\ lexical_id m = true)
  /\ (forall post,
         lexical_id text = true ->
         match post with
         | EmptyString => true
         | String c _ => negb (id_char c)
         end = true ->
         re_search_id (text ++ post) = Some text).
Proof.
  split.
  - intros m H. split.
    + now apply re_search_id_substring.
    + eapply re_search_id_lexical; eauto.
  - intros post Hlex Hpost.
    destruct (lexical_id_shape _ Hlex) as (t & -> & Hne & Hall).
    assert (Hm : match_id_here (String "i" (String "-" t) ++ post)
                 = Some (String "i" (String "-" t))).
    { cbn [append match_id_here].
      rewrite (take_while_fixed id_char t post Hall Hpost).
      destruct t; [now elim Hne | reflexivity]. }
    cbn [append] in *. cbn -[match_id_here]. now rewrite Hm.
Qed.

Section MoreFacts.

Variable E : Env.

(** ** Extraction on any message *)

Lemma extract_any_run (message : pyval) (st : state) :
  exists r st',
    extract_instance_id E message st = (r, st') /\ only_logs st st'.
Proof.
  unfold extract_instance_id, paths. cbn [for_paths].
  destruct (try_path_run E message ["Trigger"; "Dimensions"; "InstanceId"] st)
    as (s1 & H1 & L1).
  rewrite (bind_ok _ _ _ _ _ H1).
  destruct (candidate message ["Trigger"; "Dimensions"; "InstanceId"]).
  { do 2 eexists. split; [reflexivity | exact L1]. }
  destruct (try_path_run E message ["instance_id"] s1) as (s2 & H2 & L2).
  rewrite (bind_ok _ _ _ _ _ H2).
  pose proof (only_logs_trans _ _ _ L1 L2) as L12.
  destruct (candidate message ["instance_id"]).
  { do 2 eexists. split; [reflexivity | exact L12]. }
  destruct (try_path_run E message ["InstanceId"] s2) as (s3 & H3 & L3).
  rewrite (bind_ok _ _ _ _ _ H3).
  pose proof (only_logs_trans _ _ _ L12 L3) as L.
  destruct (candidate message ["InstanceId"]).
  { do 2 eexists. split; [reflexivity | exact L]. }
  rewrite bind_run. unfold lift at 1.
  destruct (py_in "raw_message" message) as [e|[|]]; cbn iota beta.
  - do 2 eexists. split; [reflexivity | exact L].
  - rewrite bind_run. unfold lift at 1.
    destruct (getitem message "raw_message") as [e|raw].
    { do 2 eexists. split; [reflexivity | exact L]. }
    cbn iota beta.
    destruct (re_search_id (py_str E raw)) as [m|].
    + do 2 eexists. split; [reflexivity | exact L].
    + destruct (not_found_run s3) as (s4 & H4 & L4). rewrite H4.
      do 2 eexists. split; [reflexivity | eapply only_logs_trans; eauto].
  - destruct (not_found_run s3) as (s4 & H4 & L4). rewrite H4.
    do 2 eexists. split; [reflexivity | eapply only_logs_trans; eauto].
Qed.

(** X2.  On a message of any shape, mapping or not, and whether it
    returns or raises, the extractor calls no collaborator, does not sleep
    and writes no audit entry; and an identifier it returns always starts
    with [i-]. *)
Theorem extraction_is_quiet_and_prefixed (message : pyval) (st : state) :
  exists r st',
    extract_instance_id E message st = (r, st')
    /\ calls st' = calls st
    /\ slept st' = slept st
    /\ audit_entries (logs st') = audit_entries (logs st)
    /\ (forall s, r = inr (Some s) ->
                  startswith "i-" s = true /\ s <> EmptyString).
Proof.
  destruct (extract_any_run message st) as (r & st' & H & Hc & Hs & Ha).
  exists r, st'. repeat split; auto.
  - subst r. eapply extract_some_valid; eauto.
  - subst r. intros ->. apply extract_some_valid in H. discriminate H.
Qed.

(** ** The lookup, case by case *)

(** X3.  [get_instance_details] answers from one [describe_instances]
    call.  It returns the first instance of the first reservation.  When
    that reservation lists no instance it returns [None] and logs
    nothing; when the call raises, or the answer has no reservation, it
    returns [None] and logs the error. *)
Theorem lookup_returns_first_instance (i : string) (st : state) :
  (forall response reservations reservation instance rest,
      boto3 E st (DescribeInstances [i]) = inr response ->
      getitem response "Reservations" = inr reservations ->
      getitem0 reservations = inr reservation ->
      getitem reservation "Instances" = inr (PList (instance :: rest)) ->
      get_instance_details E i st
      = (inr instance,
         mkState (calls st ++ [DescribeInstances [i]]) (logs st) (slept st)))
  /\ (forall response reservations reservation,
         boto3 E st (DescribeInstances [i]) = inr response ->
         getitem response "Reservations" = inr reservations ->
         getitem0 reservations = inr reservation ->
         getitem reservation "Instances" = inr (PList []) ->
         get_instance_details E i st
         = (inr PNone,
            mkState (calls st ++ [DescribeInstances [i]]) (logs st) (slept st)))
  /\ (forall e,
         boto3 E st (DescribeInstances [i]) = inl e ->
         get_instance_details E i st
         = (inr PNone,
            mkState (calls st ++ [DescribeInstances [i]])
                    (logs st ++ [mkLog ERROR
                       ("Error getting instance details for " ++ i ++ ": "
                          ++ exn_str e)])
                    (slept st)))
  /\ (forall response,
         boto3 E st (DescribeInstances [i]) = inr response ->
         getitem response "Reservations" = inr (PList []) ->
         get_instance_details E i st
         = (inr PNone,
            mkState (calls st ++ [DescribeInstances [i]])
                    (logs st ++ [mkLog ERROR
                       ("Error getting instance details for " ++ i ++ ": "
                          ++ "list index out of range")])
                    (slept st))).
Proof.
  split; [|split; [|split]].
  - intros response reservations reservation instance rest Hb Hr H0 Hi.
    unfold get_instance_details. rewrite try_except_run, bind_run.
    unfold call at 1.
    rewrite Hb. cbn iota beta. rewrite bind_run. unfold lift at 1.
    rewrite Hr. cbn iota beta. rewrite bind_run. unfold lift at 1.
    rewrite H0. cbn iota beta. rewrite bind_run. unfold lift at 1.
    rewrite Hi. reflexivity.
  - intros response reservations reservation Hb Hr H0 Hi.
    unfold get_instance_details. rewrite try_except_run, bind_run.
    unfold call at 1.
    rewrite Hb. cbn iota beta. rewrite bind_run. unfold lift at 1.
    rewrite Hr. cbn iota beta. rewrite bind_run. unfold lift at 1.
    rewrite H0. cbn iota beta. rewrite bind_run. unfold lift at 1.
    rewrite Hi. reflexivity.
  - intros e Hb.
    unfold get_instance_details. rewrite try_except_run, bind_run.
    unfold call at 1. rewrite Hb. reflexivity.
  - intros response Hb Hr.
    unfold get_instance_details. rewrite try_except_run, bind_run.
    unfold call at 1.
    rewrite Hb. cbn iota beta. rewrite bind_run. unfold lift at 1.
    rewrite Hr. reflexivity.
Qed.

(** ** The reboot *)

(** X4.  With the switch on, [execute_reboot_instance] makes exactly one
    [reboot_instances] call for the instance, does not sleep, and writes
    exactly one audit entry; it returns [True] exactly when the call was
    accepted, and never raises. *)
Theorem reboot_is_one_call_one_entry (i : string) (st : state) :
  AUTO_HEALING_ENABLED E = true ->
  exists b st',
    execute_reboot_instance E i st = (inr b, st')
    /\ calls st' = calls st ++ [RebootInstances [i]]
    /\ slept st' = slept st
    /\ length (audit_entries (logs st'))
       = S (length (audit_entries (logs st)))
    /\ (b = true <->
        exists answer,
          boto3 E (mkState (calls st)
                           (logs st ++ [mkLog INFO ("Rebooting instance " ++ i)])
                           (slept st))
                (RebootInstances [i]) = inr answer).
Proof.
  intros Hon. unfold execute_reboot_instance. rewrite try_except_run, Hon.
  cbn [negb]. rewrite bind_run, log_run. cbn iota beta.
  rewrite bind_run. unfold call at 1. cbn [calls logs slept].
  match goal with
  | |- context [boto3 E ?s ?r] => destruct (boto3 E s r) as [e|x] eqn:Hb
  end.
  - rewrite bind_run, log_run.
    match goal with
    | |- context [bind (log_healing_action E ?i' ?a' ?s' ?d') _ ?s2] =>
        destruct (log_healing_action_run E i' a' s' d' s2) as (en & t & Hl)
    end.
    rewrite (bind_ok _ _ _ _ _ Hl). unfold ret.
    do 2 eexists. split; [reflexivity|]. cbn [calls slept logs].
    split; [reflexivity|]. split; [reflexivity|]. split.
    + rewrite !audit_entries_app, !length_app. cbn. destruct t; cbn; lia.
    + split; [discriminate | intros [x Hx]; discriminate].
  - cbn iota beta.
    match goal with
    | |- context [bind (log_healing_action E ?i' ?a' ?s' ?d') _ ?s2] =>
        destruct (log_healing_action_run E i' a' s' d' s2) as (en & t & Hl)
    end.
    rewrite (bind_ok _ _ _ _ _ Hl). unfold ret.
    do 2 eexists. split; [reflexivity|]. cbn [calls slept logs].
    split; [reflexivity|]. split; [reflexivity|]. split.
    + rewrite !audit_entries_app, !length_app. cbn. destruct t; cbn; lia.
    + split; [eauto | reflexivity].
Qed.

(** ** A reported success *)

Lemma audit_count_entry (l : list log_record) (r : log_record) :
  is_audit r = true ->
  length (audit_entries (l ++ [r])) = S (length (audit_entries l)).
Proof.
  intros H. rewrite audit_entries_app, length_app. cbn. rewrite H. cbn. lia.
Qed.

Lemma entry_is_audit (t : string) :
  is_audit (mkLog INFO (audit_prefix ++ t)) = true.
Proof. cbn. now destruct t. Qed.

Lemma audit_entries_plain (l : list log_record) (r : log_record) :
  is_audit r = false -> audit_entries (l ++ [r]) = audit_entries l.
Proof.
  intros H. rewrite audit_entries_app. cbn. rewrite H. apply app_nil_r.
Qed.

Lemma poll_status_true (n : nat) (cid : pyval) (i a : string) (st st' : state) :
  poll_status E n cid i a st = (inr true, st') ->
  exists k,
    (1 <= k <= n)%nat
    /\ calls st' = calls st ++ repeat (GetCommandInvocation cid i) k
    /\ slept st' = (slept st + 3 * Z.of_nat k)%Z
    /\ length (audit_entries (logs st')) = S (length (audit_entries (logs st)))
    /\ exists s response,
        poll_answer E cid i s = inr response
        /\ getitem response "Status" = inr (PStr "Success").
Proof.
  revert st. induction n as [|n IH]; intros st H.
  - cbn [poll_status] in H. rewrite bind_run, log_run in H. discriminate H.
  - destruct (poll_answer E cid i st) as [e|response] eqn:Hr.
    { cbn [poll_status] in H. rewrite bind_run in H. unfold sleep at 1 in H.
      cbn iota beta in H. rewrite bind_run in H. unfold call at 1 in H.
      unfold poll_answer in Hr. cbn [calls logs slept] in H.
      rewrite Hr in H. discriminate H. }
    destruct (getitem response "Status") as [e|status] eqn:Hs.
    { cbn [poll_status] in H. rewrite bind_run in H. unfold sleep at 1 in H.
      cbn iota beta in H. rewrite bind_run in H. unfold call at 1 in H.
      unfold poll_answer in Hr. cbn [calls logs slept] in H.
      rewrite Hr in H. cbn iota beta in H.
      rewrite bind_run in H. unfold lift at 1 in H. rewrite Hs in H.
      discriminate H. }
    rewrite (poll_status_turn E n cid i a st response status Hr Hs) in H.
    destruct (py_eq_str status "Success") eqn:Hok.
    + cbn [orb] in H.
      match type of H with
      | context [bind (log_healing_action E ?i' ?a' ?s' ?d') _ ?s2] =>
          destruct (log_healing_action_run E i' a' s' d' s2) as (en & t & Hl)
      end.
      rewrite (bind_ok _ _ _ _ _ Hl) in H. unfold ret in H.
      injection H as <-. exists 1%nat. cbn [after_poll calls slept logs repeat].
      split; [lia|]. split; [reflexivity|]. split; [lia|]. split.
      * rewrite audit_count_entry by apply entry_is_audit. f_equal. f_equal.
        apply audit_entries_plain. reflexivity.
      * apply py_eq_str_true in Hok. subst status. eauto.
    + cbn [orb] in H. destruct (py_eq_str status "Failed").
      * rewrite bind_run in H. unfold lift at 1 in H.
        destruct (py_get response "StandardErrorContent" (PStr "Unknown error"))
          as [e|msg]; [discriminate H|].
        cbn iota beta in H.
        match type of H with
        | context [bind (log_healing_action E ?i' ?a' ?s' ?d') _ ?s2] =>
            destruct (log_healing_action_run E i' a' s' d' s2) as (en & t & Hl)
        end.
        rewrite (bind_ok _ _ _ _ _ Hl) in H. discriminate H.
      * destruct (IH _ H) as (k & Hk & Hc & Hsl & Ha & Hlast).
        exists (S k). split; [lia|]. split; [|split; [|split]].
        -- rewrite Hc. cbn [after_poll calls repeat]. now rewrite <- app_assoc.
        -- rewrite Hsl. cbn [after_poll slept]. lia.
        -- rewrite Ha. cbn [after_poll logs]. f_equal. f_equal.
           apply audit_entries_plain. reflexivity.
        -- exact Hlast.
Qed.

(** X5.  [execute_ssm_command] returns [True] only on a run in which
    the switch was on, the script was dispatched right after the lookup,
    at least one and at most ten polls were made with 3 slept before
    each, the collaborator answered [Success], and two audit entries were
    written (the dispatch and the completion). *)
Theorem ssm_success_is_confirmed (i a : string) (st st' : state) :
  execute_ssm_command E i a st = (inr true, st') ->
  AUTO_HEALING_ENABLED E = true
  /\ exists cid k,
      (1 <= k <= 10)%nat
      /\ calls st'
         = calls st ++ [DescribeInstances [i]; dispatch E i a]
                    ++ repeat (GetCommandInvocation cid i) k
      /\ slept st' = (slept st + 3 * Z.of_nat k)%Z
      /\ length (audit_entries (logs st'))
         = S (S (length (audit_entries (logs st))))
      /\ exists s response,
          poll_answer E cid i s = inr response
          /\ getitem response "Status" = inr (PStr "Success").
Proof.
  intros H. unfold execute_ssm_command in H. rewrite try_except_run in H.
  destruct (AUTO_HEALING_ENABLED E) eqn:Hen; cbn [negb] in H.
  2:{ rewrite bind_run, log_run in H. discriminate H. }
  split; [reflexivity|].
  destruct (get_instance_details_run E i st) as (inst & s1 & Hg & Hc1 & Hs1 & Ha1).
  rewrite (bind_ok _ _ _ _ _ Hg) in H.
  assert (Hno : forall e s, ~ (log ERROR ("Error executing SSM command on " ++ i
                                          ++ ": " ++ exn_str e) ;;
                               log_healing_action E i ("ssm_" ++ a) "failed"
                                                  (PStr (exn_str e)) ;;
                               ret false) s = (inr true, st')).
  { intros e s Hx. destruct (ssm_handler_run E i a e s) as (s' & Hs' & _).
    rewrite Hs' in Hx. discriminate Hx. }
  destruct (py_truthy inst); cbn [negb] in H.
  2:{ rewrite bind_run, log_run in H. discriminate H. }
  rewrite bind_run in H. unfold lift at 1 in H.
  destruct (getitem inst "State") as [e|stt]; [now apply Hno in H|].
  cbn iota beta in H. rewrite bind_run in H. unfold lift at 1 in H.
  destruct (getitem stt "Name") as [e|name]; [now apply Hno in H|].
  cbn iota beta in H.
  destruct (py_eq_str name "running"); cbn [negb] in H.
  2:{ rewrite bind_run, log_run in H. discriminate H. }
  rewrite bind_run, log_run in H. cbn iota beta in H.
  rewrite bind_run in H. unfold call at 1 in H. cbn [calls logs slept] in H.
  fold (dispatch E i a) in H.
  match type of H with
  | context [boto3 E ?s (dispatch E i a)] =>
      destruct (boto3 E s (dispatch E i a)) as [e|response]
  end; [now apply Hno in H|].
  cbn iota beta in H. rewrite bind_run in H. unfold lift at 1 in H.
  destruct (getitem response "Command") as [e|cmd]; [now apply Hno in H|].
  cbn iota beta in H. rewrite bind_run in H. unfold lift at 1 in H.
  destruct (getitem cmd "CommandId") as [e|cid]; [now apply Hno in H|].
  cbn iota beta in H. rewrite bind_run, log_run in H. cbn iota beta in H.
  match type of H with
  | context [bind (log_healing_action E ?i' ?a' ?s' ?d') _ ?s2] =>
      destruct (log_healing_action_run E i' a' s' d' s2) as (en & t & Hl)
  end.
  rewrite (bind_ok _ _ _ _ _ Hl) in H.
  match type of H with
  | context [poll_status E max_attempts cid i a ?s3] =>
      destruct (poll_status E max_attempts cid i a s3) as [[e|b] s4] eqn:Hp
  end; [now apply Hno in H|].
  injection H as -> ->.
  destruct (poll_status_true _ _ _ _ _ _ Hp) as (k & Hk & Hc & Hsl & Ha & Hlast).
  exists cid, k. unfold max_attempts in Hk. split; [exact Hk|].
  cbn [calls slept logs] in Hc, Hsl, Ha.
  split; [|split; [|split]].
  - rewrite Hc, Hc1. rewrite <- !app_assoc. reflexivity.
  - rewrite Hsl, Hs1. reflexivity.
  - rewrite Ha, audit_count_entry by apply entry_is_audit. do 2 f_equal.
    rewrite !audit_entries_plain by reflexivity. now rewrite Ha1.
  - exact Hlast.
Qed.

(** ** Computations that call nothing *)

Lemma quiet_refl (st : state) : quiet st st.
Proof. split; reflexivity. Qed.

Lemma quiet_trans (a b c : state) : quiet a b -> quiet b c -> quiet a c.
Proof. intros [H1 H2] [H3 H4]. split; congruence. Qed.

Lemma quiet_ret {A} (a : A) : preserves quiet (ret a).
Proof. intros st r st' [= _ <-]. apply quiet_refl. Qed.

Lemma quiet_raise {A} (e : exn) : preserves quiet (@raise A e).
Proof. intros st r st' [= _ <-]. apply quiet_refl. Qed.

Lemma quiet_lift {A} (x : res A) : preserves quiet (lift x).
Proof. intros st r st' [= _ <-]. apply quiet_refl. Qed.

Lemma quiet_log (l : level) (msg : string) : preserves quiet (log l msg).
Proof. intros st r st' [= _ <-]. split; reflexivity. Qed.

Lemma quiet_bind {A B} (m : M A) (k : A -> M B) :
  preserves quiet m -> (forall a, preserves quiet (k a)) ->
  preserves quiet (bind m k).
Proof.
  intros Hm Hk st r st' H. rewrite bind_run in H.
  destruct (m st) as [[e|a] s1] eqn:Hrun.
  - injection H as _ <-. eapply Hm; eauto.
  - eapply quiet_trans; [eapply Hm; eauto | eapply Hk; eauto].
Qed.

Lemma quiet_try_except {A} (m : M A) (h : exn -> M A) :
  preserves quiet m -> (forall e, preserves quiet (h e)) ->
  preserves quiet (try_except m h).
Proof.
  intros Hm Hh st r st' H. rewrite try_except_run in H.
  destruct (m st) as [[e|a] s1] eqn:Hrun.
  - eapply quiet_trans; [eapply Hm; eauto | eapply Hh; eauto].
  - injection H as _ <-. eapply Hm; eauto.
Qed.

Lemma quiet_try_except_only {A} (cs : list exn_class) (m : M A)
      (h : exn -> M A) :
  preserves quiet m -> (forall e, preserves quiet (h e)) ->
  preserves quiet (try_except_only cs m h).
Proof.
  intros Hm Hh st r st' H. unfold try_except_only in H.
  destruct (m st) as [[e|a] s1] eqn:Hrun.
  - destruct (existsb (exn_class_eqb (exn_cls e)) cs).
    + eapply quiet_trans; [eapply Hm; eauto | eapply Hh; eauto].
    + injection H as _ <-. eapply Hm; eauto.
  - injection H as _ <-. eapply Hm; eauto.
Qed.

Lemma parse_quiet (event : pyval) : preserves quiet (parse_sns_message E event).
Proof.
  unfold parse_sns_message. apply quiet_try_except.
  - repeat (apply quiet_bind; [apply quiet_lift | intros ?]).
    apply quiet_bind.
    + destruct a2; try apply quiet_ret.
      apply quiet_try_except_only; [apply quiet_lift|].
      intros e. apply quiet_bind; [apply quiet_log | intros; apply quiet_ret].
    + intros message. apply quiet_bind; [apply quiet_log | intros; apply quiet_ret].
  - intros e. apply quiet_bind; [apply quiet_log | intros; apply quiet_ret].
Qed.

Lemma parse_malformed (event : pyval) (e : exn) (st : state) :
  message_field event = inl e ->
  parse_sns_message E event st
  = (inr (PDict []),
     mkState (calls st)
             (logs st ++ [mkLog ERROR ("Error parsing SNS message: " ++ exn_str e)])
             (slept st)).
Proof.
  unfold message_field, parse_sns_message. intros H.
  rewrite try_except_run, bind_run. unfold lift at 1.
  destruct (py_get event "Records" (PList [PDict []])) as [x|records].
  { injection H as ->. reflexivity. }
  cbn [res_bind] in H. cbn iota beta. rewrite bind_run. unfold lift at 1.
  destruct (getitem0 records) as [x|record].
  { injection H as ->. reflexivity. }
  cbn [res_bind] in H. cbn iota beta. rewrite bind_run. unfold lift at 1.
  destruct (py_get record "Sns" (PDict [])) as [x|sns].
  { injection H as ->. reflexivity. }
  cbn [res_bind] in H. cbn iota beta. rewrite bind_run. unfold lift at 1.
  rewrite H. reflexivity.
Qed.

(** ** The calls of the executor and of the reporter *)

Lemma polls_app (l1 l2 : list request) :
  polls (l1 ++ l2) = (polls l1 + polls l2)%nat.
Proof. unfold polls. now rewrite filter_app, length_app. Qed.

Lemma about_polls (cid : pyval) (i : string) (k : nat) :
  Forall (about i) (repeat (GetCommandInvocation cid i) k).
Proof. induction k; cbn; constructor; auto. reflexivity. Qed.

Lemma footprint_quiet (i : string) (a b : state) :
  quiet a b -> footprint i 0 0 a b.
Proof.
  intros [Hc Hs]. exists []. rewrite app_nil_r.
  repeat split; auto. cbn. lia.
Qed.

Lemma footprint_trans (i : string) (n n' p p' : nat) (a b c : state) :
  footprint i n p a b -> footprint i n' p' b c ->
  footprint i (n + n') (p + p') a c.
Proof.
  intros (l1 & Hc1 & Hf1 & Hn1 & Hp1 & Hs1) (l2 & Hc2 & Hf2 & Hn2 & Hp2 & Hs2).
  exists (l1 ++ l2). split; [rewrite Hc2, Hc1; now rewrite app_assoc|].
  split; [apply Forall_app; auto|].
  rewrite length_app, polls_app. repeat split; lia.
Qed.

Lemma footprint_weaken (i : string) (n n' p p' : nat) (a b : state) :
  (n <= n')%nat -> (p <= p')%nat ->
  footprint i n p a b -> footprint i n' p' a b.
Proof.
  intros Hn Hp (l & Hc & Hf & Hl & Hq & Hs).
  exists l. repeat split; auto; lia.
Qed.

Lemma execute_trace (i a : string) (st : state) :
  exists b st' ex,
    execute E i a st = (inr b, st')
    /\ calls st' = calls st ++ ex
    /\ Forall (about i) ex
    /\ (length ex <= 12)%nat
    /\ (polls ex <= 10)%nat
    /\ slept st' = (slept st + 3 * Z.of_nat (polls ex))%Z
    /\ (b = true -> remediation_issued E i ex).
Proof.
  unfold execute. destruct (String.eqb a "reboot").
  - destruct (execute_reboot_instance_run E i st) as (b & st' & H & Hs & Hoff & Hon).
    destruct (AUTO_HEALING_ENABLED E) eqn:Hen.
    + exists b, st', [RebootInstances [i]]. split; [exact H|].
      split; [now apply Hon|]. split; [repeat constructor|].
      cbn. repeat split; try lia. intros _. left. now left.
    + destruct (Hoff eq_refl) as (-> & Hc & _).
      exists false, st', []. split; [exact H|]. rewrite app_nil_r.
      split; [exact Hc|]. split; [constructor|].
      cbn. repeat split; try lia; try discriminate.
  - destruct (execute_ssm_command_run E i a st) as (b & st' & H & Ho).
    destruct Ho as [(_ & -> & _ & Hc & Hs)
                   | (_ & inst & s1 & _ & [(_ & -> & Hc & Hs)
                                          | (_ & _ & c & k & Hk & Hc & Hs)])].
    + exists false, st', []. split; [exact H|]. rewrite app_nil_r.
      split; [exact Hc|]. split; [constructor|].
      cbn. repeat split; try lia; try discriminate.
    + exists false, st', [DescribeInstances [i]]. split; [exact H|].
      split; [exact Hc|]. split; [repeat constructor|].
      cbn. repeat split; try lia; try discriminate.
    + exists b, st',
        ([DescribeInstances [i]; dispatch E i a]
           ++ repeat (GetCommandInvocation c i) k).
      split; [exact H|]. split; [exact Hc|]. split.
      { apply Forall_app. split; [repeat constructor | apply about_polls]. }
      rewrite length_app, polls_app, polls_repeat, repeat_length.
      unfold max_attempts in Hk. cbn [length polls filter is_poll dispatch].
      repeat split; try lia.
      intros _. right. exists a. right. now left.
Qed.

Lemma publish_trace (i a : string) (b : bool) (d : pyval) (st : state) :
  exists st' pub,
    publish_healing_result E i a b d st = (inr tt, st')
    /\ calls st' = calls st ++ pub
    /\ Forall (about i) pub
    /\ (length pub <= 1)%nat
    /\ polls pub = 0%nat
    /\ slept st' = slept st
    /\ (forall r, In r pub -> exists t s m, r = Publish t s m).
Proof.
  destruct (publish_healing_result_run E i a b d st)
    as (st' & H & Hs & _ & Hoff & Hon).
  destruct (String.eqb (SNS_TOPIC_ARN E) "") eqn:Harn.
  - apply String.eqb_eq in Harn. destruct (Hoff Harn) as (Hc & _).
    exists st', []. rewrite app_nil_r. repeat split; auto.
    intros r [].
  - apply String.eqb_neq in Harn. destruct (Hon Harn) as (m & Hc).
    exists st', [Publish (SNS_TOPIC_ARN E) ("Auto-Heal: " ++ a ++ " - " ++ i) m].
    repeat split; auto.
    + repeat constructor. exists a. reflexivity.
    + intros r [<- | []]. eauto.
Qed.

(** ** The calls of one invocation *)

Lemma remediation_issued_app (i : string) (l1 l2 : list request) :
  remediation_issued E i l1 -> remediation_issued E i (l1 ++ l2).
Proof.
  intros [H | [a H]]; [left | right; exists a]; apply in_or_app; now left.
Qed.

Lemma handler_try_trace (event : pyval) (s0 : state) (r : res response)
      (s : state) :
  handler_try E event s0 = (r, s) ->
  exists message s1 x s2,
    parse_sns_message E event s0 = (inr message, s1)
    /\ extract_instance_id E message s1 = (x, s2)
    /\ match x with
       | inr (Some i) =>
           exists rest,
             calls s = calls s0 ++ DescribeInstances [i] :: rest
             /\ Forall (about i) rest
             /\ (length rest <= 13)%nat
             /\ (polls rest <= 10)%nat
             /\ slept s = (slept s0 + 3 * Z.of_nat (polls rest))%Z
             /\ (forall resp, r = inr resp ->
                   (statusCode resp = 404%Z /\ rest = [])
                   \/ (statusCode resp = 200%Z /\ remediation_issued E i rest)
                   \/ statusCode resp = 500%Z)
       | inr None => quiet s0 s /\ exists body, r = inr (mkResponse 400 body)
       | inl e => quiet s0 s /\ r = inl e
       end.
Proof.
  intros H. unfold handler_try in H.
  destruct (parse_returns E event s0) as (message & s1 & Hp).
  rewrite (bind_ok _ _ _ _ _ Hp) in H. rewrite bind_run in H.
  destruct (extract_any_run message s1) as (x & s2 & Hx & Lx).
  rewrite Hx in H. exists message, s1, x, s2.
  split; [exact Hp|]. split; [exact Hx|].
  assert (Q02 : quiet s0 s2).
  { eapply quiet_trans; [eapply parse_quiet; eauto|].
    split; apply Lx. }
  destruct x as [e|[i|]].
  - injection H as <- <-. split; [exact Q02 | reflexivity].
  - pose proof (extract_some_valid E _ _ _ _ Hx) as Hv.
    assert (Hne : no_instance_id (Some i) = false).
    { cbn. destruct i; [discriminate | reflexivity]. }
    rewrite Hne in H. rewrite bind_run, log_run in H. cbn iota beta in H.
    match type of H with
    | context [bind (get_instance_details E i) _ ?s3] =>
        destruct (get_instance_details_run E i s3)
          as (inst & s4 & Hg & Hc4 & Hs4 & _);
        rewrite (bind_ok _ _ _ _ _ Hg) in H
    end.
    cbn [calls slept] in Hc4, Hs4.
    destruct Q02 as [Qc Qs]. rewrite Qc in Hc4. rewrite Qs in Hs4.
    assert (Hdone : forall rest,
               calls s = calls s4 ++ rest ->
               Forall (about i) rest ->
               (length rest <= 13)%nat -> (polls rest <= 10)%nat ->
               slept s = (slept s4 + 3 * Z.of_nat (polls rest))%Z ->
               (forall resp, r = inr resp ->
                  (statusCode resp = 404%Z /\ rest = [])
                  \/ (statusCode resp = 200%Z /\ remediation_issued E i rest)
                  \/ statusCode resp = 500%Z) ->
               exists rest,
                 calls s = calls s0 ++ DescribeInstances [i] :: rest
                 /\ Forall (about i) rest
                 /\ (length rest <= 13)%nat
                 /\ (polls rest <= 10)%nat
                 /\ slept s = (slept s0 + 3 * Z.of_nat (polls rest))%Z
                 /\ (forall resp, r = inr resp ->
                       (statusCode resp = 404%Z /\ rest = [])
                       \/ (statusCode resp = 200%Z /\ remediation_issued E i rest)
                       \/ statusCode resp = 500%Z)).
    { intros rest Hc Hf Hl Hq Hsl Hr. exists rest.
      split; [rewrite Hc, Hc4; now rewrite <- app_assoc|].
      repeat split; auto. now rewrite Hsl, Hs4. }
    assert (Hstop : forall e s', r = inl e -> s = s' ->
                                 calls s' = calls s4 -> slept s' = slept s4 ->
               exists rest,
                 calls s = calls s0 ++ DescribeInstances [i] :: rest
                 /\ Forall (about i) rest
                 /\ (length rest <= 13)%nat
                 /\ (polls rest <= 10)%nat
                 /\ slept s = (slept s0 + 3 * Z.of_nat (polls rest))%Z
                 /\ (forall resp, r = inr resp ->
                       (statusCode resp = 404%Z /\ rest = [])
                       \/ (statusCode resp = 200%Z /\ remediation_issued E i rest)
                       \/ statusCode resp = 500%Z)).
    { intros e s' -> -> Hc Hsl. apply (Hdone []).
      - now rewrite app_nil_r.
      - constructor.
      - cbn; lia.
      - cbn; lia.
      - cbn. rewrite Hsl. lia.
      - discriminate. }
    destruct (py_truthy inst); cbn [negb] in H.
    2:{ rewrite bind_run, log_run in H. unfold ret in H. injection H as <- <-.
        apply (Hdone []).
        - cbn [calls]. now rewrite app_nil_r.
        - constructor.
        - cbn; lia.
        - cbn; lia.
        - cbn. lia.
        - intros resp [= <-]. left. split; reflexivity. }
    rewrite bind_run in H. unfold lift at 1 in H.
    destruct (getitem inst "State") as [e|stt].
    { injection H as <- <-. eapply Hstop; reflexivity. }
    cbn iota beta in H. rewrite bind_run in H. unfold lift at 1 in H.
    destruct (getitem stt "Name") as [e|name].
    { injection H as <- <-. eapply Hstop; reflexivity. }
    cbn iota beta in H. rewrite bind_run, log_run in H. cbn iota beta in H.
    rewrite bind_run in H. unfold lift at 1 in H.
    destruct (determine_healing_action E message i) as [e|action].
    { injection H as <- <-. eapply Hstop; reflexivity. }
    cbn iota beta in H. rewrite bind_run, log_run in H. cbn iota beta in H.
    fold (execute E i action) in H.
    match type of H with
    | context [bind (execute E i action) _ ?s5] =>
        destruct (execute_trace i action s5)
          as (b & s6 & ex & He & Hc6 & Hf6 & Hl6 & Hq6 & Hs6 & Hb6);
        rewrite (bind_ok _ _ _ _ _ He) in H
    end.
    cbn [calls slept] in Hc6, Hs6.
    rewrite bind_run in H. unfold lift at 1 in H.
    destruct (py_get message "AlarmDescription" (PStr "")) as [e|descr].
    { injection H as <- <-. apply (Hdone ex); auto; try lia. discriminate. }
    cbn iota beta in H.
    destruct (publish_trace i action b descr s6)
      as (s7 & pub & Hpub & Hc7 & Hf7 & Hl7 & Hq7 & Hs7 & _).
    rewrite (bind_ok _ _ _ _ _ Hpub) in H.
    rewrite bind_run in H. unfold utcnow at 1, ret in H.
    injection H as <- <-.
    apply (Hdone (ex ++ pub)).
    + rewrite Hc7, Hc6. now rewrite app_assoc.
    + apply Forall_app. split; assumption.
    + rewrite length_app. lia.
    + rewrite polls_app. lia.
    + rewrite polls_app, Hs7, Hs6, Hq7. f_equal. f_equal. lia.
    + intros resp [= <-]. destruct b; cbn [statusCode].
      * right. left. split; [reflexivity|].
        apply remediation_issued_app. now apply Hb6.
      * right. right. reflexivity.
  - rewrite bind_run, log_run in H. unfold ret in H. injection H as <- <-.
    split; [|eauto]. destruct Q02 as [Qc Qs]. split; cbn; assumption.
Qed.

Lemma lambda_handler_trace (event context : pyval) (st : state) :
  exists resp st' new,
    lambda_handler E event context st = (inr resp, st')
    /\ calls st' = calls st ++ new
    /\ (length new <= 14)%nat
    /\ (polls new <= 10)%nat
    /\ slept st' = (slept st + 3 * Z.of_nat (polls new))%Z
    /\ ((new = [] /\ (statusCode resp = 400%Z \/ statusCode resp = 500%Z))
        \/ exists message s1 i s2 rest,
            parse_sns_message E event (entered E event st) = (inr message, s1)
            /\ extract_instance_id E message s1 = (inr (Some i), s2)
            /\ new = DescribeInstances [i] :: rest
            /\ Forall (about i) rest
            /\ ((statusCode resp = 404%Z /\ rest = [])
                \/ (statusCode resp = 200%Z /\ remediation_issued E i rest)
                \/ statusCode resp = 500%Z)).
Proof.
  unfold lambda_handler. rewrite bind_run, log_run. cbn iota beta.
  fold (entered E event st). rewrite try_except_run.
  destruct (handler_try E event (entered E event st)) as [r s] eqn:Hh.
  destruct (handler_try_trace _ _ _ _ Hh) as (message & s1 & x & s2 & Hp & Hx & Hcase).
  destruct x as [e|[i|]].
  - destruct Hcase as ([Hc Hs] & ->).
    rewrite bind_run, log_run. unfold ret.
    do 2 eexists. exists []. split; [reflexivity|].
    cbn [calls slept entered] in *. rewrite app_nil_r.
    split; [exact Hc|]. split; [cbn; lia|]. split; [cbn; lia|].
    split; [cbn; lia|]. left. split; [reflexivity | right; reflexivity].
  - destruct Hcase as (rest & Hc & Hf & Hl & Hq & Hs & Hr).
    cbn [calls slept entered] in Hc, Hs.
    assert (Hpolls : polls (DescribeInstances [i] :: rest) = polls rest)
      by reflexivity.
    destruct r as [e|resp].
    + rewrite bind_run, log_run. unfold ret.
      do 2 eexists. exists (DescribeInstances [i] :: rest).
      split; [reflexivity|]. cbn [calls slept].
      split; [exact Hc|]. split; [cbn [length]; lia|].
      rewrite Hpolls. split; [exact Hq|]. split; [exact Hs|].
      right. exists message, s1, i, s2, rest.
      repeat split; auto.
    + exists resp, s, (DescribeInstances [i] :: rest).
      split; [reflexivity|].
      split; [exact Hc|]. split; [cbn [length]; lia|].
      rewrite Hpolls. split; [exact Hq|]. split; [exact Hs|].
      right. exists message, s1, i, s2, rest.
      repeat split; auto.
  - destruct Hcase as ([Hc Hs] & body & ->).
    do 2 eexists. exists []. split; [reflexivity|].
    cbn [calls slept entered] in *. rewrite app_nil_r.
    split; [exact Hc|]. split; [cbn; lia|]. split; [cbn; lia|].
    split; [cbn; lia|]. left. split; [reflexivity | left; reflexivity].
Qed.

(** X6.  One invocation makes at most 14 collaborator calls, at most 10
    of them polls, and sleeps 3 for each poll and at no other time, so at
    most 30.  When it calls at all, the first call is the lookup of the
    extracted identifier and every later call is about that same
    instance. *)
Theorem invocation_footprint (event context : pyval) (st : state) :
  exists resp st' new,
    lambda_handler E event context st = (inr resp, st')
    /\ calls st' = calls st ++ new
    /\ (length new <= 14)%nat
    /\ (polls new <= 10)%nat
    /\ slept st' = (slept st + 3 * Z.of_nat (polls new))%Z
    /\ (slept st' <= slept st + 30)%Z
    /\ (new = []
        \/ exists message s1 i s2 rest,
            parse_sns_message E event (entered E event st) = (inr message, s1)
            /\ extract_instance_id E message s1 = (inr (Some i), s2)
            /\ new = DescribeInstances [i] :: rest
            /\ Forall (about i) rest).
Proof.
  destruct (lambda_handler_trace event context st)
    as (resp & st' & new & H & Hc & Hl & Hq & Hs & Hcase).
  exists resp, st', new. repeat split; auto; [lia|].
  destruct Hcase as [[-> _] | (m & s1 & i & s2 & rest & Hp & Hx & -> & Hf & _)].
  - now left.
  - right. exists m, s1, i, s2, rest. repeat split; auto.
Qed.

(** X7.  The status tells what was done.  With status 400 no
    collaborator was called; with status 404 the lookup was the only
    call; with status 200 a reboot or a script dispatch was issued for
    the instance. *)
Theorem status_tells_what_was_done (event context : pyval) (st : state) :
  exists resp st' new,
    lambda_handler E event context st = (inr resp, st')
    /\ calls st' = calls st ++ new
    /\ (statusCode resp = 400%Z -> new = [])
    /\ (statusCode resp = 404%Z -> exists i, new = [DescribeInstances [i]])
    /\ (statusCode resp = 200%Z -> exists i, remediation_issued E i new).
Proof.
  destruct (lambda_handler_trace event context st)
    as (resp & st' & new & H & Hc & _ & _ & _ & Hcase).
  exists resp, st', new. split; [exact H|]. split; [exact Hc|].
  destruct Hcase as [[-> Hst]
                    | (m & s1 & i & s2 & rest & _ & _ & -> & _ & Hst)].
  - repeat split.
    + intros H404. destruct Hst as [Hst|Hst]; rewrite Hst in H404; discriminate.
    + intros H200. destruct Hst as [Hst|Hst]; rewrite Hst in H200; discriminate.
  - destruct Hst as [[Hst ->] | [[Hst Hrem] | Hst]]; repeat split;
      intros Hx; rewrite Hst in Hx; try discriminate.
    + eauto.
    + exists i. destruct Hrem as [Hr | [a Hr]];
        [left | right; exists a]; now right.
Qed.

(** X8.  An event whose envelope cannot be read (it is not a mapping,
    its [Records] is empty or not a list, its record or [Sns] is not a
    mapping) is answered with status 400 and the extraction-failure body,
    without any collaborator call. *)
Theorem malformed_envelope_is_client_error (event context : pyval)
        (st : state) (e : exn) :
  message_field event = inl e ->
  exists st',
    lambda_handler E event context st
    = (inr (mkResponse 400
              (error_body E "Could not extract instance ID from alert")), st')
    /\ calls st' = calls st
    /\ slept st' = slept st.
Proof.
  intros Hm.
  pose proof (parse_malformed event e (entered E event st) Hm) as Hp.
  match type of Hp with _ = (_, ?s1) =>
    destruct (extract_dict_run E [] s1) as (s2 & Hx & _)
  end.
  change (first_candidate E (PDict [])) with (@None string) in Hx.
  destruct (handler_try_no_identifier E _ _ _ _ _ Hp Hx) as (s & Hh).
  destruct (handler_try_trace _ _ _ _ Hh)
    as (message & s1' & x & s2' & Hp' & Hx' & Hcase).
  pose proof (eq_trans (eq_sym Hp) Hp') as Heq. injection Heq as <- <-.
  pose proof (eq_trans (eq_sym Hx) Hx') as Heq. injection Heq as <- <-.
  destruct Hcase as ([Hc Hs] & _).
  unfold lambda_handler. rewrite bind_run, log_run. cbn iota beta.
  fold (entered E event st). rewrite try_except_run, Hh.
  exists s. split; [reflexivity|]. split; [exact Hc | exact Hs].
Qed.

(** ** The metrics lookup *)

(** X9.  [get_instance_metrics] never raises, calls none of the EC2, SSM
    or SNS clients and does not sleep.  It returns the empty mapping when
    CloudWatch raises or reports no datapoint, and otherwise the mapping
    whose one field, [cpu_utilization], is the [Average] of the datapoint
    that comes last in the answer. *)
Theorem metrics_lookup_is_total
        (cloudwatch : state -> metric_query -> res pyval)
        (i : string) (st : state) :
  exists metrics st',
    get_instance_metrics E cloudwatch i st = (inr metrics, st')
    /\ quiet st st'
    /\ (metrics = PDict []
        \/ exists average, metrics = PDict [("cpu_utilization", average)])
    /\ (forall e, cloudwatch st (cpu_query i) = inl e -> metrics = PDict [])
    /\ (forall response,
          cloudwatch st (cpu_query i) = inr response ->
          getitem response "Datapoints" = inr (PList []) ->
          metrics = PDict [])
    /\ (forall response earlier latest average,
          cloudwatch st (cpu_query i) = inr response ->
          getitem response "Datapoints" = inr (PList (earlier ++ [latest])) ->
          getitem latest "Average" = inr average ->
          metrics = PDict [("cpu_utilization", average)]).
Proof.
  unfold get_instance_metrics. rewrite try_except_run, bind_run.
  destruct (cloudwatch st (cpu_query i)) as [e|response].
  { rewrite bind_run, log_run. unfold ret. do 2 eexists.
    split; [reflexivity|]. split; [split; reflexivity|].
    split; [now left|]. repeat split; auto; discriminate. }
  cbn iota beta. rewrite bind_run. unfold lift at 1.
  destruct (getitem response "Datapoints") as [e|dps] eqn:Hd.
  { rewrite bind_run, log_run. unfold ret. do 2 eexists.
    split; [reflexivity|]. split; [split; reflexivity|].
    split; [now left|]. repeat split; auto; try discriminate.
    all: intros; congruence. }
  cbn iota beta. rewrite bind_run.
  destruct (py_truthy dps) eqn:Ht.
  2:{ unfold ret at 1. cbn iota beta. rewrite bind_run, log_run. unfold ret.
      do 2 eexists. split; [reflexivity|]. split; [split; reflexivity|].
      split; [now left|]. repeat split; auto.
      intros r0 earlier latest avg [= <-] Hd' _.
      rewrite Hd in Hd'. injection Hd' as ->.
      destruct earlier; discriminate Ht. }
  rewrite bind_run. unfold lift at 1. cbn iota beta.
  rewrite bind_run. unfold lift at 1.
  destruct (getitem_last dps) as [e|latest] eqn:Hlast.
  { rewrite bind_run, log_run. unfold ret. do 2 eexists.
    split; [reflexivity|]. split; [split; reflexivity|].
    split; [now left|]. repeat split; auto; try discriminate.
    intros r0 earlier latest avg [= <-] Hd' _.
    rewrite Hd in Hd'. injection Hd' as ->.
    cbn in Hlast. rewrite rev_unit in Hlast. discriminate Hlast. }
  cbn iota beta. rewrite bind_run. unfold lift at 1.
  destruct (getitem latest "Average") as [e|average] eqn:Havg.
  { rewrite bind_run, log_run. unfold ret. do 2 eexists.
    split; [reflexivity|]. split; [split; reflexivity|].
    split; [now left|]. repeat split; auto; try discriminate.
    intros r0 earlier latest' avg [= <-] Hd' Ha.
    rewrite Hd in Hd'. injection Hd' as ->.
    cbn in Hlast. rewrite rev_unit in Hlast. injection Hlast as ->.
    congruence. }
  cbn iota beta. unfold ret at 1. cbn iota beta.
  rewrite bind_run, log_run. unfold ret.
  do 2 eexists. split; [reflexivity|]. split; [split; reflexivity|].
  split; [right; eauto|]. repeat split.
  - discriminate.
  - intros r0 [= <-] Hd'. rewrite Hd in Hd'. injection Hd' as ->.
    discriminate Ht.
  - intros r0 earlier latest' avg [= <-] Hd' Ha.
    rewrite Hd in Hd'. injection Hd' as ->.
    cbn in Hlast. rewrite rev_unit in Hlast. injection Hlast as ->.
    congruence.
Qed.

End MoreFacts.

(** * Properties of the dashboard backend *)

Module DashboardFacts.
Import Dashboard.

Lemma login_store (sts : pyval -> pyval -> pyval -> sts_result)
      (body : pyval) (c : credentials) :
  let '(r, c') := aws_login sts body c in
  (c' = c /\ (forall resp, r = inr resp -> status resp <> 200%Z))
  \/ (exists access secret,
         py_truthy access = true /\ py_truthy secret = true
         /\ py_get (py_or body (PDict [])) "accessKey" PNone = inr access
         /\ py_get (py_or body (PDict [])) "secretKey" PNone = inr secret
         /\ ((c' = mkCreds access secret (account_id c) (region c) (use_env c)
              /\ exists msg, r = inr (error_reply 500 msg))
             \/ exists account rgn idt,
                 py_get (py_or body (PDict [])) "region" (PStr "us-east-1")
                 = inr rgn
                 /\ sts access secret rgn = StsIdentity idt
                 /\ getitem idt "Account" = inr account
                 /\ c' = mkCreds access secret account rgn false
                 /\ r = inr (login_ok account rgn))).
Proof.
  unfold aws_login.
  destruct (py_get (py_or body (PDict [])) "accessKey" PNone) as [e|access].
  { left. split; [reflexivity | discriminate]. }
  destruct (py_get (py_or body (PDict [])) "secretKey" PNone) as [e|secret].
  { left. split; [reflexivity | discriminate]. }
  destruct (py_get (py_or body (PDict [])) "region" (PStr "us-east-1"))
    as [e|rgn].
  { left. split; [reflexivity | discriminate]. }
  destruct (py_truthy access) eqn:Ha; cbn [negb orb].
  2:{ left. split; [reflexivity|]. intros resp [= <-]. discriminate. }
  destruct (py_truthy secret) eqn:Hs; cbn [negb].
  2:{ left. split; [reflexivity|]. intros resp [= <-]. discriminate. }
  destruct (sts access secret rgn) as [idt|msg|response msg|e] eqn:Hsts.
  - destruct (getitem idt "Account") as [e|account] eqn:Hacc.
    + right. exists access, secret. repeat split; auto. left. eauto.
    + right. exists access, secret. repeat split; auto. right.
      exists account, rgn, idt. repeat split; auto.
  - left. split; [reflexivity|]. intros resp [= <-]. discriminate.
  - left. split; [reflexivity|]. intros resp [= <-]. discriminate.
  - left. split; [reflexivity|]. intros resp [= <-]. discriminate.
Qed.

Lemma login_env_store (sts : pyval -> sts_result) (body : pyval)
      (c : credentials) :
  let '(r, c') := aws_login_env sts body c in
  (c' = c /\ (forall resp, r = inr resp -> status resp <> 200%Z))
  \/ (c' = mkCreds PNone PNone (account_id c) (region c) (use_env c)
      /\ exists msg, r = inr (error_reply 500 msg))
  \/ exists account rgn idt,
      py_get (py_or body (PDict [])) "region" (PStr "us-east-1") = inr rgn
      /\ sts rgn = StsIdentity idt
      /\ getitem idt "Account" = inr account
      /\ c' = mkCreds PNone PNone account rgn true
      /\ r = inr (login_ok account rgn).
Proof.
  unfold aws_login_env.
  destruct (py_get (py_or body (PDict [])) "region" (PStr "us-east-1"))
    as [e|rgn].
  { left. split; [reflexivity | discriminate]. }
  destruct (sts rgn) as [idt|msg|response msg|e] eqn:Hsts.
  - destruct (getitem idt "Account") as [e|account] eqn:Hacc.
    + right. left. split; [reflexivity | eauto].
    + right. right. exists account, rgn, idt. repeat split; auto.
  - left. split; [reflexivity|]. intros resp [= <-]. discriminate.
  - destruct (res_bind (py_get response "Error" (PDict []))
                       (fun err => py_get err "Code" (PStr ""))) as [e|code].
    + left. split; [reflexivity | discriminate].
    + destruct (py_eq_str code "InvalidClientTokenId");
        (left; split; [reflexivity|]; intros resp [= <-]; discriminate).
  - left. split; [reflexivity|]. intros resp [= <-]. discriminate.
Qed.

Lemma serves_keeps_pairing (c c' : credentials) :
  keys_paired c -> serves c c' -> keys_paired c'.
Proof.
  intros Hc Hs. destruct Hs as [sts body c | sts body c | c].
  - pose proof (login_store sts body c) as H.
    destruct (aws_login sts body c) as [r c']. cbn [snd].
    destruct H as [[-> _] | (a & s & Ha & Hs & _ & _ & [[-> _] | H])].
    + exact Hc.
    + right. split; assumption.
    + destruct H as (acc & rgn & idt & _ & _ & _ & -> & _).
      right. split; assumption.
  - pose proof (login_env_store sts body c) as H.
    destruct (aws_login_env sts body c) as [r c']. cbn [snd].
    destruct H as [[-> _] | [[-> _] | (acc & rgn & idt & _ & _ & _ & -> & _)]].
    + exact Hc.
    + left. split; reflexivity.
    + left. split; reflexivity.
  - left. split; reflexivity.
Qed.

(** X10.  In every store the process can reach, through any sequence of
    logins, environment logins and logouts with any bodies and any STS
    answers, the two keys are stored together: both [None], or both
    truthy.  So whenever [auth_status] reports [authenticated],
    [aws_creds_present] holds. *)
Theorem reachable_stores_pair_the_keys (c : credentials) :
  reachable c ->
  keys_paired c
  /\ (forall environ,
         authenticated c = true -> aws_creds_present environ c = true).
Proof.
  intros Hr.
  assert (Hp : keys_paired c).
  { induction Hr as [|c c' _ IH Hs].
    - left. split; reflexivity.
    - eapply serves_keeps_pairing; eauto. }
  split; [exact Hp|].
  intros environ. unfold authenticated, aws_creds_present.
  destruct (use_env c); [reflexivity|]. cbn [orb].
  destruct Hp as [[Ha _] | [Ha Hs]].
  - rewrite Ha. discriminate.
  - now rewrite Ha, Hs.
Qed.

(** X11.  A login that is answered with 400 or 401, or that raises,
    leaves the credential store exactly as it was; this holds for the
    login with explicit keys and for the login from the environment. *)
Theorem refused_login_keeps_the_store (c : credentials) :
  (forall sts body r c',
      aws_login sts body c = (r, c') ->
      (exists e, r = inl e)
      \/ (exists resp, r = inr resp
                       /\ (status resp = 400%Z \/ status resp = 401%Z)) ->
      c' = c)
  /\ (forall sts body r c',
         aws_login_env sts body c = (r, c') ->
         (exists e, r = inl e)
         \/ (exists resp, r = inr resp
                          /\ (status resp = 400%Z \/ status resp = 401%Z)) ->
         c' = c).
Proof.
  split.
  - intros sts body r c' Hrun Hout.
    pose proof (login_store sts body c) as H. rewrite Hrun in H.
    destruct H as [[-> _] | (a & s & _ & _ & _ & _ & [[_ [msg ->]] | H])].
    + reflexivity.
    + destruct Hout as [[e He] | (resp & [= <-] & [Hs | Hs])]; discriminate.
    + destruct H as (acc & rgn & idt & _ & _ & _ & _ & ->).
      destruct Hout as [[e He] | (resp & [= <-] & [Hs | Hs])]; discriminate.
  - intros sts body r c' Hrun Hout.
    pose proof (login_env_store sts body c) as H. rewrite Hrun in H.
    destruct H as [[-> _] | [[_ [msg ->]]
                            | (acc & rgn & idt & _ & _ & _ & _ & ->)]].
    + reflexivity.
    + destruct Hout as [[e He] | (resp & [= <-] & [Hs | Hs])]; discriminate.
    + destruct Hout as [[e He] | (resp & [= <-] & [Hs | Hs])]; discriminate.
Qed.

Lemma truthy_is_not_none (v : pyval) : py_truthy v = true -> is_none v = false.
Proof. destruct v; simpl; auto; discriminate. Qed.

(** X12.  A login answered with 200 takes effect at once, and what it
    stores is what was submitted.  After a login with explicit keys the
    store holds the [accessKey] and the [secretKey] of the request body,
    in that order, the region of the body (or [us-east-1]), and the
    [Account] of the identity STS returned for exactly those keys and that
    region; [auth_status] reports that account as authenticated, and the
    EC2 and CloudWatch clients are built with those keys.  Conversely,
    truthy keys that STS accepts are answered with 200 and stored.  After
    a login from the environment the store holds no key, the region of
    the body and the account STS named for it, and the clients are built
    with the region alone. *)
Theorem accepted_login_takes_effect (c : credentials) :
  (forall sts body resp c',
      aws_login sts body c = (inr resp, c') ->
      status resp = 200%Z ->
      exists access secret account rgn idt,
        py_get (py_or body (PDict [])) "accessKey" PNone = inr access
        /\ py_get (py_or body (PDict [])) "secretKey" PNone = inr secret
        /\ py_get (py_or body (PDict [])) "region" (PStr "us-east-1") = inr rgn
        /\ sts access secret rgn = StsIdentity idt
        /\ getitem idt "Account" = inr account
        /\ c' = mkCreds access secret account rgn false
        /\ py_truthy access = true /\ py_truthy secret = true
        /\ resp = login_ok account rgn
        /\ auth_status c'
           = mkReply 200 (PDict [("authenticated", PBool true);
                                 ("accountId", account);
                                 ("region", rgn)])
        /\ get_ec2_client c'
           = mkClient "ec2" (Some access) (Some secret)
                      (Some (py_or rgn (PStr "us-east-1")))
        /\ get_cloudwatch_client c'
           = mkClient "cloudwatch" (Some access) (Some secret)
                      (Some (py_or rgn (PStr "us-east-1"))))
  /\ (forall sts body access secret rgn idt account,
         py_get (py_or body (PDict [])) "accessKey" PNone = inr access ->
         py_get (py_or body (PDict [])) "secretKey" PNone = inr secret ->
         py_get (py_or body (PDict [])) "region" (PStr "us-east-1") = inr rgn ->
         py_truthy access = true ->
         py_truthy secret = true ->
         sts access secret rgn = StsIdentity idt ->
         getitem idt "Account" = inr account ->
         aws_login sts body c
         = (inr (login_ok account rgn), mkCreds access secret account rgn false))
  /\ (forall sts body resp c',
         aws_login_env sts body c = (inr resp, c') ->
         status resp = 200%Z ->
         exists account rgn idt,
           py_get (py_or body (PDict [])) "region" (PStr "us-east-1") = inr rgn
           /\ sts rgn = StsIdentity idt
           /\ getitem idt "Account" = inr account
           /\ c' = mkCreds PNone PNone account rgn true
           /\ resp = login_ok account rgn
           /\ auth_status c'
              = mkReply 200 (PDict [("authenticated", PBool true);
                                    ("accountId", account);
                                    ("region", rgn)])
           /\ get_ec2_client c'
              = mkClient "ec2" None None (Some (py_or rgn (PStr "us-east-1")))
           /\ get_cloudwatch_client c'
              = mkClient "cloudwatch" None None
                         (Some (py_or rgn (PStr "us-east-1"))))
  /\ (forall sts body rgn idt account,
         py_get (py_or body (PDict [])) "region" (PStr "us-east-1") = inr rgn ->
         sts rgn = StsIdentity idt ->
         getitem idt "Account" = inr account ->
         aws_login_env sts body c
         = (inr (login_ok account rgn), mkCreds PNone PNone account rgn true)).
Proof.
  split; [|split; [|split]].
  - intros sts body resp c' Hrun H200.
    pose proof (login_store sts body c) as H. rewrite Hrun in H.
    destruct H as [[_ Hno] | (a & s & Ha & Hs & Hka & Hks & [[_ [msg Hr]] | H])].
    + now elim (Hno resp eq_refl).
    + injection Hr as ->. discriminate H200.
    + destruct H as (acc & rgn & idt & Hrg & Hsts & Hacc & -> & Hr).
      injection Hr as ->.
      exists a, s, acc, rgn, idt.
      split; [exact Hka|]. split; [exact Hks|]. split; [exact Hrg|].
      split; [exact Hsts|]. split; [exact Hacc|]. split; [reflexivity|].
      split; [exact Ha|]. split; [exact Hs|]. split; [reflexivity|].
      unfold auth_status, authenticated, get_ec2_client, get_cloudwatch_client.
      cbn [use_env access_key secret_key account_id region orb].
      rewrite (truthy_is_not_none _ Ha), Ha, Hs. repeat split.
  - intros sts body access secret rgn idt account Hka Hks Hrg Ha Hs Hsts Hacc.
    unfold aws_login. rewrite Hka, Hks, Hrg, Ha, Hs. cbn [negb orb].
    now rewrite Hsts, Hacc.
  - intros sts body resp c' Hrun H200.
    pose proof (login_env_store sts body c) as H. rewrite Hrun in H.
    destruct H as [[_ Hno] | [[_ [msg Hr]]
                             | (acc & rgn & idt & Hrg & Hsts & Hacc & -> & Hr)]].
    + now elim (Hno resp eq_refl).
    + injection Hr as ->. discriminate H200.
    + injection Hr as ->. exists acc, rgn, idt. repeat split; assumption.
  - intros sts body rgn idt account Hrg Hsts Hacc.
    unfold aws_login_env. now rewrite Hrg, Hsts, Hacc.
Qed.

(** ** The proxied address *)

Lemma rstrip_char_app (c : ascii) (s : string) :
  rstrip_char c (s ++ String c EmptyString) = rstrip_char c s.
Proof.
  induction s as [|a t IH]; cbn [append rstrip_char].
  - now rewrite Ascii.eqb_refl.
  - now rewrite IH.
Qed.

Lemma rstrip_char_last (c : ascii) (s : string) :
  last_char (rstrip_char c s) <> Some c.
Proof.
  induction s as [|a t IH]; cbn [rstrip_char].
  - discriminate.
  - destruct (rstrip_char c t) as [|b u] eqn:Hr.
    + destruct (Ascii.eqb a c) eqn:Hac; cbn [last_char].
      * discriminate.
      * intros [= ->]. rewrite Ascii.eqb_refl in Hac. discriminate.
    + cbn [last_char] in *. destruct (last_char u); exact IH.
Qed.

Lemma lstrip_char_first (c : ascii) (s t : string) :
  lstrip_char c s <> String c t.
Proof.
  induction s as [|a u IH]; cbn [lstrip_char].
  - discriminate.
  - destruct (Ascii.eqb a c) eqn:Hac; [exact IH|].
    intros [= -> _]. rewrite Ascii.eqb_refl in Hac. discriminate.
Qed.

(** X13.  The address the proxy asks for joins the configured base and
    the path with exactly one slash: what stands before the slash does not
    end with a slash and what stands after does not begin with one, so a
    trailing slash on the base or a leading slash on the path changes
    nothing. *)
Theorem join_url_normalises_slashes (nagios_url path : string) :
  (exists a b,
      join_url nagios_url path = (a ++ "/" ++ b)%string
      /\ last_char a <> Some "/"%char
      /\ (forall t, b <> String "/" t))
  /\ join_url (nagios_url ++ "/") path = join_url nagios_url path
  /\ join_url nagios_url ("/" ++ path) = join_url nagios_url path.
Proof.
  split; [|split].
  - exists (rstrip_char "/" nagios_url), (lstrip_char "/" path).
    split; [reflexivity|]. split.
    + apply rstrip_char_last.
    + intros t. apply lstrip_char_first.
  - unfold join_url. now rewrite rstrip_char_app.
  - reflexivity.
Qed.


End DashboardFacts.

(** * Parsing and classification, further *)

(** X15.  What the parser returns, case by case: a [Message] that is
    not a string is returned as it is; a string that [json.loads] decodes
    gives the decoded value, whatever its shape; when [json.loads] raises
    anything but a decode error the result is the empty mapping.  In
    every case the parser calls no collaborator and does not sleep. *)
Theorem parse_result_by_case (E : Env) (event : pyval) (st : state) :
  preserves quiet (parse_sns_message E event)
  /\ (forall v,
         message_field event = inr v -> is_str v = false ->
         fst (parse_sns_message E event st) = inr v)
  /\ (forall s v,
         message_field event = inr (PStr s) -> json_loads E s = inr v ->
         fst (parse_sns_message E event st) = inr v)
  /\ (forall s e,
         message_field event = inr (PStr s) -> json_loads E s = inl e ->
         exn_cls e <> JSONDecodeError ->
         fst (parse_sns_message E event st) = inr (PDict [])).
Proof.
  split; [apply parse_quiet|].
  assert (Hrun : forall v,
             message_field event = inr v ->
             parse_sns_message E event st
             = try_except
                 (message <-
                    match v with
                    | PStr s =>
                        try_except_only [JSONDecodeError]
                          (lift (json_loads E s))
                          (fun _ =>
                             log WARNING
                               ("Could not parse as JSON, treating as plain text: "
                                  ++ s) ;;
                             ret (PDict [("raw_message", PStr s)]))
                    | _ => ret v
                    end ;;
                  log INFO ("Parsed SNS Message: " ++ json_dumps E None message) ;;
                  ret message)
                 (fun e =>
                    log ERROR ("Error parsing SNS message: " ++ exn_str e) ;;
                    ret (PDict [])) st).
  { intros v Hf. unfold message_field in Hf. unfold parse_sns_message.
    rewrite !try_except_run, bind_run. unfold lift at 1.
    destruct (py_get event "Records" (PList [PDict []])) as [x|records];
      [discriminate|]. cbn [res_bind] in Hf. cbn iota beta.
    rewrite bind_run. unfold lift at 1.
    destruct (getitem0 records) as [x|record]; [discriminate|].
    cbn [res_bind] in Hf. cbn iota beta.
    rewrite bind_run. unfold lift at 1.
    destruct (py_get record "Sns" (PDict [])) as [x|sns]; [discriminate|].
    cbn [res_bind] in Hf. cbn iota beta.
    rewrite bind_run. unfold lift at 1. rewrite Hf. reflexivity. }
  split; [|split].
  - intros v Hf Hv. rewrite (Hrun v Hf).
    destruct v; try discriminate Hv; reflexivity.
  - intros s v Hf Hl. rewrite (Hrun _ Hf).
    rewrite try_except_run, bind_run. unfold try_except_only, lift.
    rewrite Hl. reflexivity.
  - intros s e Hf Hl Hc. rewrite (Hrun _ Hf).
    rewrite try_except_run, bind_run. unfold try_except_only, lift.
    rewrite Hl. cbn [existsb orb].
    destruct (exn_class_eqb (exn_cls e) JSONDecodeError) eqn:Heq.
    + destruct (exn_cls e); try discriminate Heq. now elim Hc.
    + reflexivity.
Qed.

Lemma determine_in_action_set (E : Env) (message : pyval) (i action : string) :
  determine_healing_action E message i = inr action -> In action action_set.
Proof.
  unfold determine_healing_action.
  destruct (py_get message "AlarmName" (PStr "")) as [e|a]; [discriminate|].
  cbn [res_bind].
  destruct (py_lower (str_lower E) a) as [e|alarm_name]; [discriminate|].
  cbn [res_bind].
  destruct (py_get message "Trigger" (PDict [])) as [e|t]; [discriminate|].
  cbn [res_bind].
  destruct (py_get t "MetricName" (PStr "")) as [e|m]; [discriminate|].
  cbn [res_bind].
  destruct (py_lower (str_lower E) m) as [e|metric_name]; [discriminate|].
  cbn [res_bind].
  repeat match goal with
         | |- context [if ?b then _ else _] => destruct b
         end; intros [= <-]; cbn; tauto.
Qed.

(** X16.  The classifier and the script table agree: on a message of any
    shape, an action the classifier returns is one of the five of the
    closed set, and it is either the reboot or a key of [commands], so
    the script dispatched for it is its own and the fall-back to the
    diagnostic script is only taken for names the classifier never gives. *)
Theorem classified_actions_have_scripts (E : Env) (message : pyval)
        (i action : string) :
  determine_healing_action E message i = inr action ->
  In action action_set
  /\ (action = "reboot"
      \/ commands_lookup action commands = Some (command_for action))
  /\ commands_lookup "reboot" commands = None.
Proof.
  intros H. apply determine_in_action_set in H.
  split; [exact H|]. split; [|reflexivity].
  cbn in H.
  destruct H as [<- | [<- | [<- | [<- | [<- | []]]]]];
    [left; reflexivity | right; reflexivity ..].
Qed.

(** * The further properties on concrete runs *)

Lemma raw_search_recovers_identifiers_witness :
  re_search_id ("i-0def456" ++ " is down") = Some "i-0def456"
  /\ contains "i-abc" "host i-abcDEF" = true.
Proof.
  split.
  - apply (proj2 (raw_search_recovers_identifiers "i-0def456") " is down");
      reflexivity.
  - apply (proj1 (raw_search_recovers_identifiers "host i-abcDEF") "i-abc").
    reflexivity.
Defined.

Lemma extraction_is_quiet_and_prefixed_witness :
  exists r st',
    extract_instance_id env_on (PDict [("raw_message", PStr "host i-0def456")])
                        init_state = (r, st')
    /\ calls st' = []
    /\ startswith "i-" "i-0def456" = true.
Proof.
  destruct (extraction_is_quiet_and_prefixed env_on
              (PDict [("raw_message", PStr "host i-0def456")]) init_state)
    as (r & st' & H & Hc & _ & _ & Hv).
  exists r, st'. split; [exact H|]. split; [exact Hc|].
  apply (Hv "i-0def456").
  pose proof H as H'. vm_compute in H'. now injection H' as <- _.
Defined.

Lemma lookup_returns_first_instance_witness :
  get_instance_details env_on "i-0abc123" init_state
  = (inr running_instance,
     mkState [DescribeInstances ["i-0abc123"]] [] 0).
Proof.
  apply (proj1 (lookup_returns_first_instance env_on "i-0abc123" init_state)
               (describe_response running_instance)
               (PList [PDict [("Instances", PList [running_instance])]])
               (PDict [("Instances", PList [running_instance])])
               running_instance []);
    reflexivity.
Defined.

Lemma reboot_is_one_call_one_entry_witness :
  exists b st',
    execute_reboot_instance env_on "i-0abc123" init_state = (inr b, st')
    /\ calls st' = [RebootInstances ["i-0abc123"]]
    /\ length (audit_entries (logs st')) = 1%nat.
Proof.
  destruct (reboot_is_one_call_one_entry env_on "i-0abc123" init_state eq_refl)
    as (b & st' & H & Hc & _ & Ha & _).
  exists b, st'. split; [exact H|]. split; [exact Hc | exact Ha].
Defined.

Lemma ssm_success_is_confirmed_witness :
  exists st',
    execute_ssm_command env_done "i-0abc123" "clear_cache" init_state
    = (inr true, st')
    /\ length (audit_entries (logs st')) = 2%nat.
Proof.
  assert (H : execute_ssm_command env_done "i-0abc123" "clear_cache" init_state
              = (inr true,
                 snd (execute_ssm_command env_done "i-0abc123" "clear_cache"
                                          init_state)))
    by (vm_compute; reflexivity).
  eexists. split; [exact H|].
  destruct (ssm_success_is_confirmed env_done _ _ _ _ H)
    as (_ & cid & k & _ & _ & _ & Ha & _).
  exact Ha.
Defined.

Lemma status_tells_what_was_done_witness :
  exists resp st' new,
    lambda_handler env_on (sns_event (PStr "host web-1 is down")) PNone init_state
    = (inr resp, st')
    /\ calls st' = calls init_state ++ new
    /\ new = [].
Proof.
  destruct (status_tells_what_was_done env_on
              (sns_event (PStr "host web-1 is down")) PNone init_state)
    as (resp & st' & new & H & Hc & H400 & _).
  exists resp, st', new. split; [exact H|]. split; [exact Hc|].
  apply H400. pose proof H as H'. vm_compute in H'. now injection H' as <- _.
Defined.

Lemma malformed_envelope_is_client_error_witness :
  exists st',
    lambda_handler env_on (PList []) PNone init_state
    = (inr (mkResponse 400
              (error_body env_on "Could not extract instance ID from alert")), st')
    /\ calls st' = [].
Proof.
  destruct (malformed_envelope_is_client_error env_on (PList []) PNone init_state
              (mkExn AttributeError "'list' object has no attribute 'get'")
              eq_refl) as (st' & H & Hc & _).
  exists st'. split; [exact H | exact Hc].
Defined.

Lemma metrics_lookup_is_total_witness :
  exists metrics st',
    get_instance_metrics env_on demo_cloudwatch "i-0abc123" init_state
    = (inr metrics, st')
    /\ metrics = PDict [("cpu_utilization", PInt 42)].
Proof.
  destruct (metrics_lookup_is_total env_on demo_cloudwatch "i-0abc123" init_state)
    as (metrics & st' & H & _ & _ & _ & _ & Hlast).
  exists metrics, st'. split; [exact H|].
  apply (Hlast (PDict [("Datapoints",
                        PList [PDict [("Average", PInt 10)];
                               PDict [("Average", PInt 42)]])])
               [PDict [("Average", PInt 10)]] (PDict [("Average", PInt 42)])
               (PInt 42)); reflexivity.
Defined.

Lemma reachable_stores_pair_the_keys_witness :
  Dashboard.keys_paired logged_in
  /\ Dashboard.aws_creds_present (fun _ => None) logged_in = true.
Proof.
  assert (Hr : Dashboard.reachable logged_in).
  { apply (Dashboard.ReachStep Dashboard.no_credentials).
    - apply Dashboard.ReachInit.
    - exact (Dashboard.ServeLogin sts_accepts login_body Dashboard.no_credentials). }
  destruct (DashboardFacts.reachable_stores_pair_the_keys logged_in Hr)
    as [Hp Ha].
  split; [exact Hp | exact (Ha (fun _ => None) eq_refl)].
Defined.

Lemma refused_login_keeps_the_store_witness :
  snd (Dashboard.aws_login sts_refuses login_body logged_in) = logged_in
  /\ snd (Dashboard.aws_login_env (sts_refuses PNone PNone) PNone logged_in)
     = logged_in.
Proof.
  destruct (DashboardFacts.refused_login_keeps_the_store logged_in) as [H1 H2].
  split.
  - apply (H1 sts_refuses login_body
              (fst (Dashboard.aws_login sts_refuses login_body logged_in)));
      [reflexivity|].
    right. eexists. split; [reflexivity|]. right. reflexivity.
  - apply (H2 (sts_refuses PNone PNone) PNone
              (fst (Dashboard.aws_login_env (sts_refuses PNone PNone) PNone
                                            logged_in)));
      [reflexivity|].
    right. eexists. split; [reflexivity|]. right. reflexivity.
Defined.

Lemma accepted_login_takes_effect_witness :
  Dashboard.aws_login key_checking_sts login_body Dashboard.no_credentials
  = (inr (Dashboard.login_ok (PStr "123456789012") (PStr "eu-west-1")),
     Dashboard.mkCreds (PStr "AKIAEXAMPLE") (PStr "s3cr3t")
                       (PStr "123456789012") (PStr "eu-west-1") false)
  /\ (exists access secret account rgn idt,
        key_checking_sts access secret rgn = Dashboard.StsIdentity idt
        /\ getitem idt "Account" = inr account
        /\ snd (Dashboard.aws_login key_checking_sts login_body
                                    Dashboard.no_credentials)
           = Dashboard.mkCreds access secret account rgn false
        /\ Dashboard.get_ec2_client
             (Dashboard.mkCreds access secret account rgn false)
           = Dashboard.mkClient "ec2" (Some access) (Some secret)
                                (Some (py_or rgn (PStr "us-east-1"))))
  /\ Dashboard.aws_login_env sts_env_accepts PNone logged_in
     = (inr (Dashboard.login_ok (PStr "123456789012") (PStr "us-east-1")),
        Dashboard.mkCreds PNone PNone (PStr "123456789012") (PStr "us-east-1")
                          true)
  /\ (exists account rgn,
        snd (Dashboard.aws_login_env sts_env_accepts PNone logged_in)
        = Dashboard.mkCreds PNone PNone account rgn true).
Proof.
  destruct (DashboardFacts.accepted_login_takes_effect Dashboard.no_credentials)
    as (H1 & F1 & _).
  destruct (DashboardFacts.accepted_login_takes_effect logged_in)
    as (_ & _ & H2 & F2).
  split; [|split; [|split]].
  - exact (F1 key_checking_sts login_body (PStr "AKIAEXAMPLE") (PStr "s3cr3t")
              (PStr "eu-west-1") (PDict [("Account", PStr "123456789012")])
              (PStr "123456789012")
              eq_refl eq_refl eq_refl eq_refl eq_refl eq_refl eq_refl).
  - destruct (H1 key_checking_sts login_body _ _ eq_refl eq_refl)
      as (a & s & acc & rgn & idt & _ & _ & _ & Hsts & Hacc & Hc & _ & _ & _
          & _ & He & _).
    exists a, s, acc, rgn, idt. split; [exact Hsts|]. split; [exact Hacc|].
    split; [exact Hc|]. rewrite <- Hc. exact He.
  - exact (F2 sts_env_accepts PNone (PStr "us-east-1")
              (PDict [("Account", PStr "123456789012")]) (PStr "123456789012")
              eq_refl eq_refl eq_refl).
  - destruct (H2 sts_env_accepts PNone _ _ eq_refl eq_refl)
      as (acc & rgn & idt & _ & _ & _ & Hc & _).
    exists acc, rgn. exact Hc.
Defined.

Lemma join_url_normalises_slashes_witness :
  Dashboard.join_url ("http://nagios.local/nagios" ++ "/") "cgi-bin/status.cgi"
  = Dashboard.join_url "http://nagios.local/nagios" "cgi-bin/status.cgi"
  /\ Dashboard.join_url "http://nagios.local/nagios" ("/" ++ "cgi-bin/status.cgi")
     = Dashboard.join_url "http://nagios.local/nagios" "cgi-bin/status.cgi".
Proof.
  exact (proj2 (DashboardFacts.join_url_normalises_slashes
                  "http://nagios.local/nagios" "cgi-bin/status.cgi")).
Defined.


Lemma parse_result_by_case_witness :
  fst (parse_sns_message env_on (sns_event (PDict [("instance_id", PStr "i-1")]))
                         init_state)
  = inr (PDict [("instance_id", PStr "i-1")])
  /\ fst (parse_sns_message env_on (sns_event (PStr "null")) init_state)
     = inr PNone.
Proof.
  destruct (parse_result_by_case env_on
              (sns_event (PDict [("instance_id", PStr "i-1")])) init_state)
    as (_ & Hobj & _).
  destruct (parse_result_by_case env_on (sns_event (PStr "null")) init_state)
    as (_ & _ & Hstr & _).
  split.
  - apply Hobj; reflexivity.
  - apply (Hstr "null"); reflexivity.
Defined.

Lemma classified_actions_have_scripts_witness :
  In "clear_cache" action_set
  /\ commands_lookup "clear_cache" commands = Some (command_for "clear_cache").
Proof.
  destruct (classified_actions_have_scripts env_on
              (PDict [("AlarmName", PStr "High-Memory")]) "i-0abc123"
              "clear_cache" eq_refl) as (Hin & [Hr | Hs] & _).
  - discriminate Hr.
  - split; [exact Hin | exact Hs].
Defined.
